(** * Q0Measurement: the measurement-session engine of [container.py]

    A shallow embedding of the run segmentation, the settle-time trimmer,
    the Q0 derivation and the session cache of [container.py], with the
    properties of the specification stated over it.

    Conventions of the embedding.
    - The source is Python 2 with [from __future__ import division]; its
      floats are idealised as rationals ([Q]), and [/] is true division.
    - A buffer cell is either a float or [None], the marker that
      [parseDataFromCSV] appends when a cell does not parse: [option Q].
    - Python exceptions are explicit: a computation of type [py A] either
      returns ([Ok]) or raises ([Raise]).
    - Indices are Python integers ([Z]); list subscripts follow Python,
      including negative subscripts. *)

From Stdlib Require Import ZArith QArith Qabs Qround Qfield Lia Lqa Bool List.
From stdpp Require Import base option list strings sorting gmap.

Set Default Proof Using "Type".
Local Open Scope Z_scope.

(** ** The Python runtime, as far as the engine uses it *)

Module Py.

Inductive exn : Set :=
| TypeError | IndexError | ZeroDivisionError | AttributeError.

Inductive py (A : Type) : Type :=
| Ok (a : A)
| Raise (e : exn).
Arguments Ok {A} a.
Arguments Raise {A} e.

#[export] Instance py_ret : MRet py := fun A a => Ok a.
#[export] Instance py_bind : MBind py := fun A B f m =>
  match m with
  | Ok a => f a
  | Raise e => Raise e
  end.

(** [try: m except TypeError: d] *)
Definition except_TypeError {A} (m : py A) (d : A) : py A :=
  match m with
  | Raise TypeError => Ok d
  | other => other
  end.

(** A float, or [None]. *)
Definition cell : Type := option Q.

(** A cell used as an operand of [-], [*], [/] or [abs]: [None] raises. *)
Definition operand (c : cell) : py Q :=
  match c with
  | Some q => Ok q
  | None => Raise TypeError
  end.

(** Truth value of a cell: [None] and [0.0] are false. *)
Definition truthy (c : cell) : bool :=
  match c with
  | Some q => negb (Qeq_bool q 0)
  | None => false
  end.

Definition Qltb (x y : Q) : bool := negb (Qle_bool y x).

(** [a != b] on cells. *)
Definition ne (a b : cell) : bool :=
  match a, b with
  | Some x, Some y => negb (Qeq_bool x y)
  | None, None => false
  | _, _ => true
  end.

(** [a < q] with [q] a number. Python 2 orders [None] below every
    number instead of raising. *)
Definition lt_num (a : cell) (q : Q) : bool :=
  match a with
  | Some x => Qltb x q
  | None => true
  end.

(** [a / b] under [from __future__ import division]. *)
Definition div (a b : Q) : py Q :=
  if Qeq_bool b 0 then Raise ZeroDivisionError else Ok (a / b)%Q.

(** [int(x)] on a float: truncation toward zero. *)
Definition int (x : Q) : Z :=
  if Qle_bool 0 x then Qfloor x else Qceiling x.

(** [l[i]]: a negative subscript counts from the end, anything outside
    the list raises [IndexError]. *)
Definition get {A} (l : list A) (i : Z) : py A :=
  let n := Z.of_nat (length l) in
  let j := if i <? 0 then i + n else i in
  if (j <? 0) || (n <=? j) then Raise IndexError
  else match l !! Z.to_nat j with
       | Some a => Ok a
       | None => Raise IndexError
       end.

(** [range(a, b)] *)
Definition range (a b : Z) : list Z :=
  map (fun k => a + Z.of_nat k) (seq 0 (Z.to_nat (b - a))).

(** [l.count(0)] on a buffer: [None != 0], and [0.0 == 0]. *)
Definition is_zero (c : cell) : bool :=
  match c with
  | Some q => Qeq_bool q 0
  | None => false
  end.

Definition count0 (l : list cell) : Z :=
  Z.of_nat (length (List.filter is_zero l)).

(** A [numpy] float: [numpy.mean] of an empty list is [nan]. *)
Inductive npfloat : Type :=
| Finite (q : Q)
| NaN.

Definition Qsum (l : list Q) : Q := foldr Qplus 0%Q l.

(** [numpy.mean] *)
Definition mean (l : list Q) : npfloat :=
  match l with
  | [] => NaN
  | _ => Finite (Qsum l / inject_Z (Z.of_nat (length l)))
  end.

End Py.
Import Py.

(** ** The constants imported from [utils]

    [utils.py] is not part of the sources at hand; the engine is
    parametrised by the constants it imports from it. *)

Record Utils : Type := {
  MIN_DS_LL : Q;
  VALVE_POSITION_TOLERANCE : Q;
  HEATER_TOLERANCE : Q;
  GRAD_TOLERANCE : Q;
  MIN_RUN_DURATION : Q;
}.

(** ** Entity model *)

(** A [datetime], as seconds since the epoch. *)
Definition datetime : Type := Z.

(** [DataRun] and [Q0DataRun]: the index range and the fitted slope
    ([None] until [processRuns] has run). The Q0 subclass only adds
    memo fields, so one record serves both. *)
Record DataRun : Type := mkDataRun {
  startIdx : Z;
  endIdx : Z;
  slope : cell;
  num : Z;
}.

Definition set_startIdx (r : DataRun) (i : Z) : DataRun :=
  {| startIdx := i; endIdx := endIdx r; slope := slope r; num := num r |}.

(** The two numbers a [Container] is constructed with. *)
Record ContainerNums : Type := mkContainerNums {
  cryModNumSLAC : Z;
  cryModNumJLAB : Z;
}.

(** [DataSession]: the constructor's arguments (of the container, the
    two numbers), the aligned buffers and the runs. [oid] stands for the
    identity of the Python object. *)
Record DataSession : Type := mkDataSession {
  oid : nat;
  container : ContainerNums;
  startTime : datetime;
  endTime : datetime;
  timeInt : Z;
  refValvePos : Q;
  refHeatLoad : Q;
  unixTimeBuff : list Q;
  valvePosBuff : list cell;
  dsLevelBuff : list cell;
  gradBuff : list cell;
  dsPressBuff : list cell;
  elecHeatDesBuff : list cell;
  elecHeatActBuff : list cell;
  calibSlope : cell;
  heatAdjustment : Q;
  dataRuns : list DataRun;
}.

Definition set_dataRuns (s : DataSession) (rs : list DataRun) : DataSession :=
  {| oid := oid s; container := container s; startTime := startTime s;
     endTime := endTime s; timeInt := timeInt s;
     refValvePos := refValvePos s; refHeatLoad := refHeatLoad s;
     unixTimeBuff := unixTimeBuff s; valvePosBuff := valvePosBuff s;
     dsLevelBuff := dsLevelBuff s; gradBuff := gradBuff s;
     dsPressBuff := dsPressBuff s; elecHeatDesBuff := elecHeatDesBuff s;
     elecHeatActBuff := elecHeatActBuff s; calibSlope := calibSlope s;
     heatAdjustment := heatAdjustment s; dataRuns := rs |}.

(** [Q0DataSession(DataSession)]: the inherited part, the reference
    gradient and the calibration session it depends on (both nullable in
    the signatures of [Cavity]). *)
Record Q0DataSession : Type := mkQ0DataSession {
  base : DataSession;
  refGradVal : cell;
  calibSession : option DataSession;
}.

Definition set_base (q : Q0DataSession) (s : DataSession) : Q0DataSession :=
  {| base := s; refGradVal := refGradVal q; calibSession := calibSession q |}.

(** A session is a calibration session or a Q0 session; overridden
    methods dispatch on the constructor. *)
Inductive Session : Type :=
| Calib (s : DataSession)
| Q0Meas (q : Q0DataSession).

Definition session_base (s : Session) : DataSession :=
  match s with
  | Calib d => d
  | Q0Meas q => base q
  end.

Definition with_base (s : Session) (d : DataSession) : Session :=
  match s with
  | Calib _ => Calib d
  | Q0Meas q => Q0Meas (set_base q d)
  end.

Definition isQ0 (s : Session) : bool :=
  match s with
  | Calib _ => false
  | Q0Meas _ => true
  end.

(** ** Run segmentation *)

Section Segmentation.

Context (U : Utils).

(** [DataSession.addRun] / [Q0DataSession.addRun] *)
Definition addRun (s : DataSession) (startIdx_ endIdx_ : Z) : DataSession :=
  set_dataRuns s
    (dataRuns s ++
     [mkDataRun startIdx_ endIdx_ None (Z.of_nat (length (dataRuns s)) + 1)]).

(** [DataSession.isEndOfCalibRun] *)
Definition isEndOfCalibRun (s : DataSession) (idx : Z) (elecHeatLoad : cell)
  : py bool :=
  prevElecHeatLoad ←
    (if 0 <? idx then get (elecHeatDesBuff s) (idx - 1)
     else Ok elecHeatLoad);
  let heaterChanged := ne elecHeatLoad prevElecHeatLoad in
  level ← get (dsLevelBuff s) idx;
  let liqLevelTooLow := lt_num level (MIN_DS_LL U) in
  valve ← get (valvePosBuff s) idx;
  v ← operand valve;
  let valveOutsideTol :=
    Qltb (VALVE_POSITION_TOLERANCE U) (Qabs (v - refValvePos s)) in
  let isLastElement :=
    idx =? Z.of_nat (length (elecHeatDesBuff s)) - 1 in
  act ← get (elecHeatActBuff s) idx;
  e ← operand elecHeatLoad;
  a ← operand act;
  let heatersOutsideTol :=
    Qle_bool (HEATER_TOLERANCE U) (Qabs (e - a)) in
  Ok (heaterChanged || liqLevelTooLow || valveOutsideTol
      || isLastElement || heatersOutsideTol).

(** [DataSession.checkAndFlushRun]: the new pending start and the
    session with the run appended, if one was. *)
Definition checkAndFlushRun (s : DataSession) (isEndOfRun : bool)
    (idx runStartIdx : Z) : py (Z * DataSession) :=
  if isEndOfRun then
    t_idx ← get (unixTimeBuff s) idx;
    t_start ← get (unixTimeBuff s) runStartIdx;
    let runDuration := (t_idx - t_start)%Q in
    if Qle_bool (MIN_RUN_DURATION U) runDuration
    then Ok (idx, addRun s runStartIdx (idx - 1))
    else Ok (idx, s)
  else Ok (runStartIdx, s).

(** The gradient test of [Q0DataSession.populateRuns]: only the
    [TypeError] of an operation on [None] is caught. *)
Definition gradChanged (s : DataSession) (idx : Z) : py bool :=
  except_TypeError
    (if negb (idx =? 0) then
       gi ← get (gradBuff s) idx;
       gp ← get (gradBuff s) (idx - 1);
       x ← operand gi;
       y ← operand gp;
       Ok (Qltb (GRAD_TOLERANCE U) (Qabs (x - y)))
     else Ok false)
    false.

Definition isEndOfQ0Run (s : DataSession) (idx : Z) (elecHeatLoad : cell)
  : py bool :=
  gc ← gradChanged s idx;
  e ← isEndOfCalibRun s idx elecHeatLoad;
  Ok (e || gc).

(** The break test each kind of session applies. *)
Definition isEndOfRun (k : Session) (idx : Z) (elecHeatLoad : cell)
  : py bool :=
  match k with
  | Calib s => isEndOfCalibRun s idx elecHeatLoad
  | Q0Meas q => isEndOfQ0Run (base q) idx elecHeatLoad
  end.

(** The body of [for idx, elecHeatLoad in enumerate(self.elecHeatDesBuff)],
    on the items that remain. *)
Fixpoint populate_loop (k : Session) (items : list cell) (idx runStartIdx : Z)
  : py Session :=
  match items with
  | [] => Ok k
  | elecHeatLoad :: rest =>
      isEnd ← isEndOfRun k idx elecHeatLoad;
      r ← checkAndFlushRun (session_base k) isEnd idx runStartIdx;
      populate_loop (with_base k r.2) rest (idx + 1) r.1
  end.

(** [DataSession.populateRuns] and [Q0DataSession.populateRuns] *)
Definition populateRuns (k : Session) : py Session :=
  populate_loop k (elecHeatDesBuff (session_base k)) 0 0.

End Segmentation.

(** ** Settle-time trimmer *)

(** [Q0DataSession.approxHeatFromGrad]. Python 2 evaluates [None > 0]
    to false, so a missing gradient contributes no heat. *)
Definition approxHeatFromGrad (grad : cell) : Q :=
  match grad with
  | Some g => if Qltb 0 g then ((g / 16) ^ 2 * (96 # 10))%Q else 0%Q
  | None => 0%Q
  end.

(** [DataSession.getTotalHeatDelta] *)
Definition getTotalHeatDelta_calib (s : DataSession) (startIdx_ currIdx : Z)
  : py Q :=
  if currIdx =? 0 then
    d ← get (elecHeatDesBuff s) startIdx_;
    x ← operand d;
    Ok (x - refHeatLoad s)%Q
  else
    prev ← get (dataRuns s) (currIdx - 1);
    let prevStartIdx := startIdx prev in
    d ← get (elecHeatDesBuff s) startIdx_;
    dp ← get (elecHeatDesBuff s) prevStartIdx;
    x ← operand d;
    y ← operand dp;
    let elecHeatDelta := (x - y)%Q in
    Ok (Qabs elecHeatDelta).

(** [Q0DataSession.getTotalHeatDelta] *)
Definition getTotalHeatDelta_q0 (s : DataSession) (startIdx_ currIdx : Z)
  : py Q :=
  if currIdx =? 0 then
    d ← get (elecHeatDesBuff s) startIdx_;
    x ← operand d;
    let totalHeatDelta := (x - refHeatLoad s)%Q in
    g ← get (gradBuff s) startIdx_;
    Ok (totalHeatDelta + approxHeatFromGrad g)%Q
  else
    prev ← get (dataRuns s) (currIdx - 1);
    let prevStartIdx := startIdx prev in
    d ← get (elecHeatDesBuff s) startIdx_;
    dp ← get (elecHeatDesBuff s) prevStartIdx;
    x ← operand d;
    y ← operand dp;
    let elecHeatDelta := (x - y)%Q in
    currGrad ← get (gradBuff s) startIdx_;
    let currGradHeatLoad := approxHeatFromGrad currGrad in
    prevGrad ← get (gradBuff s) prevStartIdx;
    let prevGradHeatLoad := approxHeatFromGrad prevGrad in
    let gradHeatDelta := (currGradHeatLoad - prevGradHeatLoad)%Q in
    Ok (Qabs (elecHeatDelta + gradHeatDelta)).

Definition getTotalHeatDelta (k : Session) (startIdx_ currIdx : Z) : py Q :=
  match k with
  | Calib s => getTotalHeatDelta_calib s startIdx_ currIdx
  | Q0Meas q => getTotalHeatDelta_q0 (base q) startIdx_ currIdx
  end.

(** [while duration < cutoff: idx += 1; duration = unixTimeBuff[idx] - startTime].
    Each turn reads one index further, so the loop ends after at most
    [fuel] turns once [idx + fuel] is the length of the buffer: the
    read at that index raises. *)
Fixpoint settle_loop (times : list Q) (startTime : Q) (cutoff : Z)
    (fuel : nat) (idx : Z) (duration : Q) : py Z :=
  if Qltb duration (inject_Z cutoff) then
    match fuel with
    | O => Raise IndexError
    | S fuel' =>
        t ← get times (idx + 1);
        settle_loop times startTime cutoff fuel' (idx + 1) (t - startTime)%Q
    end
  else Ok idx.

(** One turn of [for i, run in enumerate(self.dataRuns)]. *)
Definition adjust_run (k : Session) (i : nat) : py Session :=
  let s := session_base k in
  run ← get (dataRuns s) (Z.of_nat i);
  totalHeatDelta ← getTotalHeatDelta k (startIdx run) (Z.of_nat i);
  let cutoff := int (totalHeatDelta * 25) in
  let idx := startIdx run in
  startTime ← get (unixTimeBuff s) idx;
  idx' ← settle_loop (unixTimeBuff s) startTime cutoff
           (Z.to_nat (Z.of_nat (length (unixTimeBuff s)) - idx)) idx 0%Q;
  Ok (with_base k
        (set_dataRuns s (<[i := set_startIdx run idx']> (dataRuns s)))).

Fixpoint adjust_loop (k : Session) (turns : list nat) : py Session :=
  match turns with
  | [] => Ok k
  | i :: rest => k' ← adjust_run k i; adjust_loop k' rest
  end.

(** [DataSession.adjustForSettle] *)
Definition adjustForSettle (k : Session) : py Session :=
  adjust_loop k (seq 0 (length (dataRuns (session_base k)))).


(** ** Q0 derivation *)

Section Q0Derivation.

(** [numpy.exp], on the idealised floats. *)
Context (exp : Q -> Q).

(** [DataRun.elecHeatLoad] *)
Definition elecHeatLoad (s : DataSession) (r : DataRun) : py Q :=
  a ← get (elecHeatActBuff s) (endIdx r);
  a0 ← get (elecHeatActBuff s) 0;
  x ← operand a;
  y ← operand a0;
  Ok (x - y + heatAdjustment s)%Q.

(** [DataRun.elecHeatLoadDes] *)
Definition elecHeatLoadDes (s : DataSession) (r : DataRun) : py Q :=
  d ← get (elecHeatDesBuff s) (endIdx r);
  x ← operand d;
  Ok (x - refHeatLoad s)%Q.

(** [DataRun.isNotHeaterRun] *)
Definition isNotHeaterRun (s : DataSession) (r : DataRun) : py bool :=
  d ← elecHeatLoadDes s r;
  Ok (Qeq_bool d 0).

(** [self.dataSession.calibSession.calibSlope] *)
Definition calibSession_calibSlope (q : Q0DataSession) : py cell :=
  match calibSession q with
  | Some c => Ok (calibSlope c)
  | None => Raise AttributeError
  end.

(** [self.slope / self.dataSession.calibSession.calibSlope] *)
Definition slope_over_calibSlope (q : Q0DataSession) (r : DataRun) : py Q :=
  m ← calibSession_calibSlope q;
  x ← operand (slope r);
  y ← operand m;
  div x y.

(** [Q0DataRun.heatAdjustment]: [None] for a run that is not a heater
    run. *)
Definition run_heatAdjustment (q : Q0DataSession) (r : DataRun) : py cell :=
  d ← elecHeatLoadDes (base q) r;
  if negb (Qeq_bool d 0) then
    calcHeatLoad ← slope_over_calibSlope q r;
    e ← elecHeatLoad (base q) r;
    Ok (Some (e - calcHeatLoad)%Q)
  else Ok None.

(** [Q0DataSession.aveHeatAdjustment] *)
Definition aveHeatAdjustment (q : Q0DataSession) : py Q :=
  all ← mapM (run_heatAdjustment q) (dataRuns (base q));
  let adjustments := omap (fun c => if truthy c then c else None) all in
  match mean adjustments with
  | Finite m => Ok m
  | NaN => Ok 0%Q
  end.

(** [Q0DataRun.totalHeatLoad] *)
Definition totalHeatLoad (q : Q0DataSession) (r : DataRun) : py Q :=
  nh ← isNotHeaterRun (base q) r;
  if (nh : bool) then
    x ← slope_over_calibSlope q r;
    a ← aveHeatAdjustment q;
    Ok (x + a)%Q
  else elecHeatLoad (base q) r.

(** [Q0DataRun.rfHeatLoad] *)
Definition rfHeatLoad (q : Q0DataSession) (r : DataRun) : py Q :=
  d ← elecHeatLoadDes (base q) r;
  if negb (Qeq_bool d 0) then Ok 0%Q
  else
    t ← totalHeatLoad q r;
    e ← elecHeatLoad (base q) r;
    Ok (t - e)%Q.

(** [uncorrectedQ0] of [calcQ0]. *)
Definition uncorrectedQ0 (grad rfHeatLoad : Q) : py Q :=
  div ((grad * 1000000) ^ 2)%Q ((9393 # 10) * rfHeatLoad)%Q.

(** [Q0DataRun.calcQ0] *)
Definition calcQ0 (grad : cell) (rfHeatLoad : Q) (avgPressure : cell)
  : py Q :=
  g ← operand grad;
  uncorrected ← uncorrectedQ0 g rfHeatLoad;
  if truthy avgPressure then
    p ← operand avgPressure;
    let tempFromPress := (p * (125 # 10000) + (1705 # 1000))%Q in
    let C1 := 271%Q in
    let C2 := (726 # 10000000)%Q in
    let C3 := (214 # 100000000)%Q in
    let C4 := (g - (7 # 10))%Q in
    let C5 := (43 # 1000000000)%Q in
    let C6 := (- (1702 # 100))%Q in
    let C7 := (C2 - C3 * C4 + C5 * C4 ^ 2)%Q in
    a ← div C1 uncorrected;
    b ← div C7 tempFromPress;
    c ← div C6 tempFromPress;
    div C1 (C7 / 2 * exp (C6 / 2) + a - b * exp c)%Q
  else Ok uncorrected.

(** The gradient [q0] passes to [calcQ0] for the sample at [idx]:
    [archiveGrad if archiveGrad else self.dataSession.refGradVal]. *)
Definition gradForSample (q : Q0DataSession) (idx : Z) : py cell :=
  archiveGrad ← get (gradBuff (base q)) idx;
  Ok (if truthy archiveGrad then archiveGrad else refGradVal q).

(** The value [q0] appends to [q0s] for the sample at [idx]. *)
Definition sampleQ0 (q : Q0DataSession) (r : DataRun) (idx : Z) : py Q :=
  g ← gradForSample q idx;
  rf ← rfHeatLoad q r;
  p ← get (dsPressBuff (base q)) idx;
  calcQ0 g rf p.

(** [Q0DataRun.q0]: the value returned ([None] at the outer level is
    Python's [None]) and the counts written to the diagnostic stream. *)
Definition q0 (q : Q0DataSession) (r : DataRun)
  : py (option npfloat * list Z) :=
  d ← elecHeatLoadDes (base q) r;
  if negb (Qeq_bool d 0) then Ok (None, @nil Z)
  else
    let numInvalidGrads := count0 (gradBuff (base q)) in
    q0s ← mapM (sampleQ0 q r) (range (startIdx r) (endIdx r));
    Ok (Some (mean q0s),
        if numInvalidGrads =? 0 then [] else [numInvalidGrads]).

End Q0Derivation.

(** ** Session cache *)

(** The two concrete containers; a cavity knows its number. *)
Inductive ContainerKind : Type :=
| Cryomodule
| Cavity (cavNum : Z).

(** [Container]: its numbers and [self.dataSessions], a dictionary keyed
    by the integer [self.hash(...)] returns. *)
Record Container : Type := mkContainer {
  kind : ContainerKind;
  nums : ContainerNums;
  dataSessions : gmap Z Session;
}.

(** The arguments of one call of [addDataSession]. *)
Record Request : Type := mkRequest {
  rq_startTime : datetime;
  rq_endTime : datetime;
  rq_timeInt : Z;
  rq_refValvePos : Q;
  rq_refHeatLoad : cell;
  rq_refGradVal : cell;
  rq_calibSession : option DataSession;
}.

Definition session_oid (k : Session) : nat := oid (session_base k).

Section SessionCache.

(** Python's built-in [hash] on the types of the identity fields. *)
Context (hash_datetime : datetime -> Z) (hash_int : Z -> Z)
        (hash_float : Q -> Z) (hash_None : Z).

(** What [cagetPV] reads back for each of [self.heaterActPVs]. *)
Context (heaterActs : list Q).

(** [DataSession.hash] *)
Definition DataSession_hash (startTime_ endTime_ : datetime)
    (timeInt_ slacNum jlabNum : Z) : Z :=
  Z.lxor (Z.lxor (Z.lxor (Z.lxor (hash_datetime startTime_)
                                 (hash_datetime endTime_))
                         (hash_int timeInt_))
                 (hash_int slacNum))
         (hash_int jlabNum).

(** [DataSession.__hash__], which [hash(calibSession)] calls. *)
Definition DataSession___hash__ (s : DataSession) : Z :=
  DataSession_hash (startTime s) (endTime s) (timeInt s)
    (cryModNumSLAC (container s)) (cryModNumJLAB (container s)).

Definition hash_calibSession (c : option DataSession) : Z :=
  match c with
  | Some s => DataSession___hash__ s
  | None => hash_None
  end.

Definition hash_refGradVal (g : cell) : Z :=
  match g with
  | Some x => hash_float x
  | None => hash_None
  end.

(** [Q0DataSession.hash] *)
Definition Q0DataSession_hash (startTime_ endTime_ : datetime)
    (timeInt_ slacNum jlabNum : Z) (calibSession_ : option DataSession)
    (refGradVal_ : cell) : Z :=
  Z.lxor (Z.lxor (DataSession_hash startTime_ endTime_ timeInt_
                    slacNum jlabNum)
                 (hash_calibSession calibSession_))
         (hash_refGradVal refGradVal_).

(** [Cryomodule.hash] and [Cavity.hash] *)
Definition Container_hash (c : Container) (startTime_ endTime_ : datetime)
    (timeInt_ slacNum jlabNum : Z) (calibSession_ : option DataSession)
    (refGradVal_ : cell) : Z :=
  match kind c with
  | Cryomodule =>
      DataSession_hash startTime_ endTime_ timeInt_ slacNum jlabNum
  | Cavity _ =>
      Q0DataSession_hash startTime_ endTime_ timeInt_ slacNum jlabNum
        calibSession_ refGradVal_
  end.

(** [DataSession.__init__] for a newly allocated object. *)
Definition new_DataSession (o : nat) (c : Container)
    (startTime_ endTime_ : datetime) (timeInt_ : Z)
    (refValvePos_ refHeatLoad_ : Q) : DataSession :=
  {| oid := o; container := nums c; startTime := startTime_;
     endTime := endTime_; timeInt := timeInt_;
     refValvePos := refValvePos_; refHeatLoad := refHeatLoad_;
     unixTimeBuff := []; valvePosBuff := []; dsLevelBuff := [];
     gradBuff := []; dsPressBuff := []; elecHeatDesBuff := [];
     elecHeatActBuff := []; calibSlope := None; heatAdjustment := 0%Q;
     dataRuns := [] |}.

(** [Cryomodule.genDataSession] and [Cavity.genDataSession] *)
Definition genDataSession (o : nat) (c : Container)
    (startTime_ endTime_ : datetime) (timeInt_ : Z)
    (refValvePos_ refHeatLoad_ : Q) (refGradVal_ : cell)
    (calibSession_ : option DataSession) : Session :=
  match kind c with
  | Cryomodule =>
      Calib (new_DataSession o c startTime_ endTime_ timeInt_
               refValvePos_ refHeatLoad_)
  | Cavity _ =>
      Q0Meas {| base := new_DataSession o c startTime_ endTime_ timeInt_
                          refValvePos_ refHeatLoad_;
                refGradVal := refGradVal_;
                calibSession := calibSession_ |}
  end.

(** The key [addDataSession] computes for a request. *)
Definition sessionHash (c : Container) (rq : Request) : Z :=
  Container_hash c (rq_startTime rq) (rq_endTime rq) (rq_timeInt rq)
    (cryModNumSLAC (nums c)) (cryModNumJLAB (nums c))
    (rq_calibSession rq) (rq_refGradVal rq).

(** [Container.addDataSession]. [allocated] counts the session objects
    constructed so far; the result is the session returned, the
    container and the new count. *)
Definition addDataSession (c : Container) (allocated : nat) (rq : Request)
  : Session * Container * nat :=
  let refHeatLoad_ :=
    if truthy (rq_refHeatLoad rq) then default 0%Q (rq_refHeatLoad rq)
    else foldl Qplus 0%Q heaterActs in
  let key := sessionHash c rq in
  match dataSessions c !! key with
  | Some cached => (cached, c, allocated)
  | None =>
      let session :=
        genDataSession allocated c (rq_startTime rq) (rq_endTime rq)
          (rq_timeInt rq) (rq_refValvePos rq) refHeatLoad_
          (rq_refGradVal rq) (rq_calibSession rq) in
      (session,
       {| kind := kind c; nums := nums c;
          dataSessions := <[key := session]> (dataSessions c) |},
       S allocated)
  end.

(** A caller issuing requests one after the other. *)
Fixpoint addDataSessions (c : Container) (allocated : nat)
    (rqs : list Request) : list Session * Container * nat :=
  match rqs with
  | [] => ([], c, allocated)
  | rq :: rest =>
      let '(s, c1, n1) := addDataSession c allocated rq in
      let '(ss, c2, n2) := addDataSessions c1 n1 rest in
      (s :: ss, c2, n2)
  end.

End SessionCache.

(** ** The pipeline of [processData]

    [DataSession.processData] after [parseDataFromCSV], up to the
    trimming: the regression and the plots that follow are left to
    [scipy] and [matplotlib]. *)
Definition processData (U : Utils) (k : Session) : py Session :=
  k1 ← populateRuns U k;
  match dataRuns (session_base k1) with
  | [] => Ok k1
  | _ => adjustForSettle k1
  end.

(** ** The break conditions, in the words of the specification *)

(** The buffer holds the number [x] at index [i]. *)
Definition reads (buf : list cell) (i : Z) (x : Q) : Prop :=
  get buf i = Ok (Some x).

(** Buffers are aligned when all those the session fills have one
    length; only a Q0 session fills the gradient and pressure buffers. *)
Definition aligned (k : Session) : Prop :=
  let s := session_base k in
  let n := length (elecHeatDesBuff s) in
  length (unixTimeBuff s) = n /\ length (valvePosBuff s) = n
  /\ length (dsLevelBuff s) = n /\ length (elecHeatActBuff s) = n
  /\ (isQ0 k = true ->
      length (gradBuff s) = n /\ length (dsPressBuff s) = n).

(** No cell of the buffer is the missing-value marker. *)
Definition numeric (buf : list cell) : Prop := Forall is_Some buf.

Section BreakConditions.

Context (U : Utils).

Definition heaterChanged_at (s : DataSession) (i : Z) : Prop :=
  0 < i /\ exists d dp, reads (elecHeatDesBuff s) i d
                        /\ reads (elecHeatDesBuff s) (i - 1) dp
                        /\ ~ (d == dp)%Q.

Definition gradChanged_at (s : DataSession) (i : Z) : Prop :=
  0 < i /\ exists g gp, reads (gradBuff s) i g
                        /\ reads (gradBuff s) (i - 1) gp
                        /\ (GRAD_TOLERANCE U < Qabs (g - gp))%Q.

Definition liqLevelTooLow_at (s : DataSession) (i : Z) : Prop :=
  exists l, reads (dsLevelBuff s) i l /\ (l < MIN_DS_LL U)%Q.

Definition valveOutsideTol_at (s : DataSession) (i : Z) : Prop :=
  exists v, reads (valvePosBuff s) i v
            /\ (VALVE_POSITION_TOLERANCE U < Qabs (v - refValvePos s))%Q.

(** The readback deviates from the setpoint by [beyond tolerance
    deviation]: strictly more than the tolerance, or at least it. *)
Definition heatersOutsideTol_at (beyond : Q -> Q -> Prop)
    (s : DataSession) (i : Z) : Prop :=
  exists d a, reads (elecHeatDesBuff s) i d
              /\ reads (elecHeatActBuff s) i a
              /\ beyond (HEATER_TOLERANCE U) (Qabs (a - d)).

Definition isLastElement_at (s : DataSession) (i : Z) : Prop :=
  i = Z.of_nat (length (elecHeatDesBuff s)) - 1.

Definition break_at (beyond : Q -> Q -> Prop) (k : Session) (i : Z) : Prop :=
  let s := session_base k in
  heaterChanged_at s i
  \/ (isQ0 k = true /\ gradChanged_at s i)
  \/ liqLevelTooLow_at s i
  \/ valveOutsideTol_at s i
  \/ heatersOutsideTol_at beyond s i
  \/ isLastElement_at s i.

End BreakConditions.

(** ** Sample data *)

(** Sample values of the constants; the valve and gradient tolerances
    are those [measureQ0.py] defines. *)
Definition utils_sample : Utils :=
  {| MIN_DS_LL := 90; VALVE_POSITION_TOLERANCE := 2; HEATER_TOLERANCE := 1;
     GRAD_TOLERANCE := 7 # 10; MIN_RUN_DURATION := 900 |}.

Definition floats (l : list Q) : list cell := map Some l.

(** A session on cryomodule 12/2 with the given references, buffers and
    runs. *)
Definition session_of (refValvePos_ refHeatLoad_ : Q) (times : list Q)
    (valve level grad press des act : list cell) (runs : list DataRun)
  : DataSession :=
  {| oid := 0%nat; container := mkContainerNums 12 2; startTime := 0;
     endTime := 0; timeInt := 1;
     refValvePos := refValvePos_; refHeatLoad := refHeatLoad_;
     unixTimeBuff := times; valvePosBuff := valve; dsLevelBuff := level;
     gradBuff := grad; dsPressBuff := press; elecHeatDesBuff := des;
     elecHeatActBuff := act; calibSlope := None; heatAdjustment := 0%Q;
     dataRuns := runs |}.

(** Three samples; at index 1 the heater readback is off the setpoint by
    exactly the heater tolerance and nothing else happens. *)
Definition session_heater_at_tolerance : DataSession :=
  session_of 30 5 [0; 1; 2]%Q
    (floats [30; 30; 30]%Q) (floats [95; 95; 95]%Q) [] []
    (floats [5; 5; 5]%Q) (floats [5; 4; 5]%Q) [].

(** The elapsed time between the samples at the start and at the end
    index of a run. *)
Definition run_elapsed (times : list Q) (r : DataRun) : py Q :=
  t_end ← get times (endIdx r);
  t_start ← get times (startIdx r);
  Ok (t_end - t_start)%Q.

(** What [checkAndFlushRun] tested when it emitted the run: the elapsed
    time between the sample at the start index and the sample at the
    break index, one past the end index. *)
Definition run_meets_minimum (U : Utils) (times : list Q) (r : DataRun)
  : Prop :=
  exists t_start t_break,
    get times (startIdx r) = Ok t_start
    /\ get times (endIdx r + 1) = Ok t_break
    /\ (MIN_RUN_DURATION U <= t_break - t_start)%Q.

(** Five samples 450 s apart; the heater setpoint steps at index 2. *)
Definition session_heater_step : DataSession :=
  session_of 30 1 [0; 450; 900; 1350; 1800]%Q
    (floats [30; 30; 30; 30; 30]%Q) (floats [95; 95; 95; 95; 95]%Q) [] []
    (floats [1; 1; 2; 2; 2]%Q) (floats [1; 1; 2; 2; 2]%Q) [].

(** A Q0 session of three samples whose gradient cell at index 1 did
    not parse. *)
Definition session_missing_gradient : DataSession :=
  session_of 30 0 [0; 1; 2]%Q
    (floats [30; 30; 30]%Q) (floats [95; 95; 95]%Q)
    [Some 16%Q; None; Some 16%Q] (floats [23; 23; 23]%Q)
    (floats [0; 0; 0]%Q) (floats [0; 0; 0]%Q) [].

(** Five samples 600 s apart with the heaters at [w] watts over a
    reference of [ref]; the level dips below the floor at index 2. *)
Definition session_level_dip (ref w : Q) : DataSession :=
  session_of 30 ref [0; 600; 1200; 1800; 2400]%Q
    (floats [30; 30; 30; 30; 30]%Q) (floats [95; 95; 85; 95; 95]%Q) [] []
    (floats [w; w; w; w; w]) (floats [w; w; w; w; w]) [].

(** The trimmed start index of a run indexes a sample. *)
Definition start_in_buffer (times : list Q) (r : DataRun) : Prop :=
  exists t, get times (startIdx r) = Ok t.

(** A calibration session whose fit gave the slope [m]. *)
Definition calibration_with_slope (m : Q) : DataSession :=
  {| oid := 0%nat; container := mkContainerNums 12 2; startTime := 0;
     endTime := 0; timeInt := 1; refValvePos := 30; refHeatLoad := 0;
     unixTimeBuff := []; valvePosBuff := []; dsLevelBuff := [];
     gradBuff := []; dsPressBuff := []; elecHeatDesBuff := [];
     elecHeatActBuff := []; calibSlope := Some m; heatAdjustment := 0%Q;
     dataRuns := [] |}.

(** A Q0 session of five samples with the heaters [w] watts over a
    reference of 0, the given gradient readings, no pressure reading, a
    reference gradient of 16 and one run [0 .. 3] fitted with the slope
    [m]; the calibration slope is -1/1000. *)
Definition rf_run (m : Q) : DataRun := mkDataRun 0 3 (Some m) 1.

Definition q0_session (w : Q) (grads : list cell) (m : Q) : Q0DataSession :=
  {| base := session_of 30 0 [0; 600; 1200; 1800; 2400]%Q
               (floats [30; 30; 30; 30; 30]%Q)
               (floats [95; 95; 95; 95; 95]%Q)
               grads [None; None; None; None; None]
               (floats [w; w; w; w; w]) (floats [w; w; w; w; w])
               [rf_run m];
     refGradVal := Some 16%Q;
     calibSession := Some (calibration_with_slope (- (1 # 1000))) |}.

(** An RF run during which the level rose. *)
Definition q0_session_rising : Q0DataSession :=
  q0_session 0 (floats [16; 16; 16; 16; 16]%Q) (1 # 1000).

(** A heater run, 3 W over the reference. *)
Definition q0_session_heater : Q0DataSession :=
  q0_session 3 (floats [0; 0; 0; 0; 0]%Q) (- (3 # 1000)).

(** An RF run whose gradient readings are all zero. *)
Definition q0_session_zero_grads : Q0DataSession :=
  q0_session 0 (floats [0; 0; 0; 0; 0]%Q) (- (5 # 1000)).

(** An RF run with two readings that did not parse, and zero readings
    at its first sample and after its end. *)
Definition q0_session_mixed_grads : Q0DataSession :=
  q0_session 0 [Some 0%Q; None; None; Some 16%Q; Some 0%Q] (- (5 # 1000)).

(** The number of samples of a run for which [q0] passes the reference
    gradient in place of the reading. *)
Definition substituted (q : Q0DataSession) (r : DataRun) : Z :=
  Z.of_nat
    (length
       (List.filter
          (fun idx => match get (gradBuff (base q)) idx with
                      | Ok c => negb (truthy c)
                      | Raise _ => false
                      end)
          (range (startIdx r) (endIdx r)))).

(** Two requests have equal identity fields: the times and the sample
    interval and, on a cavity, the calibration session and the reference
    gradient (the two cryomodule numbers are those of the container). *)
Definition same_identity (c : Container) (r1 r2 : Request) : Prop :=
  rq_startTime r1 = rq_startTime r2
  /\ rq_endTime r1 = rq_endTime r2
  /\ rq_timeInt r1 = rq_timeInt r2
  /\ match kind c with
     | Cryomodule => True
     | Cavity _ => rq_calibSession r1 = rq_calibSession r2
                   /\ rq_refGradVal r1 = rq_refGradVal r2
     end.

(** A newly constructed container: [self.dataSessions = {}]. *)
Definition new_Container (k : ContainerKind) (n : ContainerNums) : Container :=
  {| kind := k; nums := n; dataSessions := ∅ |}.

(** Two requests to cryomodule 12/2 that differ by exchanging the start
    and end times. *)
Definition request_forward : Request :=
  {| rq_startTime := 1551093900; rq_endTime := 1551112572; rq_timeInt := 1;
     rq_refValvePos := 30; rq_refHeatLoad := Some 48%Q;
     rq_refGradVal := None; rq_calibSession := None |}.

Definition request_backward : Request :=
  {| rq_startTime := 1551112572; rq_endTime := 1551093900; rq_timeInt := 1;
     rq_refValvePos := 30; rq_refHeatLoad := Some 48%Q;
     rq_refGradVal := None; rq_calibSession := None |}.

(** Two requests to a cavity that differ in the sample interval and in
    the reference gradient: 1 s at 16 MV/m, and 16 s at 1 MV/m. *)
Definition request_1s_16MV : Request :=
  {| rq_startTime := 1551093900; rq_endTime := 1551112572; rq_timeInt := 1;
     rq_refValvePos := 30; rq_refHeatLoad := Some 48%Q;
     rq_refGradVal := Some (inject_Z 16);
     rq_calibSession := Some (calibration_with_slope (- (1 # 1000))) |}.

Definition request_16s_1MV : Request :=
  {| rq_startTime := 1551093900; rq_endTime := 1551112572; rq_timeInt := 16;
     rq_refValvePos := 30; rq_refHeatLoad := Some 48%Q;
     rq_refGradVal := Some (inject_Z 1);
     rq_calibSession := Some (calibration_with_slope (- (1 # 1000))) |}.

(** Cryomodule 12/2 before any request, the session it constructs for
    [request_forward], and its state after that request, with integers
    and times hashing to themselves. *)
Definition cryomodule_12 : Container :=
  new_Container Cryomodule (mkContainerNums 12 2).

Definition session_forward : Session :=
  genDataSession 0 cryomodule_12 1551093900 1551112572 1 30 48 None None.

Definition cryomodule_12_after : Container :=
  {| kind := Cryomodule; nums := mkContainerNums 12 2;
     dataSessions :=
       <[sessionHash (fun t => t) (fun n => n) (fun _ => 0) 0
           cryomodule_12 request_forward := session_forward]> ∅ |}.

(** How trimming may change a run: the start index does not decrease,
    the end index stays, and a start index that indexed a sample still
    does. *)
Definition trims (times : list Q) (r r' : DataRun) : Prop :=
  startIdx r <= startIdx r' /\ endIdx r' = endIdx r
  /\ (start_in_buffer times r -> start_in_buffer times r').

(** What the cache of a container satisfies when [allocated] sessions
    exist, [n0] of them before the container was constructed: its
    sessions are among the allocated ones, no two keys share one, and
    it holds as many sessions as were constructed since. *)
Definition cache_ok (n0 : nat) (c : Container) (allocated : nat) : Prop :=
  (forall k s, dataSessions c !! k = Some s ->
               (session_oid s < allocated)%nat)
  /\ (forall k1 k2 s1 s2,
         dataSessions c !! k1 = Some s1 -> dataSessions c !! k2 = Some s2 ->
         session_oid s1 = session_oid s2 -> k1 = k2)
  /\ (n0 + size (dataSessions c) = allocated)%nat.

(** ** The run list of a segmented session *)

(** The session with its run list replaced, everything else as it is. *)
Definition set_runs (k : Session) (rs : list DataRun) : Session :=
  with_base k (set_dataRuns (session_base k) rs).

(** A run lies in a buffer of [n] samples: its start index is not
    negative and at most one past its end index, and it ends before the
    last index of the buffer. *)
Definition run_in_buffer (n : Z) (r : DataRun) : Prop :=
  0 <= startIdx r <= endIdx r + 1 /\ endIdx r <= n - 2.

(** Each run ends before the next one starts. *)
Definition runs_apart (runs : list DataRun) : Prop :=
  forall i r r',
    runs !! i = Some r -> runs !! S i = Some r' -> endIdx r < startIdx r'.

(** The runs are numbered from 1 in the order of the list. *)
Definition runs_numbered (runs : list DataRun) : Prop :=
  forall i r, runs !! i = Some r -> num r = Z.of_nat i + 1.

(** The invariant of the loop of [populateRuns] over a buffer of [n]
    samples, with [start] the pending start. *)
Definition segmenting (n start : Z) (runs : list DataRun) : Prop :=
  Forall (run_in_buffer n) runs /\ runs_apart runs /\ runs_numbered runs
  /\ Forall (fun r => slope r = None) runs
  /\ Forall (fun r => endIdx r < start) runs.

(** Three samples in which the valve cell at index 1 did not parse. *)
Definition session_missing_valve : DataSession :=
  session_of 30 1 [0; 600; 1200]%Q
    [Some 30%Q; None; Some 30%Q] (floats [95; 95; 95]%Q) [] []
    (floats [1; 1; 1]%Q) (floats [1; 1; 1]%Q) [].

(** Three samples 600 s apart in which nothing happens. *)
Definition session_quiet : DataSession :=
  session_of 30 1 [0; 600; 1200]%Q
    (floats [30; 30; 30]%Q) (floats [95; 95; 95]%Q) [] []
    (floats [1; 1; 1]%Q) (floats [1; 1; 1]%Q) [].

(** ** The samples of a run, the size of a session *)

(** [l[a:b]]: a negative bound counts from the end, and both bounds are
    clipped to the list. *)
Definition slice {A} (l : list A) (a b : Z) : list A :=
  let n := Z.of_nat (length l) in
  let clip i := Z.max 0 (Z.min n (if i <? 0 then i + n else i)) in
  take (Z.to_nat (clip b - clip a)) (drop (Z.to_nat (clip a)) l).

(** [DataRun.data] *)
Definition run_data (s : DataSession) (r : DataRun) : list cell :=
  slice (dsLevelBuff s) (startIdx r) (endIdx r).

(** [DataRun.times] *)
Definition run_times (s : DataSession) (r : DataRun) : list Q :=
  slice (unixTimeBuff s) (startIdx r) (endIdx r).

(** [DataSession.numPoints]: the value the property computes and keeps
    in [_numPoints]. *)
Definition numPoints (s : DataSession) : py Z :=
  q ← div (inject_Z (endTime s - startTime s)) (inject_Z (timeInt s));
  Ok (int q).

(** The session of [session_level_dip 0 50] after segmentation, and
    after trimming. *)
Definition session_dip_segmented : Session :=
  Calib (set_dataRuns (session_level_dip 0 50)
           [mkDataRun 0 1 None 1; mkDataRun 2 3 None 2]).

Definition session_dip_trimmed : Session :=
  Calib (set_dataRuns (session_level_dip 0 50)
           [mkDataRun 3 1 None 1; mkDataRun 2 3 None 2]).

(** ** The hash of a stored session *)

Section SessionIdentity.

Context (hash_datetime : datetime -> Z) (hash_int : Z -> Z)
        (hash_float : Q -> Z) (hash_None : Z).

(** [Q0DataSession.__hash__] *)
Definition Q0DataSession___hash__ (q : Q0DataSession) : Z :=
  Q0DataSession_hash hash_datetime hash_int hash_float hash_None
    (startTime (base q)) (endTime (base q)) (timeInt (base q))
    (cryModNumSLAC (container (base q)))
    (cryModNumJLAB (container (base q))) (calibSession q) (refGradVal q).

(** [hash(session)], dispatched on the class of the session. *)
Definition Session___hash__ (k : Session) : Z :=
  match k with
  | Calib s => DataSession___hash__ hash_datetime hash_int s
  | Q0Meas q => Q0DataSession___hash__ q
  end.

Definition is_cavity (k : ContainerKind) : bool :=
  match k with
  | Cryomodule => false
  | Cavity _ => true
  end.

(** Every session of the cache is stored under its own hash, belongs to
    the container, and is of the class the container constructs. *)
Definition cache_keyed (c : Container) : Prop :=
  forall key k,
    dataSessions c !! key = Some k ->
    Session___hash__ k = key
    /\ container (session_base k) = nums c
    /\ isQ0 k = is_cavity (kind c).

End SessionIdentity.

(** ** The data file: [parseDataFromCSV] and [generateCSV]

    A file is the list of rows [csv.reader] yields, the header row
    first. What the two functions write to the diagnostic stream is left
    out. *)

Module Csv.

(** The exceptions that leave the two functions. *)
Inductive exn : Set :=
| StopIteration | ValueError | IndexError.

Inductive result (A : Type) : Type :=
| Done (a : A)
| Fail (e : exn).
Arguments Done {A} a.
Arguments Fail {A} e.

(** The buffers [pvBuffMap] and [linkBuffToColumn] link to columns. *)
Inductive buffer : Set :=
| valvePos | dsLevel | grad | dsPress | elecHeatDes | elecHeatAct.

#[global] Instance buffer_eq_dec : EqDecision buffer.
Proof. solve_decision. Defined.

Definition buff (b : buffer) (s : DataSession) : list cell :=
  match b with
  | valvePos => valvePosBuff s
  | dsLevel => dsLevelBuff s
  | grad => gradBuff s
  | dsPress => dsPressBuff s
  | elecHeatDes => elecHeatDesBuff s
  | elecHeatAct => elecHeatActBuff s
  end.

(** The session with its time and data buffers replaced. *)
Definition set_buffers (s : DataSession) (t : list Q)
    (v l g p d a : list cell) : DataSession :=
  {| oid := oid s; container := container s; startTime := startTime s;
     endTime := endTime s; timeInt := timeInt s;
     refValvePos := refValvePos s; refHeatLoad := refHeatLoad s;
     unixTimeBuff := t; valvePosBuff := v; dsLevelBuff := l;
     gradBuff := g; dsPressBuff := p; elecHeatDesBuff := d;
     elecHeatActBuff := a; calibSlope := calibSlope s;
     heatAdjustment := heatAdjustment s; dataRuns := dataRuns s |}.

(** [buffer.append(c)] *)
Definition append (b : buffer) (c : cell) (s : DataSession) : DataSession :=
  let t := unixTimeBuff s in
  let v := valvePosBuff s in
  let l := dsLevelBuff s in
  let g := gradBuff s in
  let p := dsPressBuff s in
  let d := elecHeatDesBuff s in
  let a := elecHeatActBuff s in
  match b with
  | valvePos => set_buffers s t (v ++ [c]) l g p d a
  | dsLevel => set_buffers s t v (l ++ [c]) g p d a
  | grad => set_buffers s t v l (g ++ [c]) p d a
  | dsPress => set_buffers s t v l g (p ++ [c]) d a
  | elecHeatDes => set_buffers s t v l g p (d ++ [c]) a
  | elecHeatAct => set_buffers s t v l g p d (a ++ [c])
  end.

(** [self.unixTimeBuff.append(t)] *)
Definition append_time (t : Q) (s : DataSession) : DataSession :=
  set_buffers s (unixTimeBuff s ++ [t]) (valvePosBuff s) (dsLevelBuff s)
    (gradBuff s) (dsPressBuff s) (elecHeatDesBuff s) (elecHeatActBuff s).

(** [d[key] = v] on a dictionary kept as an association list: the value
    of a key that is present is replaced. The order in which Python
    iterates over a dictionary is not specified; here it is the order of
    insertion. *)
Fixpoint dict_set {V} (key : string) (v : V) (d : list (string * V))
  : list (string * V) :=
  match d with
  | [] => [(key, v)]
  | (k, w) :: rest =>
      if decide (k = key) then (key, v) :: rest
      else (k, w) :: dict_set key v rest
  end.

(** [header.index(column)]: the first position, or [ValueError]. *)
Fixpoint index (header : list string) (column : string) : option nat :=
  match header with
  | [] => None
  | h :: rest =>
      if decide (h = column) then Some 0%nat
      else match index rest column with
           | Some i => Some (S i)
           | None => None
           end
  end.

Section Files.

(** [float(text)] and [datetime.strptime(text, format)]; [None] stands
    for [ValueError]. *)
Context (float : string -> option Q)
        (strptime : string -> string -> option datetime).

(** [container.valvePV], [container.dsLevelPV], [container.gradPV] and
    [container.dsPressurePV], the names the container formats from its
    numbers. *)
Context (valvePV dsLevelPV gradPV dsPressurePV : string).

(** [container.heaterDesPVs] and [container.heaterActPVs] *)
Context (heaterDesPVs heaterActPVs : list string).

(** [str(x)] on a float. *)
Context (str : Q -> string).

(** [self.pvBuffMap], the dictionary literal of [DataSession.__init__]
    and the one of [Q0DataSession.__init__]. *)
Definition pvBuffMap (k : Session) : list (string * buffer) :=
  match k with
  | Calib _ =>
      dict_set dsLevelPV dsLevel (dict_set valvePV valvePos [])
  | Q0Meas _ =>
      dict_set dsPressurePV dsPress
        (dict_set gradPV grad
           (dict_set dsLevelPV dsLevel (dict_set valvePV valvePos [])))
  end.

(** [linkBuffToColumn]: a column missing from the header is reported
    and not linked. *)
Definition linkBuffToColumn (column : string) (dataBuff : buffer)
    (headerRow : list string) (columnDict : list (string * (nat * buffer)))
  : list (string * (nat * buffer)) :=
  match index headerRow column with
  | Some idx => dict_set column (idx, dataBuff) columnDict
  | None => columnDict
  end.

(** [for pv, dataBuffer in self.pvBuffMap.items(): linkBuffToColumn(...)] *)
Fixpoint link_all (items : list (string * buffer)) (header : list string)
    (columnDict : list (string * (nat * buffer)))
  : list (string * (nat * buffer)) :=
  match items with
  | [] => columnDict
  | (pv, dataBuffer) :: rest =>
      link_all rest header (linkBuffToColumn pv dataBuffer header columnDict)
  end.

(** The dictionary once every buffer is linked. *)
Definition columnDict (k : Session) (header : list string)
  : list (string * (nat * buffer)) :=
  linkBuffToColumn "Electric Heat Load Readback" elecHeatAct header
    (linkBuffToColumn "Electric Heat Load Setpoint" elecHeatDes header
       (link_all (pvBuffMap k) header [])).

(** The timestamp column and its format: ["Date"], or else ["time"]. *)
Definition timeColumn (header : list string) : result (nat * string) :=
  match index header "Date" with
  | Some timeIdx => Done (timeIdx, "%Y-%m-%d-%H:%M:%S"%string)
  | None =>
      match index header "time" with
      | Some timeIdx => Done (timeIdx, "%Y-%m-%d %H:%M:%S"%string)
      | None => Fail ValueError
      end
  end.

(** [for col, idxBuffDict in columnDict.items()]: a cell that is not a
    float is appended as [None], a row too short raises. *)
Fixpoint fill_row (row : list string)
    (entries : list (string * (nat * buffer))) (s : DataSession)
  : result DataSession :=
  match entries with
  | [] => Done s
  | (_, (idx, b)) :: rest =>
      match row !! idx with
      | Some text => fill_row row rest (append b (float text) s)
      | None => Fail IndexError
      end
  end.

(** [for row in csvReader] *)
Fixpoint read_rows (rows : list (list string)) (timeIdx : nat)
    (datetimeFormatStr : string)
    (entries : list (string * (nat * buffer)))
    (s : DataSession) (timeBuff : list datetime)
  : result (DataSession * list datetime) :=
  match rows with
  | [] => Done (s, timeBuff)
  | row :: rest =>
      match row !! timeIdx with
      | None => Fail IndexError
      | Some text =>
          match strptime text datetimeFormatStr with
          | None => Fail ValueError
          | Some dt =>
              match fill_row row entries (append_time (inject_Z dt) s) with
              | Done s' =>
                  read_rows rest timeIdx datetimeFormatStr entries s'
                    (timeBuff ++ [dt])
              | Fail e => Fail e
              end
          end
      end
  end.

(** [DataSession.parseDataFromCSV], on the rows of the file of the
    session and the [timeBuff] of the session. *)
Definition parseDataFromCSV (file : list (list string)) (k : Session)
    (timeBuff : list datetime) : result (Session * list datetime) :=
  match file with
  | [] => Fail StopIteration
  | header :: rows =>
      let entries := columnDict k header in
      match timeColumn header with
      | Fail e => Fail e
      | Done (timeIdx, datetimeFormatStr) =>
          match read_rows rows timeIdx datetimeFormatStr entries
                  (session_base k) timeBuff with
          | Done (s, tb) => Done (with_base k s, tb)
          | Fail e => Fail e
          end
      end
  end.

(** The column a kind of session links to a buffer. *)
Definition column_of (k : Session) (b : buffer) : option string :=
  match b with
  | valvePos => Some valvePV
  | dsLevel => Some dsLevelPV
  | grad => if isQ0 k then Some gradPV else None
  | dsPress => if isQ0 k then Some dsPressurePV else None
  | elecHeatDes => Some "Electric Heat Load Setpoint"%string
  | elecHeatAct => Some "Electric Heat Load Readback"%string
  end.

(** The six column names. *)
Definition column_names : list string :=
  [valvePV; dsLevelPV; gradPV; dsPressurePV;
   "Electric Heat Load Setpoint"%string;
   "Electric Heat Load Readback"%string].

(** Nothing but the time and data buffers differs between [s] and
    [s']. *)
Definition only_buffers_differ (s s' : DataSession) : Prop :=
  s' = set_buffers s (unixTimeBuff s') (valvePosBuff s') (dsLevelBuff s')
         (gradBuff s') (dsPressBuff s') (elecHeatDesBuff s')
         (elecHeatActBuff s').

(** The cells one row adds to the buffer [b] under a dictionary. *)
Fixpoint row_cells (row : list string)
    (entries : list (string * (nat * buffer))) (b : buffer) : list cell :=
  match entries with
  | [] => []
  | (_, (idx, b')) :: rest =>
      (if decide (b' = b)
       then match row !! idx with
            | Some text => [float text]
            | None => []
            end
       else []) ++ row_cells row rest b
  end.

(** The dictionary that links, in their order, those of the items whose
    column is in the header. *)
Fixpoint linked (header : list string) (items : list (string * buffer))
  : list (string * (nat * buffer)) :=
  match items with
  | [] => []
  | (col, b) :: rest =>
      match index header col with
      | Some idx => (col, (idx, b)) :: linked header rest
      | None => linked header rest
      end
  end.

(** The columns a session links and their buffers, in the order in
    which [parseDataFromCSV] links them. *)
Definition items (k : Session) : list (string * buffer) :=
  [(valvePV, valvePos); (dsLevelPV, dsLevel)]
  ++ (if isQ0 k then [(gradPV, grad); (dsPressurePV, dsPress)] else [])
  ++ [("Electric Heat Load Setpoint"%string, elecHeatDes);
      ("Electric Heat Load Readback"%string, elecHeatAct)].

(** [del l[index]] *)
Definition del {A} (l : list A) (index : nat) : result (list A) :=
  if decide (index < length l)%nat then Done (delete index l)
  else Fail IndexError.

(** [for index in colsToDelete: del l[index]] *)
Fixpoint del_cols {A} (l : list A) (colsToDelete : list nat)
  : result (list A) :=
  match colsToDelete with
  | [] => Done l
  | index :: rest =>
      match del l index with
      | Done l' => del_cols l' rest
      | Fail e => Fail e
      end
  end.

(** [sorted(l, reverse=True)] *)
Definition sorted_reverse (l : list nat) : list nat :=
  @merge_sort nat (fun a b => (b <= a)%nat)
    (fun a b => decide (b <= a)%nat) l.

(** [populateHeaterCols]: the position of each name is appended to
    [buff]; a name missing from the header raises. *)
Fixpoint populateHeaterCols (header : list string) (pvList : list string)
    (buff : list nat) : result (list nat) :=
  match pvList with
  | [] => Done buff
  | heaterPV :: rest =>
      match index header heaterPV with
      | Some i => populateHeaterCols header rest (buff ++ [i])
      | None => Fail ValueError
      end
  end.

(** A heat load while it is summed: the integer [0] it starts from, a
    float, or [None]. *)
Inductive heatLoad : Type :=
| Zero
| Sum (q : Q)
| Missing.

(** [heatLoad += x] with [x] a float. *)
Definition add_float (total : heatLoad) (x : Q) : heatLoad :=
  match total with
  | Sum q => Sum (q + x)%Q
  | _ => Sum x
  end.

(** [for col in cols: try: heatLoad += float(row[col])
                      except ValueError: heatLoad = None; break] *)
Fixpoint sumCols (row : list string) (cols : list nat) (total : heatLoad)
  : result heatLoad :=
  match cols with
  | [] => Done total
  | col :: rest =>
      match row !! col with
      | None => Fail IndexError
      | Some text =>
          match float text with
          | Some x => sumCols row rest (add_float total x)
          | None => Done Missing
          end
      end
  end.

(** [str(heatLoad)] *)
Definition str_heatLoad (total : heatLoad) : string :=
  match total with
  | Zero => "0"
  | Sum q => str q
  | Missing => "None"
  end.

(** The body of [for row in csvReader]: the row written for [row]. *)
Definition writeRow (heaterDesCols heaterActCols colsToDelete : list nat)
    (row : list string) : result (list string) :=
  match sumCols row heaterDesCols Zero with
  | Fail e => Fail e
  | Done heatLoadSetpoint =>
      match sumCols row heaterActCols Zero with
      | Fail e => Fail e
      | Done heatLoadAct =>
          match del_cols row colsToDelete with
          | Fail e => Fail e
          | Done row' =>
              Done (row' ++ [str_heatLoad heatLoadSetpoint;
                             str_heatLoad heatLoadAct])
          end
      end
  end.

Fixpoint writeRows (heaterDesCols heaterActCols colsToDelete : list nat)
    (rows : list (list string)) : result (list (list string)) :=
  match rows with
  | [] => Done []
  | row :: rest =>
      match writeRow heaterDesCols heaterActCols colsToDelete row with
      | Fail e => Fail e
      | Done row' =>
          match writeRows heaterDesCols heaterActCols colsToDelete rest with
          | Fail e => Fail e
          | Done rest' => Done (row' :: rest')
          end
      end
  end.

(** [DataSession.generateCSV] once the file is found missing and the
    archiver has answered with [file]: the rows written. The second
    call of [populateHeaterCols] is passed [heaterDesCols], as in the
    source, and [heaterActCols] stays empty. *)
Definition generateCSV (file : list (list string))
  : result (list (list string)) :=
  match file with
  | [] => Fail StopIteration
  | header :: rows =>
      match populateHeaterCols header heaterDesPVs [] with
      | Fail e => Fail e
      | Done heaterDesCols =>
          let heaterActCols := @nil nat in
          match populateHeaterCols header heaterActPVs heaterDesCols with
          | Fail e => Fail e
          | Done heaterDesCols =>
              let colsToDelete :=
                sorted_reverse (heaterDesCols ++ heaterActCols) in
              match del_cols header colsToDelete with
              | Fail e => Fail e
              | Done header' =>
                  match writeRows heaterDesCols heaterActCols colsToDelete
                          rows with
                  | Fail e => Fail e
                  | Done rows' =>
                      Done ((header'
                             ++ ["Electric Heat Load Setpoint"%string;
                                 "Electric Heat Load Readback"%string])
                            :: rows')
                  end
              end
          end
      end
  end.

End Files.

End Csv.

(** ** A sample data file *)

(** Readers of the numerals and of the timestamp of the sample file. *)
Definition float_sample (text : string) : option Q :=
  if decide (text = "30"%string) then Some 30%Q
  else if decide (text = "95"%string) then Some 95%Q
  else if decide (text = "1"%string) then Some 1%Q
  else if decide (text = "0"%string) then Some 0%Q
  else if decide (text = "31.0"%string) then Some 31%Q
  else None.

Definition strptime_sample (text datetimeFormatStr : string)
  : option datetime :=
  if decide (datetimeFormatStr = "%Y-%m-%d-%H:%M:%S"%string) then
    if decide (text = "2019-02-25-11:25:00"%string) then Some 1551093900
    else None
  else None.

(** A file of one data row whose heater readback is empty. *)
Definition header_sample : list string :=
  ["Date"; "valve"; "level"; "Electric Heat Load Setpoint";
   "Electric Heat Load Readback"]%string.

Definition rows_sample : list (list string) :=
  [["2019-02-25-11:25:00"; "30"; "95"; "1"; ""]%string].

(** A new session of cryomodule 12/2, and the same session once
    [header_sample :: rows_sample] is parsed. *)
Definition session_new : DataSession :=
  new_DataSession 0 cryomodule_12 1551093900 1551112572 1 30 48.

Definition session_parsed : DataSession :=
  Csv.set_buffers session_new [inject_Z 1551093900] [Some 30%Q] [Some 95%Q]
    [] [] [Some 1%Q] [None].

(** What the archiver returns for one heater, one sample: a setpoint
    of 1 W and a readback of 30 W; and the file [generateCSV] writes for
    it, with [str] defined on the one sum that occurs. *)
Definition str_sample (x : Q) : string :=
  if Qeq_bool x 31 then "31.0" else "".

Definition header_raw : list string :=
  ["Date"; "valve"; "level"; "des1"; "act1"]%string.

Definition rows_raw : list (list string) :=
  [["2019-02-25-11:25:00"; "30"; "95"; "1"; "30"]%string].

Definition file_generated : list (list string) :=
  [["Date"; "valve"; "level"; "Electric Heat Load Setpoint";
    "Electric Heat Load Readback"];
   ["2019-02-25-11:25:00"; "30"; "95"; "31.0"; "0"]]%string.

(** [session_new] once [file_generated] is parsed. *)
Definition session_generated : DataSession :=
  Csv.set_buffers session_new [inject_Z 1551093900] [Some 30%Q] [Some 95%Q]
    [] [] [Some 31%Q] [Some 0%Q].

(** ** The RF runs on the calibration curve *)

(** [[f(run) for run in runs if run.isNotHeaterRun]] *)
Fixpoint for_rf_runs {A} (s : DataSession) (f : DataRun -> py A)
    (runs : list DataRun) : py (list A) :=
  match runs with
  | [] => Ok []
  | run :: rest =>
      nh ← isNotHeaterRun s run;
      if (nh : bool) then
        x ← f run;
        xs ← for_rf_runs s f rest;
        Ok (x :: xs)
      else for_rf_runs s f rest
  end.

(** [Q0DataSession.runHeatLoads] *)
Definition runHeatLoads (q : Q0DataSession) : py (list Q) :=
  for_rf_runs (base q) (totalHeatLoad q) (dataRuns (base q)).

(** [Q0DataSession.adjustedRunSlopes] *)
Definition adjustedRunSlopes (q : Q0DataSession) : py (list Q) :=
  m ← calibSession_calibSlope q;
  for_rf_runs (base q)
    (fun run => t ← totalHeatLoad q run; mv ← operand m; Ok (mv * t)%Q)
    (dataRuns (base q)).

(** The runs the two comprehensions keep. *)
Definition is_rf_run (s : DataSession) (r : DataRun) : bool :=
  match isNotHeaterRun s r with
  | Ok true => true
  | _ => false
  end.

(** * Properties *)

(** One step of a computation in [py]: run the binds whose left side
    is known. *)
Tactic Notation "py_step" := cbn [mbind py_bind].
Tactic Notation "py_step" "in" hyp(H) := cbn [mbind py_bind] in H.

(** ** Reading buffers *)

Lemma get_Ok_lookup {A} (l : list A) (i : Z) (a : A) :
  0 <= i -> get l i = Ok a <-> l !! Z.to_nat i = Some a.
Proof.
  intros Hi. unfold get. cbv zeta.
  rewrite !(proj2 (Z.ltb_ge i 0)) by lia. rewrite orb_false_l.
  destruct (Z.leb_spec (Z.of_nat (length l)) i) as [Hlen|Hlen].
  - split; [done|]. intros H%lookup_lt_Some. lia.
  - destruct (l !! Z.to_nat i) eqn:L; split; congruence.
Qed.

Lemma get_in_range {A} (l : list A) (i : Z) :
  0 <= i < Z.of_nat (length l) -> exists a, get l i = Ok a.
Proof.
  intros Hi. destruct (lookup_lt_is_Some_2 l (Z.to_nat i)) as [a Ha]; [lia|].
  exists a. apply get_Ok_lookup; [lia|done].
Qed.

Lemma get_numeric (buf : list cell) (i : Z) :
  numeric buf -> 0 <= i < Z.of_nat (length buf) -> exists x, reads buf i x.
Proof.
  intros Hn Hi. destruct (get_in_range buf i Hi) as [c Hc].
  assert (is_Some c) as [x ->].
  { apply (Forall_lookup_1 _ _ (Z.to_nat i) c Hn).
    apply get_Ok_lookup; [lia|done]. }
  by exists x.
Qed.

Lemma reads_inj (buf : list cell) (i : Z) (x y : Q) :
  reads buf i x -> reads buf i y -> x = y.
Proof. unfold reads. congruence. Qed.

Lemma Ok_inj {A} (a b : A) : Ok a = Ok b -> a = b.
Proof. congruence. Qed.

(** ** Comparisons *)

Lemma Qltb_lt (x y : Q) : Qltb x y = true <-> (x < y)%Q.
Proof.
  unfold Qltb. rewrite negb_true_iff. split.
  - intros H. apply Qnot_le_lt. intros Hle%Qle_bool_iff. congruence.
  - intros H. apply not_true_is_false. intros Hle%Qle_bool_iff.
    exact (Qlt_not_le _ _ H Hle).
Qed.

Lemma Qltb_ge (x y : Q) : Qltb x y = false <-> (y <= x)%Q.
Proof.
  unfold Qltb. rewrite negb_false_iff. apply Qle_bool_iff.
Qed.

Lemma Qeq_bool_false (x y : Q) : Qeq_bool x y = false <-> ~ (x == y)%Q.
Proof.
  split.
  - intros H Heq%Qeq_bool_iff. congruence.
  - intros H. apply not_true_is_false. intros Heq%Qeq_bool_iff. tauto.
Qed.

Lemma Qeq_bool_true (x y : Q) : Qeq_bool x y = true <-> (x == y)%Q.
Proof. apply Qeq_bool_iff. Qed.

(** ** Run segmentation: the break test *)

Section SegmentationFacts.

Context (U : Utils).

(** On numeric samples [isEndOfCalibRun] returns, and its value is the
    disjunction of the five tests. *)
Lemma isEndOfCalibRun_numeric (s : DataSession) (i : Z) (d dp l v a : Q) :
  reads (elecHeatDesBuff s) i d ->
  (0 < i -> reads (elecHeatDesBuff s) (i - 1) dp) ->
  reads (dsLevelBuff s) i l ->
  reads (valvePosBuff s) i v ->
  reads (elecHeatActBuff s) i a ->
  isEndOfCalibRun U s i (Some d)
  = Ok ((0 <? i) && negb (Qeq_bool d dp)
        || Qltb l (MIN_DS_LL U)
        || Qltb (VALVE_POSITION_TOLERANCE U) (Qabs (v - refValvePos s))
        || (i =? Z.of_nat (length (elecHeatDesBuff s)) - 1)
        || Qle_bool (HEATER_TOLERANCE U) (Qabs (d - a))).
Proof.
  unfold reads, isEndOfCalibRun. intros Hd Hdp Hl Hv Ha.
  rewrite Hl, Hv, Ha.
  destruct (Z.ltb_spec 0 i) as [Hpos|Hpos].
  - rewrite (Hdp Hpos). reflexivity.
  - simpl. rewrite (Qeq_bool_refl d). reflexivity.
Qed.

Lemma gradChanged_returns (s : DataSession) (i : Z) :
  0 <= i < Z.of_nat (length (gradBuff s)) ->
  exists gc, gradChanged U s i = Ok gc
             /\ (gc = true <-> gradChanged_at U s i).
Proof.
  intros Hi. unfold gradChanged, gradChanged_at.
  destruct (Z.eqb_spec i 0) as [->|Hne]; simpl.
  - exists false. split; [done|]. split; [done|]. intros [? _]. lia.
  - destruct (get_in_range (gradBuff s) i) as [g Hg]; [lia|].
    destruct (get_in_range (gradBuff s) (i - 1)) as [gp Hgp]; [lia|].
    rewrite Hg, Hgp. unfold reads.
    destruct g as [x|], gp as [y|]; simpl.
    + eexists; split; [reflexivity|]. rewrite Qltb_lt. split.
      * intros H. split; [lia|]. by exists x, y.
      * intros (_ & x' & y' & Hx & Hy & H).
        rewrite Hg in Hx. rewrite Hgp in Hy. by simplify_eq.
    + exists false. split; [done|]. split; [done|].
      intros (_ & x' & y' & Hx & Hy & _). congruence.
    + exists false. split; [done|]. split; [done|].
      intros (_ & x' & y' & Hx & Hy & _). congruence.
    + exists false. split; [done|]. split; [done|].
      intros (_ & x' & y' & Hx & Hy & _). congruence.
Qed.

(** The value of the break test is the disjunction of the conditions,
    with the heater readback test at [>=]. *)
Lemma break_at_reflect (k : Session) (i : Z) (d dp l v a : Q) (gc : bool) :
  let s := session_base k in
  0 <= i ->
  reads (elecHeatDesBuff s) i d ->
  (0 < i -> reads (elecHeatDesBuff s) (i - 1) dp) ->
  reads (dsLevelBuff s) i l ->
  reads (valvePosBuff s) i v ->
  reads (elecHeatActBuff s) i a ->
  (gc = true <-> isQ0 k = true /\ gradChanged_at U s i) ->
  ((0 <? i) && negb (Qeq_bool d dp)
   || Qltb l (MIN_DS_LL U)
   || Qltb (VALVE_POSITION_TOLERANCE U) (Qabs (v - refValvePos s))
   || (i =? Z.of_nat (length (elecHeatDesBuff s)) - 1)
   || Qle_bool (HEATER_TOLERANCE U) (Qabs (d - a))
   || gc) = true
  <-> break_at U Qle k i.
Proof.
  intros s Hi Hd Hdp Hl Hv Ha Hgc. unfold break_at. fold s.
  rewrite !orb_true_iff, andb_true_iff, negb_true_iff, Qeq_bool_false,
    !Qltb_lt, Qle_bool_iff, Z.ltb_lt, Z.eqb_eq, Hgc.
  assert (heaterChanged_at s i <-> 0 < i /\ ~ (d == dp)%Q) as ->.
  { unfold heaterChanged_at. split.
    - intros (Hpos & d' & dp' & H1 & H2 & H3). split; [done|].
      by rewrite (reads_inj _ _ _ _ Hd H1),
           (reads_inj _ _ _ _ (Hdp Hpos) H2).
    - intros [Hpos H]. split; [done|]. exists d, dp. auto. }
  assert (liqLevelTooLow_at U s i <-> (l < MIN_DS_LL U)%Q) as ->.
  { unfold liqLevelTooLow_at. split.
    - intros (l' & H1 & H2). by rewrite (reads_inj _ _ _ _ Hl H1).
    - intros H. by exists l. }
  assert (valveOutsideTol_at U s i
          <-> (VALVE_POSITION_TOLERANCE U < Qabs (v - refValvePos s))%Q)
    as ->.
  { unfold valveOutsideTol_at. split.
    - intros (v' & H1 & H2). by rewrite (reads_inj _ _ _ _ Hv H1).
    - intros H. by exists v. }
  assert (heatersOutsideTol_at U Qle s i
          <-> (HEATER_TOLERANCE U <= Qabs (d - a))%Q) as ->.
  { unfold heatersOutsideTol_at. split.
    - intros (d' & a' & H1 & H2 & H3).
      rewrite (reads_inj _ _ _ _ Hd H1), (reads_inj _ _ _ _ Ha H2).
      by rewrite Qabs_Qminus.
    - intros H. exists d, a. rewrite Qabs_Qminus. auto. }
  unfold isLastElement_at. tauto.
Qed.

End SegmentationFacts.

(** Reading a concrete buffer: replace the number read by its value. *)
Ltac read_sample H :=
  unfold reads in H; vm_compute in H;
  first [ discriminate H | injection H as <- ].

(** C1 (as stated, refuted). In [session_heater_at_tolerance] the code
    breaks at index 1, where the readback is off the setpoint by exactly
    the tolerance, although none of the stated conditions holds there
    when the readback test is read as "strictly more than". *)
Lemma C1_strict_heater_test_refuted :
  isEndOfRun utils_sample (Calib session_heater_at_tolerance) 1 (Some 5%Q)
  = Ok true
  /\ ~ break_at utils_sample Qlt (Calib session_heater_at_tolerance) 1.
Proof.
  split; [reflexivity|].
  unfold break_at, heaterChanged_at, gradChanged_at, liqLevelTooLow_at,
    valveOutsideTol_at, heatersOutsideTol_at, isLastElement_at.
  intros [(_ & d & dp & H1 & H2 & H)
         |[[Hq _]
         |[(l & H1 & H)
         |[(v & H1 & H)
         |[(d & a & H1 & H2 & H)
         |H]]]]].
  - read_sample H1. read_sample H2. apply H, Qeq_refl.
  - discriminate Hq.
  - read_sample H1. vm_compute in H. discriminate.
  - read_sample H1. vm_compute in H. discriminate.
  - read_sample H1. read_sample H2. vm_compute in H. discriminate.
  - vm_compute in H. discriminate.
Qed.

(** C1 (amended). Over aligned buffers whose heater, level and valve
    cells are numbers, the break test at an index [i] of the loop returns,
    and it returns true if and only if: the heater setpoint differs from
    its value at [i - 1]; or, in a Q0 session, the gradient differs from
    its value at [i - 1] by more than the gradient tolerance; or the
    level is below the floor; or the valve is off the reference by more
    than the position tolerance; or the heater readback is off the
    setpoint by at least the heater tolerance; or [i] is the last index.
    The two comparisons with [i - 1] require [0 < i]. *)
Theorem C1_break_iff (U : Utils) (k : Session) (i : Z) (e : cell) :
  aligned k ->
  numeric (elecHeatDesBuff (session_base k)) ->
  numeric (dsLevelBuff (session_base k)) ->
  numeric (valvePosBuff (session_base k)) ->
  numeric (elecHeatActBuff (session_base k)) ->
  0 <= i ->
  get (elecHeatDesBuff (session_base k)) i = Ok e ->
  exists b, isEndOfRun U k i e = Ok b
            /\ (b = true <-> break_at U Qle k i).
Proof.
  intros (Ht & Hv & Hl & Ha & Hq) Nd Nl Nv Na Hi He.
  set (s := session_base k) in *.
  assert (i < Z.of_nat (length (elecHeatDesBuff s))) as Hlt.
  { apply get_Ok_lookup in He; [|done]. apply lookup_lt_Some in He. lia. }
  destruct (get_numeric _ i Nd) as [d Hd]; [lia|].
  assert (e = Some d) as -> by (unfold reads in Hd; congruence).
  destruct (get_numeric _ i Nl) as [l Hrl]; [lia|].
  destruct (get_numeric _ i Nv) as [v Hrv]; [lia|].
  destruct (get_numeric _ i Na) as [a Hra]; [lia|].
  assert (exists dp, 0 < i -> reads (elecHeatDesBuff s) (i - 1) dp)
    as [dp Hdp].
  { destruct (Z.ltb_spec 0 i) as [Hpos|Hpos].
    - destruct (get_numeric _ (i - 1) Nd) as [dp Hdp]; [lia|]. by exists dp.
    - exists 0%Q. lia. }
  pose proof (isEndOfCalibRun_numeric U s i d dp l v a Hd Hdp Hrl Hrv Hra)
    as Hcalib.
  destruct k as [c|q]; subst s; cbn [session_base isEndOfRun] in *.
  - eexists; split; [exact Hcalib|].
    rewrite <- (break_at_reflect U (Calib c) i d dp l v a false);
      [by rewrite orb_false_r|done..|].
    split; [done|]. intros [Hk _]. discriminate Hk.
  - destruct (Hq eq_refl) as [Hg _].
    destruct (gradChanged_returns U (base q) i) as (gc & Hgc & Hspec);
      [lia|].
    unfold isEndOfQ0Run. rewrite Hgc. py_step.
    rewrite Hcalib. py_step.
    eexists; split; [reflexivity|].
    apply (break_at_reflect U (Q0Meas q) i d dp l v a gc); try done.
    cbn [isQ0 session_base]. tauto.
Qed.

Lemma C1_break_iff_witness :
  exists b,
    isEndOfRun utils_sample (Calib session_heater_at_tolerance) 1 (Some 5%Q)
    = Ok b
    /\ (b = true
        <-> break_at utils_sample Qle (Calib session_heater_at_tolerance) 1).
Proof.
  apply C1_break_iff.
  - repeat split; discriminate.
  - repeat constructor; eexists; reflexivity.
  - repeat constructor; eexists; reflexivity.
  - repeat constructor; eexists; reflexivity.
  - repeat constructor; eexists; reflexivity.
  - lia.
  - reflexivity.
Defined.

(** ** Run segmentation: flushing *)

Lemma session_base_with_base (k : Session) (d : DataSession) :
  session_base (with_base k d) = d.
Proof. by destruct k. Qed.

(** C2. On a break at index [idx] with the pending run starting at
    [runStartIdx]: when the elapsed time between the two samples meets
    the minimum duration, exactly one run, spanning
    [runStartIdx .. idx - 1], is appended to the run list; otherwise the
    session is unchanged; in both cases the loop goes on with [idx] as
    the pending start. *)
Theorem C2_flush_on_break (U : Utils) (k : Session) (e : cell)
    (rest : list cell) (idx runStartIdx : Z) (t_idx t_start : Q) :
  isEndOfRun U k idx e = Ok true ->
  get (unixTimeBuff (session_base k)) idx = Ok t_idx ->
  get (unixTimeBuff (session_base k)) runStartIdx = Ok t_start ->
  exists s',
    checkAndFlushRun U (session_base k) true idx runStartIdx = Ok (idx, s')
    /\ populate_loop U k (e :: rest) idx runStartIdx
       = populate_loop U (with_base k s') rest (idx + 1) idx
    /\ ((MIN_RUN_DURATION U <= t_idx - t_start)%Q ->
        exists r, dataRuns s' = dataRuns (session_base k) ++ [r]
                  /\ startIdx r = runStartIdx /\ endIdx r = idx - 1)
    /\ ((t_idx - t_start < MIN_RUN_DURATION U)%Q -> s' = session_base k).
Proof.
  intros Hbreak Hi Hs.
  cbn [populate_loop]. rewrite Hbreak. py_step.
  unfold checkAndFlushRun. rewrite Hi, Hs. py_step.
  destruct (Qle_bool (MIN_RUN_DURATION U) (t_idx - t_start)) eqn:Hmeets.
  - eexists. split; [reflexivity|]. split; [reflexivity|]. split.
    + intros _. eexists. split; [reflexivity|]. done.
    + intros Hlt. apply Qle_bool_iff in Hmeets.
      destruct (Qlt_not_le _ _ Hlt Hmeets).
  - eexists. split; [reflexivity|]. split; [reflexivity|]. split.
    + intros Hle%Qle_bool_iff. congruence.
    + done.
Qed.

Lemma C2_flush_on_break_witness :
  exists s',
    checkAndFlushRun utils_sample session_heater_step true 2 0 = Ok (2, s')
    /\ populate_loop utils_sample (Calib session_heater_step)
         (floats [2; 2; 2]%Q) 2 0
       = populate_loop utils_sample (with_base (Calib session_heater_step) s')
           (floats [2; 2]%Q) (2 + 1) 2
    /\ ((MIN_RUN_DURATION utils_sample <= 900 - 0)%Q ->
        exists r, dataRuns s' = dataRuns session_heater_step ++ [r]
                  /\ startIdx r = 0 /\ endIdx r = 2 - 1)
    /\ ((900 - 0 < MIN_RUN_DURATION utils_sample)%Q ->
        s' = session_heater_step).
Proof.
  apply (C2_flush_on_break utils_sample (Calib session_heater_step)
           (Some 2%Q) (floats [2; 2]%Q) 2 0 900%Q 0%Q); reflexivity.
Defined.

(** ** Run segmentation: a missing gradient *)

(** C10. In the segmentation of a Q0 session, when the gradient cell at
    the index [idx] of the loop or at [idx - 1] is [None], the gradient
    test returns false without raising, and the break test of the Q0
    session is that of the calibration session: the missing reading
    neither ends a run nor stops the segmentation. *)
Theorem C10_missing_gradient (U : Utils) (s : DataSession) (idx : Z)
    (e : cell) :
  0 <= idx < Z.of_nat (length (gradBuff s)) ->
  get (gradBuff s) idx = Ok None \/ get (gradBuff s) (idx - 1) = Ok None ->
  gradChanged U s idx = Ok false
  /\ isEndOfQ0Run U s idx e = isEndOfCalibRun U s idx e.
Proof.
  intros Hi Hnone.
  assert (gradChanged U s idx = Ok false) as Hgc.
  { unfold gradChanged. destruct (Z.eqb_spec idx 0) as [->|Hne]; [done|].
    cbn [negb].
    destruct (get_in_range (gradBuff s) idx) as [g Hg]; [lia|].
    destruct (get_in_range (gradBuff s) (idx - 1)) as [gp Hgp]; [lia|].
    rewrite Hg, Hgp. py_step.
    destruct Hnone as [H|H].
    - rewrite Hg in H. injection H as ->. done.
    - rewrite Hgp in H. injection H as ->. by destruct g. }
  split; [exact Hgc|].
  unfold isEndOfQ0Run. rewrite Hgc. py_step.
  destruct (isEndOfCalibRun U s idx e) as [b|x]; py_step.
  - by rewrite orb_false_r.
  - done.
Qed.

Lemma C10_missing_gradient_witness :
  gradChanged utils_sample session_missing_gradient 2 = Ok false
  /\ isEndOfQ0Run utils_sample session_missing_gradient 2 (Some 0%Q)
     = isEndOfCalibRun utils_sample session_missing_gradient 2 (Some 0%Q).
Proof.
  apply C10_missing_gradient.
  - simpl. lia.
  - right. reflexivity.
Defined.

(** ** Run segmentation: the minimum duration *)

Section MinimumDuration.

Context (U : Utils).

Lemma checkAndFlushRun_runs (s s' : DataSession) (b : bool)
    (idx start next : Z) :
  checkAndFlushRun U s b idx start = Ok (next, s') ->
  unixTimeBuff s' = unixTimeBuff s
  /\ (dataRuns s' = dataRuns s
      \/ exists r, dataRuns s' = dataRuns s ++ [r]
                   /\ run_meets_minimum U (unixTimeBuff s) r).
Proof.
  unfold checkAndFlushRun. destruct b; [|intros [= _ <-]; auto].
  destruct (get (unixTimeBuff s) idx) as [t_i|] eqn:Hi; [|done].
  destruct (get (unixTimeBuff s) start) as [t_s|] eqn:Hs; [|done].
  py_step.
  destruct (Qle_bool _ _) eqn:Hmeets; intros [= _ <-]; [|auto].
  split; [done|]. right. eexists. split; [reflexivity|].
  exists t_s, t_i. cbn [startIdx endIdx].
  replace (idx - 1 + 1) with idx by lia.
  by apply Qle_bool_iff in Hmeets.
Qed.

Lemma populate_loop_minimum (items : list cell) :
  forall (k k' : Session) (idx start : Z),
    populate_loop U k items idx start = Ok k' ->
    Forall (run_meets_minimum U (unixTimeBuff (session_base k)))
      (dataRuns (session_base k)) ->
    unixTimeBuff (session_base k') = unixTimeBuff (session_base k)
    /\ Forall (run_meets_minimum U (unixTimeBuff (session_base k)))
         (dataRuns (session_base k')).
Proof.
  induction items as [|e rest IH]; intros k k' idx start Hloop Hinv.
  - injection Hloop as <-. done.
  - cbn [populate_loop] in Hloop.
    destruct (isEndOfRun U k idx e) as [b|]; [|done].
    py_step in Hloop.
    destruct (checkAndFlushRun U (session_base k) b idx start)
      as [[next s']|] eqn:Hflush; [|done].
    cbn [mbind py_bind fst snd] in Hloop.
    apply checkAndFlushRun_runs in Hflush as [Htimes Hruns].
    apply IH in Hloop; rewrite session_base_with_base, ?Htimes in *.
    + done.
    + destruct Hruns as [->|(r & -> & Hr)]; [done|].
      apply Forall_app. split; [done|]. by constructor.
Qed.

End MinimumDuration.

(** C8 (as stated, refuted). Segmenting [session_heater_step] emits the
    run [0 .. 1]: the break at index 2 comes 900 s after the start, which
    meets the threshold, but the samples at the run's start and end
    indices are only 450 s apart. After trimming, the first run of
    [session_level_dip 8 10] starts and ends at index 1: no time elapses
    between its two samples and it is still in the run list. *)
Lemma C8_elapsed_to_end_index_refuted :
  (exists k' r,
      populateRuns utils_sample (Calib session_heater_step) = Ok k'
      /\ r ∈ dataRuns (session_base k')
      /\ run_elapsed (unixTimeBuff (session_base k')) r = Ok 450%Q
      /\ (450 < MIN_RUN_DURATION utils_sample)%Q)
  /\ (exists k' r,
         processData utils_sample (Calib (session_level_dip 8 10)) = Ok k'
         /\ r ∈ dataRuns (session_base k')
         /\ run_elapsed (unixTimeBuff (session_base k')) r = Ok 0%Q
         /\ (0 < MIN_RUN_DURATION utils_sample)%Q).
Proof.
  split.
  - eexists. exists (mkDataRun 0 1 None 1).
    split; [vm_compute; reflexivity|].
    split; [apply list_elem_of_here|]. split; reflexivity.
  - eexists. exists (mkDataRun 1 1 None 1).
    split; [vm_compute; reflexivity|].
    split; [apply list_elem_of_here|]. split; reflexivity.
Qed.

(** C8 (amended). Every run that segmentation emits into an empty run
    list passed the test [checkAndFlushRun] applies: the elapsed time
    between the sample at its start index and the sample at the break
    index that ended it, one past its end index, is not less than the
    minimum duration. *)
Theorem C8_minimum_duration (U : Utils) (k k' : Session) (r : DataRun) :
  dataRuns (session_base k) = [] ->
  populateRuns U k = Ok k' ->
  r ∈ dataRuns (session_base k') ->
  run_meets_minimum U (unixTimeBuff (session_base k')) r.
Proof.
  intros Hempty Hpop Hin. unfold populateRuns in Hpop.
  apply populate_loop_minimum in Hpop as [-> Hall].
  - by apply (proj1 (Forall_forall _ _) Hall).
  - rewrite Hempty. constructor.
Qed.

Lemma C8_minimum_duration_witness :
  run_meets_minimum utils_sample (unixTimeBuff session_heater_step)
    (mkDataRun 0 1 None 1).
Proof.
  apply (C8_minimum_duration utils_sample (Calib session_heater_step)
           (Calib (set_dataRuns session_heater_step
                     [mkDataRun 0 1 None 1; mkDataRun 2 3 None 2]))).
  - reflexivity.
  - vm_compute. reflexivity.
  - apply list_elem_of_here.
Defined.

(** ** Settle-time trimmer: the scan *)

Section SettleFacts.

Context (times : list Q) (startTime : Q) (cutoff : Z).

(** The scan never runs out of turns before the buffer ends: one more
    turn changes nothing once [idx + fuel] has reached the length. *)
Lemma settle_loop_fuel (fuel : nat) :
  forall (idx : Z) (duration : Q),
    Z.of_nat (length times) <= idx + Z.of_nat fuel ->
    settle_loop times startTime cutoff (S fuel) idx duration
    = settle_loop times startTime cutoff fuel idx duration.
Proof.
  induction fuel as [|fuel IH]; intros idx duration Hfuel.
  - cbn [settle_loop].
    destruct (Qltb duration (inject_Z cutoff)); [|done].
    assert (get times (idx + 1) = Raise IndexError) as ->; [|done].
    unfold get. cbv zeta. rewrite (proj2 (Z.ltb_ge (idx + 1) 0)) by lia.
    rewrite (proj2 (Z.leb_le _ _)) by lia. by rewrite orb_true_r.
  - change (settle_loop times startTime cutoff (S (S fuel)) idx duration)
      with (if Qltb duration (inject_Z cutoff)
            then t ← get times (idx + 1);
                 settle_loop times startTime cutoff (S fuel) (idx + 1)
                   (t - startTime)%Q
            else Ok idx).
    change (settle_loop times startTime cutoff (S fuel) idx duration)
      with (if Qltb duration (inject_Z cutoff)
            then t ← get times (idx + 1);
                 settle_loop times startTime cutoff fuel (idx + 1)
                   (t - startTime)%Q
            else Ok idx).
    destruct (Qltb duration (inject_Z cutoff)); [|done].
    destruct (get times (idx + 1)) as [t|]; [|done].
    py_step. apply IH; lia.
Qed.

(** The number of turns [adjust_run] allows is enough: any larger number
    gives the same result. *)
Lemma settle_loop_enough (idx : Z) (duration : Q) (more : nat) :
  let fuel := Z.to_nat (Z.of_nat (length times) - idx) in
  settle_loop times startTime cutoff (more + fuel) idx duration
  = settle_loop times startTime cutoff fuel idx duration.
Proof.
  intros fuel. induction more as [|more IH]; [done|].
  rewrite <- IH. apply settle_loop_fuel. lia.
Qed.

(** Where the scan stops: at [idx] when the elapsed time there already
    reaches the cutoff; otherwise at the first later index whose sample
    is at least [cutoff] after the start, every sample in between
    being less than [cutoff] after it. *)
Lemma settle_loop_stops (fuel : nat) :
  forall (idx idx' : Z) (duration : Q),
    settle_loop times startTime cutoff fuel idx duration = Ok idx' ->
    (idx' = idx /\ (inject_Z cutoff <= duration)%Q)
    \/ (idx < idx' /\ (duration < inject_Z cutoff)%Q
        /\ (exists t, get times idx' = Ok t
                      /\ (inject_Z cutoff <= t - startTime)%Q)
        /\ forall j, idx < j < idx' ->
                     exists t, get times j = Ok t
                               /\ (t - startTime < inject_Z cutoff)%Q).
Proof.
  induction fuel as [|fuel IH]; intros idx idx' duration Hloop;
    cbn [settle_loop] in Hloop;
    destruct (Qltb duration (inject_Z cutoff)) eqn:Hlt.
  - done.
  - injection Hloop as <-. left. split; [done|]. by apply Qltb_ge.
  - destruct (get times (idx + 1)) as [t|] eqn:Ht; [|done].
    py_step in Hloop. right.
    apply Qltb_lt in Hlt.
    destruct (IH _ _ _ Hloop) as [[-> Hge]|(Hlt' & Hdur & Hstop & Hmid)].
    + split; [lia|]. split; [done|]. split; [by exists t|].
      intros j Hj. lia.
    + split; [lia|]. split; [done|]. split; [done|].
      intros j Hj. destruct (Z.eq_dec j (idx + 1)) as [->|Hne].
      * by exists t.
      * apply Hmid. lia.
  - injection Hloop as <-. left. split; [done|]. by apply Qltb_ge.
Qed.

Lemma settle_loop_ge (fuel : nat) (idx idx' : Z) (duration : Q) :
  settle_loop times startTime cutoff fuel idx duration = Ok idx' ->
  idx <= idx'.
Proof. intros [[-> _]|[? _]]%settle_loop_stops; lia. Qed.

End SettleFacts.

(** ** Settle-time trimmer: the runs *)

Lemma trims_refl (times : list Q) (r : DataRun) : trims times r r.
Proof. unfold trims. split; [lia|done]. Qed.

Lemma trims_trans (times : list Q) (r1 r2 r3 : DataRun) :
  trims times r1 r2 -> trims times r2 r3 -> trims times r1 r3.
Proof. unfold trims. intros (?&?&?) (?&?&?). split; [lia|]. split; [congruence|auto]. Qed.

Lemma adjust_run_spec (k k' : Session) (i : nat) :
  adjust_run k i = Ok k' ->
  exists run idx',
    dataRuns (session_base k) !! i = Some run
    /\ startIdx run <= idx'
    /\ (exists t, get (unixTimeBuff (session_base k)) idx' = Ok t)
    /\ session_base k'
       = set_dataRuns (session_base k)
           (<[i := set_startIdx run idx']> (dataRuns (session_base k))).
Proof.
  unfold adjust_run. intros H.
  destruct (get (dataRuns (session_base k)) (Z.of_nat i)) as [run|] eqn:Hrun;
    [|done].
  py_step in H.
  destruct (getTotalHeatDelta k (startIdx run) (Z.of_nat i)) as [delta|];
    [|done].
  py_step in H.
  destruct (get (unixTimeBuff (session_base k)) (startIdx run))
    as [t0|] eqn:Ht0; [|done].
  py_step in H.
  destruct (settle_loop _ _ _ _ _ _) as [idx'|] eqn:Hloop; [|done].
  py_step in H. injection H as <-.
  exists run, idx'. split.
  { apply get_Ok_lookup in Hrun; [|lia]. by rewrite Nat2Z.id in Hrun. }
  split; [by apply settle_loop_ge in Hloop|].
  split; [|by rewrite session_base_with_base].
  apply settle_loop_stops in Hloop as [[-> _]|(_ & _ & (t & Ht & _) & _)];
    eauto.
Qed.

Lemma adjust_loop_spec (turns : list nat) :
  forall k k' : Session,
    adjust_loop k turns = Ok k' ->
    let times := unixTimeBuff (session_base k) in
    unixTimeBuff (session_base k') = times
    /\ length (dataRuns (session_base k'))
       = length (dataRuns (session_base k))
    /\ forall (j : nat) (r r' : DataRun),
         dataRuns (session_base k) !! j = Some r ->
         dataRuns (session_base k') !! j = Some r' ->
         trims times r r' /\ (j ∈ turns -> start_in_buffer times r').
Proof.
  induction turns as [|i rest IH]; intros k k' Hloop times.
  - injection Hloop as <-. split; [done|]. split; [done|].
    intros j r r' Hr Hr'. assert (r' = r) as -> by congruence.
    split; [apply trims_refl|]. intros []%elem_of_nil.
  - cbn [adjust_loop] in Hloop.
    destruct (adjust_run k i) as [k1|] eqn:Hrun; [|done].
    py_step in Hloop.
    apply adjust_run_spec in Hrun as (run & idx' & Hi & Hge & Hvalid & Hk1).
    apply IH in Hloop as (Htimes & Hlen & Hruns).
    rewrite Hk1 in Htimes, Hlen, Hruns. cbn [set_dataRuns unixTimeBuff dataRuns] in *.
    rewrite length_insert in Hlen.
    split; [done|]. split; [done|].
    intros j r r' Hr Hr'.
    destruct (decide (j = i)) as [->|Hne].
    + assert (r = run) as -> by congruence.
      destruct (Hruns i (set_startIdx run idx') r') as [Htr _]; [|done|].
      { apply list_lookup_insert_eq. by eapply lookup_lt_Some. }
      assert (start_in_buffer times (set_startIdx run idx')) as Hv
        by exact Hvalid.
      split; [|intros _; by apply Htr].
      eapply trims_trans; [|exact Htr].
      unfold trims. by cbn [set_startIdx startIdx endIdx].
    + destruct (Hruns j r r') as [Htr Hin]; [|done|].
      { by rewrite list_lookup_insert_ne. }
      split; [done|]. intros [?|?]%elem_of_cons; [done|auto].
Qed.

(** C7 (as stated, refuted). With the heaters 50 W over the reference,
    the first run of [session_level_dip], emitted as [0 .. 1], is trimmed
    to start at index 3, past its end index; with the heaters 100 W over
    it, the scan runs off the end of the time buffer and the read raises
    [IndexError]. *)
Lemma C7_trimmed_start_bound_refuted :
  (exists k1 k' r r',
     populateRuns utils_sample (Calib (session_level_dip 0 50)) = Ok k1
     /\ dataRuns (session_base k1) !! 0%nat = Some r
     /\ processData utils_sample (Calib (session_level_dip 0 50)) = Ok k'
     /\ dataRuns (session_base k') !! 0%nat = Some r'
     /\ endIdx r = 1 /\ startIdx r' = 3)
  /\ processData utils_sample (Calib (session_level_dip 0 100))
     = Raise IndexError.
Proof.
  split; [|vm_compute; reflexivity].
  do 2 eexists. exists (mkDataRun 0 1 None 1), (mkDataRun 3 1 None 1).
  split; [vm_compute; reflexivity|]. split; [reflexivity|].
  split; [vm_compute; reflexivity|]. done.
Qed.

(** C7 (amended). When trimming completes, every run's start index is
    greater than or equal to its original start index, its end index is
    unchanged, and the trimmed start index is the index of a sample of
    the time buffer. *)
Theorem C7_trimming_monotone (k k' : Session) (j : nat) (r r' : DataRun) :
  adjustForSettle k = Ok k' ->
  dataRuns (session_base k) !! j = Some r ->
  dataRuns (session_base k') !! j = Some r' ->
  startIdx r <= startIdx r' /\ endIdx r' = endIdx r
  /\ start_in_buffer (unixTimeBuff (session_base k')) r'.
Proof.
  intros Hadj Hr Hr'. unfold adjustForSettle in Hadj.
  apply adjust_loop_spec in Hadj as (-> & _ & Hruns).
  destruct (Hruns j r r' Hr Hr') as [(Hge & Hend & _) Hvalid].
  split; [done|]. split; [done|]. apply Hvalid.
  apply elem_of_seq. apply lookup_lt_Some in Hr. lia.
Qed.

Lemma C7_trimming_monotone_witness :
  startIdx (mkDataRun 0 1 None 1) <= startIdx (mkDataRun 3 1 None 1)
  /\ endIdx (mkDataRun 3 1 None 1) = endIdx (mkDataRun 0 1 None 1)
  /\ start_in_buffer (unixTimeBuff (session_level_dip 0 50))
       (mkDataRun 3 1 None 1).
Proof.
  apply (C7_trimming_monotone
           (Calib (set_dataRuns (session_level_dip 0 50)
                     [mkDataRun 0 1 None 1; mkDataRun 2 3 None 2]))
           (Calib (set_dataRuns (session_level_dip 0 50)
                     [mkDataRun 3 1 None 1; mkDataRun 2 3 None 2]))
           0%nat).
  - vm_compute. reflexivity.
  - reflexivity.
  - reflexivity.
Defined.

(** ** Q0 derivation: the formula *)

Lemma uncorrectedQ0_value (g rf : Q) :
  ~ (rf == 0)%Q ->
  uncorrectedQ0 g rf = Ok ((g * 1000000) ^ 2 / ((9393 # 10) * rf))%Q.
Proof.
  intros Hrf. unfold uncorrectedQ0, div.
  assert (Qeq_bool ((9393 # 10) * rf) 0 = false) as ->; [|done].
  apply Qeq_bool_false. intros H. apply Hrf.
  apply Qmult_integral in H as [H|H]; [discriminate H|done].
Qed.

(** Without a pressure reading, or with a reading of zero, [calcQ0]
    returns the uncorrected value and never calls [exp]. *)
Lemma calcQ0_without_pressure (exp : Q -> Q) (g rf : Q) (p : cell) :
  truthy p = false ->
  calcQ0 exp (Some g) rf p = uncorrectedQ0 g rf.
Proof.
  intros Hp. unfold calcQ0. cbn [operand mbind py_bind]. rewrite Hp.
  by destruct (uncorrectedQ0 g rf).
Qed.

(** C9 (as stated, refuted). With the RF heat load fixed at 1 W, the
    gradients -2 < 1 give uncorrected Q0 values in the opposite order;
    with it fixed at -1 W, so do the gradients 1 < 2. *)
Lemma C9_increasing_refuted :
  (exists a b, uncorrectedQ0 (-2) 1 = Ok a /\ uncorrectedQ0 1 1 = Ok b
               /\ (-2 < 1)%Q /\ (b < a)%Q)
  /\ (exists a b, uncorrectedQ0 1 (-1) = Ok a /\ uncorrectedQ0 2 (-1) = Ok b
                  /\ (1 < 2)%Q /\ (b < a)%Q).
Proof.
  split; do 2 eexists; (split; [reflexivity|]); (split; [reflexivity|]);
    split; reflexivity.
Qed.

(** C9 (amended). For every fixed positive RF heat load, the uncorrected
    Q0 of the formula, [(gradient * 10^6)^2 / (939.3 * RF heat load)], is
    strictly increasing in the gradient over the non-negative gradients. *)
Theorem C9_uncorrectedQ0_increasing (rf g1 g2 : Q) :
  (0 < rf)%Q -> (0 <= g1)%Q -> (g1 < g2)%Q ->
  exists a b,
    uncorrectedQ0 g1 rf = Ok a /\ uncorrectedQ0 g2 rf = Ok b
    /\ (a == (g1 * 1000000) ^ 2 / ((9393 # 10) * rf))%Q
    /\ (b == (g2 * 1000000) ^ 2 / ((9393 # 10) * rf))%Q
    /\ (a < b)%Q.
Proof.
  intros Hrf Hg1 Hlt.
  assert (~ (rf == 0)%Q) as Hne by lra.
  do 2 eexists. split; [by apply uncorrectedQ0_value|].
  split; [by apply uncorrectedQ0_value|].
  split; [reflexivity|]. split; [reflexivity|].
  assert (0 < (9393 # 10) * rf)%Q as Hden.
  { apply Qmult_lt_0_compat; [reflexivity|done]. }
  unfold Qdiv. apply Qmult_lt_compat_r; [by apply Qinv_lt_0_compat|].
  simpl. nra.
Qed.

Lemma C9_uncorrectedQ0_increasing_witness :
  exists a b,
    uncorrectedQ0 8 (96 # 10) = Ok a /\ uncorrectedQ0 16 (96 # 10) = Ok b
    /\ (a == (8 * 1000000) ^ 2 / ((9393 # 10) * (96 # 10)))%Q
    /\ (b == (16 * 1000000) ^ 2 / ((9393 # 10) * (96 # 10)))%Q
    /\ (a < b)%Q.
Proof.
  apply C9_uncorrectedQ0_increasing; reflexivity || discriminate.
Defined.

(** ** Q0 derivation: when Q0 is absent *)

(** C5 (as stated, refuted). The RF run of [q0_session_rising] was
    fitted with a slope of the sign opposite to the calibration slope:
    its RF heat load is -1 W, and [q0] returns a number, which is
    negative. *)
Lemma C5_negative_rf_heat_load_refuted :
  (exists rf, rfHeatLoad q0_session_rising (rf_run (1 # 1000)) = Ok rf
              /\ (rf == - (1))%Q)
  /\ exists v, (v < 0)%Q
               /\ (forall exp, q0 exp q0_session_rising (rf_run (1 # 1000))
                               = Ok (Some (Finite v), [])).
Proof.
  split; [eexists; split; [vm_compute|]; reflexivity|].
  eexists. split; [|intros exp; vm_compute; reflexivity]. reflexivity.
Qed.

(** For a run that is not a heater run, [q0] does not look at the RF
    heat load: what it returns is never [None]. *)
Lemma q0_of_rf_run (exp : Q -> Q) (q : Q0DataSession) (r : DataRun) (d : Q)
    (v : option npfloat) (msgs : list Z) :
  elecHeatLoadDes (base q) r = Ok d -> (d == 0)%Q ->
  q0 exp q r = Ok (v, msgs) -> v <> None.
Proof.
  intros Hd Heq%Qeq_bool_true. unfold q0. rewrite Hd. py_step.
  rewrite Heq. cbn [negb]. intros H.
  destruct (mapM _ _) as [q0s|]; [|done].
  py_step in H. by injection H as <- _.
Qed.

(** C5 (amended). A run whose nominal electric heat load is not zero, a
    heater run, has an RF heat load of 0, and its Q0 is reported as
    absent: [q0] returns [None], without evaluating the formula and
    without raising. *)
Theorem C5_q0_absent_for_heater_run (exp : Q -> Q) (q : Q0DataSession)
    (r : DataRun) (d : Q) :
  elecHeatLoadDes (base q) r = Ok d ->
  ~ (d == 0)%Q ->
  rfHeatLoad q r = Ok 0%Q /\ q0 exp q r = Ok (None, []).
Proof.
  intros Hd Hne%Qeq_bool_false. unfold rfHeatLoad, q0. rewrite Hd. py_step.
  by rewrite Hne.
Qed.

Lemma C5_q0_absent_for_heater_run_witness :
  rfHeatLoad q0_session_heater (rf_run (- (3 # 1000))) = Ok 0%Q
  /\ q0 (fun _ => 1%Q) q0_session_heater (rf_run (- (3 # 1000)))
     = Ok (None, []).
Proof.
  apply (C5_q0_absent_for_heater_run (fun _ => 1%Q) q0_session_heater
           (rf_run (- (3 # 1000))) (3 - 0)%Q).
  - reflexivity.
  - discriminate.
Defined.

(** ** Q0 derivation: invalid gradients *)

Lemma count0_all_zero (buf : list cell) :
  Forall (fun c => is_zero c = true) buf ->
  count0 buf = Z.of_nat (length buf).
Proof.
  unfold count0. induction 1 as [|c buf Hc _ IH]; [done|].
  cbn [List.filter]. rewrite Hc. cbn [length]. lia.
Qed.

(** C6 (as stated, refuted). For the run [0 .. 3] of
    [q0_session_zero_grads], whose gradient buffer is all zeros, [q0]
    evaluates three samples, substitutes the reference gradient in each,
    and reports 5, the length of the session's buffer. In
    [q0_session_mixed_grads] it substitutes three times as well, twice
    for a reading that did not parse, and reports 2: the zero reading at
    index 0 and the one at index 4, which is outside the run. *)
Lemma C6_count_within_run_refuted :
  (exists v, forall exp,
      q0 exp q0_session_zero_grads (rf_run (- (5 # 1000)))
      = Ok (Some (Finite v), [5]))
  /\ substituted q0_session_zero_grads (rf_run (- (5 # 1000))) = 3
  /\ (exists v, forall exp,
         q0 exp q0_session_mixed_grads (rf_run (- (5 # 1000)))
         = Ok (Some (Finite v), [2]))
  /\ substituted q0_session_mixed_grads (rf_run (- (5 # 1000))) = 3.
Proof.
  split; [eexists; intros exp; vm_compute; reflexivity|].
  split; [reflexivity|].
  split; [eexists; intros exp; vm_compute; reflexivity|].
  reflexivity.
Qed.

(** C6 (amended). In the Q0 of a run that is not a heater run, a sample
    whose gradient reading is zero or [None] is evaluated with the
    session's reference gradient in place of the reading, and any other
    sample with its reading; the invalid-gradient count that is reported
    is the number of zero readings in the whole gradient buffer of the
    session, and nothing is reported when there is none; for a gradient
    buffer that is all zeros, the count is the length of the buffer. *)
Theorem C6_invalid_gradient_count (exp : Q -> Q) (q : Q0DataSession)
    (r : DataRun) :
  (forall idx c,
      get (gradBuff (base q)) idx = Ok c ->
      sampleQ0 exp q r idx
      = (rf ← rfHeatLoad q r;
         p ← get (dsPressBuff (base q)) idx;
         calcQ0 exp (match c with
                     | Some g => if Qeq_bool g 0 then refGradVal q else c
                     | None => refGradVal q
                     end) rf p))
  /\ (forall v msgs,
         q0 exp q r = Ok (Some v, msgs) ->
         msgs = if count0 (gradBuff (base q)) =? 0 then []
                else [count0 (gradBuff (base q))])
  /\ (Forall (fun c => is_zero c = true) (gradBuff (base q)) ->
      count0 (gradBuff (base q)) = Z.of_nat (length (gradBuff (base q)))).
Proof.
  split; [|split].
  - intros idx c Hc. unfold sampleQ0, gradForSample. rewrite Hc.
    py_step. destruct c as [g|]; [|done].
    cbn [truthy]. by destruct (Qeq_bool g 0).
  - intros v msgs. unfold q0.
    destruct (elecHeatLoadDes (base q) r) as [d|]; [|done].
    py_step. destruct (Qeq_bool d 0); cbn [negb]; [|done].
    destruct (mapM _ _) as [q0s|]; [|done].
    py_step. by intros [= _ <-].
  - apply count0_all_zero.
Qed.

Lemma C6_invalid_gradient_count_witness :
  [5] = if count0 (gradBuff (base q0_session_zero_grads)) =? 0 then []
        else [count0 (gradBuff (base q0_session_zero_grads))].
Proof.
  eapply (proj1 (proj2 (C6_invalid_gradient_count (fun _ => 1%Q)
                          q0_session_zero_grads (rf_run (- (5 # 1000)))))).
  vm_compute. reflexivity.
Defined.

(** ** Settle-time trimmer: the heat-load step *)

Lemma int_nonneg (x : Q) : (0 <= x)%Q -> int x = Qfloor x.
Proof. intros H%Qle_bool_iff. unfold int. by rewrite H. Qed.

(** For every run after the first, the step is an absolute value. *)
Lemma getTotalHeatDelta_later (k : Session) (start currIdx : Z) (delta : Q) :
  currIdx <> 0 ->
  getTotalHeatDelta k start currIdx = Ok delta ->
  (0 <= delta)%Q /\ int (delta * 25) = Qfloor (delta * 25).
Proof.
  intros Hne Hdelta.
  assert (0 <= delta)%Q as Hpos.
  { destruct k as [s|q]; cbn [getTotalHeatDelta] in Hdelta;
      unfold getTotalHeatDelta_calib, getTotalHeatDelta_q0 in Hdelta;
      rewrite (proj2 (Z.eqb_neq currIdx 0) Hne) in Hdelta;
      repeat match type of Hdelta with
             | (mbind _ ?m) = _ => destruct m; [|done];
                                   py_step in Hdelta
             | (?m ≫= _) = _ => destruct m; [|done];
                                py_step in Hdelta
             end;
      apply Ok_inj in Hdelta; subst delta; apply Qabs_nonneg. }
  split; [done|]. apply int_nonneg.
  apply Qmult_le_0_compat; [done|discriminate].
Qed.

(** One turn of the trimmer: the cutoff is [int(25 * step)], the run
    keeps its start index when the cutoff is not positive, and otherwise
    starts at the first later sample at least [cutoff] after the sample
    at the old start index. *)
Lemma adjust_run_scan (k k' : Session) (i : nat) :
  adjust_run k i = Ok k' ->
  let times := unixTimeBuff (session_base k) in
  exists run delta t0 idx',
    dataRuns (session_base k) !! i = Some run
    /\ getTotalHeatDelta k (startIdx run) (Z.of_nat i) = Ok delta
    /\ get times (startIdx run) = Ok t0
    /\ dataRuns (session_base k')
       = <[i := set_startIdx run idx']> (dataRuns (session_base k))
    /\ let cutoff := inject_Z (int (delta * 25)) in
       (idx' = startIdx run /\ (cutoff <= 0)%Q)
       \/ (startIdx run < idx' /\ (0 < cutoff)%Q
           /\ (exists t, get times idx' = Ok t /\ (cutoff <= t - t0)%Q)
           /\ forall j, startIdx run < j < idx' ->
                        exists t, get times j = Ok t
                                  /\ (t - t0 < cutoff)%Q).
Proof.
  intros H times. unfold adjust_run in H.
  destruct (get (dataRuns (session_base k)) (Z.of_nat i)) as [run|] eqn:Hrun;
    [|done].
  py_step in H.
  destruct (getTotalHeatDelta k (startIdx run) (Z.of_nat i))
    as [delta|] eqn:Hdelta; [|done].
  py_step in H.
  destruct (get (unixTimeBuff (session_base k)) (startIdx run))
    as [t0|] eqn:Ht0; [|done].
  py_step in H.
  destruct (settle_loop _ _ _ _ _ _) as [idx'|] eqn:Hloop; [|done].
  py_step in H. injection H as <-.
  exists run, delta, t0, idx'. split.
  { apply get_Ok_lookup in Hrun; [|lia]. by rewrite Nat2Z.id in Hrun. }
  split; [done|]. split; [done|].
  split; [by rewrite session_base_with_base|].
  by apply settle_loop_stops in Hloop.
Qed.

Lemma int_neg (x : Q) : (x < 0)%Q -> int x <= 0.
Proof.
  intros Hx. unfold int.
  assert (Qle_bool 0 x = false) as ->.
  { apply not_true_is_false. intros H%Qle_bool_iff. lra. }
  unfold Qceiling.
  assert (Qfloor 0 <= Qfloor (- x)) as H by (apply Qfloor_resp_le; lra).
  change (Qfloor 0) with 0 in H. lia.
Qed.

Lemma settle_loop_done (times : list Q) (startTime : Q) (cutoff : Z)
    (fuel : nat) (idx : Z) (duration : Q) :
  (inject_Z cutoff <= duration)%Q ->
  settle_loop times startTime cutoff fuel idx duration = Ok idx.
Proof.
  intros H%Qltb_ge. by destruct fuel; cbn [settle_loop]; rewrite H.
Qed.

(** A first run whose heater value is under the reference is never
    trimmed, whatever the size of the step: the step the code computes
    is negative. *)
Lemma first_run_under_reference_untrimmed (s : DataSession) (run : DataRun)
    (x t0 : Q) :
  dataRuns s !! 0%nat = Some run ->
  reads (elecHeatDesBuff s) (startIdx run) x ->
  (x < refHeatLoad s)%Q ->
  get (unixTimeBuff s) (startIdx run) = Ok t0 ->
  getTotalHeatDelta (Calib s) (startIdx run) 0 = Ok (x - refHeatLoad s)%Q
  /\ exists k', adjust_run (Calib s) 0 = Ok k'
                /\ dataRuns (session_base k') !! 0%nat = Some run.
Proof.
  intros Hrun Hx Hlt Ht0.
  assert (getTotalHeatDelta (Calib s) (startIdx run) 0
          = Ok (x - refHeatLoad s)%Q) as Hdelta.
  { cbn [getTotalHeatDelta]. unfold getTotalHeatDelta_calib.
    cbn [Z.eqb]. unfold reads in Hx. by rewrite Hx. }
  split; [done|].
  unfold adjust_run. cbn [session_base]. change (Z.of_nat 0) with 0.
  assert (get (dataRuns s) 0 = Ok run) as ->
    by (by apply get_Ok_lookup).
  py_step. rewrite Hdelta. py_step.
  rewrite Ht0. py_step.
  rewrite settle_loop_done.
  - py_step. eexists. split; [reflexivity|].
    cbn [with_base session_base set_dataRuns dataRuns].
    rewrite list_lookup_insert_eq by (by eapply lookup_lt_Some).
    by destruct run.
  - assert (int ((x - refHeatLoad s) * 25) <= 0) as H.
    { apply int_neg. nra. }
    apply (Qle_trans _ (inject_Z 0)); [by rewrite <- Zle_Qle|done].
Qed.

(** C3 (the code at the failing input). In [session_level_dip 10 8] the
    heaters are 2 W under the reference: the step the code computes for
    the first run is -2, not 2, so that no sample is trimmed although
    [floor (25 * |8 - 10|)] is 50 s and the next sample is 600 s later;
    for the step of the same size upwards, [session_level_dip 8 10], the
    first run is trimmed to start at index 1. *)
Theorem C3_first_run_step_is_signed :
  getTotalHeatDelta (Calib (session_level_dip 10 8)) 0 0 = Ok (- (2))%Q
  /\ Qfloor (25 * Qabs (8 - 10)) = 50
  /\ (exists k', processData utils_sample (Calib (session_level_dip 10 8))
                 = Ok k'
                 /\ dataRuns (session_base k') !! 0%nat
                    = Some (mkDataRun 0 1 None 1))
  /\ (exists k', processData utils_sample (Calib (session_level_dip 8 10))
                 = Ok k'
                 /\ dataRuns (session_base k') !! 0%nat
                    = Some (mkDataRun 1 1 None 1)).
Proof.
  split; [reflexivity|]. split; [reflexivity|].
  split; eexists; (split; [vm_compute; reflexivity|reflexivity]).
Qed.

(** ** Session cache *)

Section CacheFacts.

Context (hash_datetime : datetime -> Z) (hash_int : Z -> Z)
        (hash_float : Q -> Z) (hash_None : Z) (heaterActs : list Q).

Local Abbreviation key_of :=
  (sessionHash hash_datetime hash_int hash_float hash_None).
Local Abbreviation add_one :=
  (addDataSession hash_datetime hash_int hash_float hash_None heaterActs).
Local Abbreviation add_all :=
  (addDataSessions hash_datetime hash_int hash_float hash_None heaterActs).

Lemma same_identity_hash (c : Container) (r1 r2 : Request) :
  same_identity c r1 r2 -> key_of c r1 = key_of c r2.
Proof.
  unfold same_identity, sessionHash, Container_hash.
  intros (-> & -> & -> & H).
  destruct (kind c); [done|]. by destruct H as [-> ->].
Qed.

Lemma sessionHash_container (c c' : Container) (rq : Request) :
  kind c' = kind c -> nums c' = nums c ->
  key_of c' rq = key_of c rq.
Proof.
  unfold sessionHash, Container_hash. by intros -> ->.
Qed.

Lemma genDataSession_oid (o : nat) (c : Container) (st en : datetime)
    (ti : Z) (rv rh : Q) (rg : cell) (cs : option DataSession) :
  session_oid (genDataSession o c st en ti rv rh rg cs) = o.
Proof. unfold genDataSession. by destruct (kind c). Qed.

(** One request: a cached session is returned as it is, and nothing
    is constructed; otherwise one session is constructed and stored
    under the key, and no other entry changes. *)
Lemma addDataSession_spec (n0 : nat) (c c' : Container) (n n' : nat)
    (rq : Request) (s : Session) :
  add_one c n rq = (s, c', n') ->
  cache_ok n0 c n ->
  cache_ok n0 c' n'
  /\ kind c' = kind c /\ nums c' = nums c
  /\ dataSessions c' !! key_of c rq = Some s
  /\ (forall k x, dataSessions c !! k = Some x ->
                  dataSessions c' !! k = Some x)
  /\ ((dataSessions c !! key_of c rq = Some s /\ c' = c /\ n' = n)
      \/ (dataSessions c !! key_of c rq = None
          /\ session_oid s = n /\ n' = S n)).
Proof.
  unfold addDataSession. cbv zeta.
  intros Hadd (Hbound & Hinj & Hsize).
  destruct (dataSessions c !! key_of c rq) as [cached|] eqn:Hlook.
  - injection Hadd as <- <- <-. repeat split; auto.
  - injection Hadd as <- <- <-. unfold cache_ok.
    cbn [kind nums dataSessions].
    set (key := key_of c rq) in *.
    set (new := genDataSession _ _ _ _ _ _ _ _ _).
    assert (session_oid new = n) as Hoid by apply genDataSession_oid.
    split; [|repeat split].
    + split; [|split].
      * intros k s. rewrite lookup_insert.
        destruct (decide (key = k)) as [_|_].
        -- intros [= <-]. lia.
        -- intros H%Hbound. lia.
      * intros k1 k2 s1 s2. rewrite !lookup_insert.
        destruct (decide (key = k1)) as [<-|?],
                 (decide (key = k2)) as [<-|?]; try done.
        -- intros [= <-] H%Hbound ?. lia.
        -- intros H%Hbound [= <-] ?. lia.
        -- apply Hinj.
      * rewrite map_size_insert_None by done. lia.
    + apply lookup_insert_eq.
    + intros k x Hk. rewrite lookup_insert_ne; [done|]. congruence.
    + right. done.
Qed.

(** A sequence of requests: the session returned for each request is
    in the final cache under the key of the request. *)
Lemma addDataSessions_spec (n0 : nat) (rqs : list Request) :
  forall (c c' : Container) (n n' : nat) (res : list Session),
    add_all c n rqs = (res, c', n') ->
    cache_ok n0 c n ->
    cache_ok n0 c' n'
    /\ kind c' = kind c /\ nums c' = nums c
    /\ (forall k x, dataSessions c !! k = Some x ->
                    dataSessions c' !! k = Some x)
    /\ forall i rq s, rqs !! i = Some rq -> res !! i = Some s ->
                      dataSessions c' !! key_of c rq = Some s.
Proof.
  induction rqs as [|rq rest IH]; intros c c' n n' res Hadd Hok.
  - injection Hadd as <- <- <-.
    split; [done|]. split; [done|]. split; [done|]. split; [auto|].
    intros i rq s H. by rewrite lookup_nil in H.
  - cbn [addDataSessions] in Hadd.
    destruct (add_one c n rq) as [[s1 c1] n1] eqn:H1.
    destruct (add_all c1 n1 rest) as [[ss c2] n2] eqn:H2.
    injection Hadd as <- <- <-.
    apply (addDataSession_spec n0) in H1
      as (Hok1 & Hk1 & Hn1 & Hin1 & Hmono1 & _); [|done].
    apply IH in H2 as (Hok2 & Hk2 & Hn2 & Hmono2 & Hall); [|done].
    split; [done|]. split; [congruence|]. split; [congruence|].
    split; [auto|].
    intros [|i] rq' s; cbn [lookup list_lookup].
    + intros [= <-] [= <-]. auto.
    + intros Hrq Hs.
      rewrite <- (sessionHash_container c c1) by done. eauto.
Qed.

End CacheFacts.

Lemma DataSession_hash_swap (hash_datetime : datetime -> Z)
    (hash_int : Z -> Z) (a b : datetime) (ti slac jlab : Z) :
  DataSession_hash hash_datetime hash_int a b ti slac jlab
  = DataSession_hash hash_datetime hash_int b a ti slac jlab.
Proof.
  unfold DataSession_hash.
  by rewrite (Z.lxor_comm (hash_datetime a) (hash_datetime b)).
Qed.

Lemma Z_lxor_swap_inner (a x c d b y : Z) :
  Z.lxor (Z.lxor (Z.lxor (Z.lxor (Z.lxor a x) c) d) b) y
  = Z.lxor (Z.lxor (Z.lxor (Z.lxor (Z.lxor a y) c) d) b) x.
Proof.
  apply Z.bits_inj'. intros n _. rewrite !Z.lxor_spec.
  by destruct (Z.testbit a n), (Z.testbit x n), (Z.testbit c n),
       (Z.testbit d n), (Z.testbit b n), (Z.testbit y n).
Qed.

(** Two requests with one key, made of a new container: the second is
    returned the session constructed for the first. *)
Lemma addDataSessions_collision (hash_datetime : datetime -> Z)
    (hash_int : Z -> Z) (hash_float : Q -> Z) (hash_None : Z)
    (heaterActs : list Q) (k : ContainerKind) (nm : ContainerNums)
    (r1 r2 : Request) :
  sessionHash hash_datetime hash_int hash_float hash_None
    (new_Container k nm) r1
  = sessionHash hash_datetime hash_int hash_float hash_None
      (new_Container k nm) r2 ->
  exists s c',
    addDataSessions hash_datetime hash_int hash_float hash_None heaterActs
      (new_Container k nm) 0 [r1; r2]
    = ([s; s], c', 1%nat).
Proof.
  intros Hkey.
  cbn [addDataSessions]. unfold addDataSession at 1. cbv zeta.
  cbn [dataSessions new_Container]. rewrite lookup_empty.
  set (c0 := new_Container k nm) in *.
  set (s := genDataSession _ _ _ _ _ _ _ _ _).
  set (c1 := mkContainer _ _ _).
  unfold addDataSession. cbv zeta.
  rewrite (sessionHash_container _ _ _ _ c0 c1) by done.
  fold c0. rewrite <- Hkey.
  cbn [dataSessions c1]. rewrite lookup_insert_eq. by exists s, c1.
Qed.

(** C4 (as stated, refuted). [request_forward] and [request_backward]
    differ in their start times and in their end times, yet whatever the
    hash functions, a new cryomodule or cavity returns for the second
    request the session it constructed for the first: the two keys are
    the same XOR of hashes. So does a new cavity for [request_1s_16MV]
    and [request_16s_1MV], which differ in the sample interval and in the
    reference gradient, as soon as a float that is an integer hashes as
    that integer, which Python guarantees. *)
Lemma C4_distinct_identity_refuted :
  (rq_startTime request_forward <> rq_startTime request_backward
   /\ rq_endTime request_forward <> rq_endTime request_backward
   /\ forall hash_datetime hash_int hash_float hash_None heaterActs k,
        exists s c',
          addDataSessions hash_datetime hash_int hash_float hash_None
            heaterActs (new_Container k (mkContainerNums 12 2)) 0
            [request_forward; request_backward]
          = ([s; s], c', 1%nat))
  /\ (rq_timeInt request_1s_16MV <> rq_timeInt request_16s_1MV
      /\ rq_refGradVal request_1s_16MV <> rq_refGradVal request_16s_1MV
      /\ forall hash_datetime hash_int hash_float hash_None heaterActs cav,
           (forall n, hash_float (inject_Z n) = hash_int n) ->
           exists s c',
             addDataSessions hash_datetime hash_int hash_float hash_None
               heaterActs (new_Container (Cavity cav) (mkContainerNums 12 2))
               0 [request_1s_16MV; request_16s_1MV]
             = ([s; s], c', 1%nat)).
Proof.
  split; (split; [done|]); (split; [done|]).
  - intros hd hi hf hn acts k. apply addDataSessions_collision.
    unfold sessionHash, Container_hash, Q0DataSession_hash.
    cbn [kind nums new_Container request_forward request_backward
         rq_startTime rq_endTime rq_timeInt rq_calibSession rq_refGradVal].
    by rewrite DataSession_hash_swap.
  - intros hd hi hf hn acts cav Hfloat. apply addDataSessions_collision.
    unfold sessionHash, Container_hash, Q0DataSession_hash, DataSession_hash.
    cbn [kind nums new_Container request_1s_16MV request_16s_1MV
         rq_startTime rq_endTime rq_timeInt rq_calibSession rq_refGradVal
         hash_refGradVal].
    rewrite !Hfloat. apply Z_lxor_swap_inner.
Qed.

(** C4 (amended). In a sequence of requests to a newly constructed
    container, two requests with equal identity fields are returned the
    same session object; two requests are returned the same object if
    and only if their keys, the XOR of the hashes of their identity
    fields, are equal, so that requests with different keys are returned
    distinct sessions; the session returned for a request is still the
    one stored under its key at the end, never overwritten; and as many
    sessions were constructed as the cache holds keys. *)
Theorem C4_session_cache (hash_datetime : datetime -> Z) (hash_int : Z -> Z)
    (hash_float : Q -> Z) (hash_None : Z) (heaterActs : list Q)
    (k : ContainerKind) (nm : ContainerNums) (n0 n' : nat)
    (rqs : list Request) (res : list Session) (c' : Container)
    (i j : nat) (ri rj : Request) (si sj : Session) :
  let c0 := new_Container k nm in
  let key := sessionHash hash_datetime hash_int hash_float hash_None c0 in
  addDataSessions hash_datetime hash_int hash_float hash_None heaterActs
    c0 n0 rqs = (res, c', n') ->
  rqs !! i = Some ri -> rqs !! j = Some rj ->
  res !! i = Some si -> res !! j = Some sj ->
  (same_identity c0 ri rj -> si = sj)
  /\ (key ri = key rj <-> session_oid si = session_oid sj)
  /\ dataSessions c' !! key ri = Some si
  /\ n' = (n0 + size (dataSessions c'))%nat.
Proof.
  intros c0 key Hadd Hri Hrj Hsi Hsj.
  apply (addDataSessions_spec _ _ _ _ _ n0) in Hadd
    as ((_ & Hinj & Hsize) & _ & _ & _ & Hall).
  - pose proof (Hall i ri si Hri Hsi) as Hi.
    pose proof (Hall j rj sj Hrj Hsj) as Hj.
    fold key in Hi, Hj.
    assert (key ri = key rj -> si = sj) as Hsame.
    { intros Heq. rewrite Heq in Hi. congruence. }
    split; [|split; [|split]].
    + intros Hid. apply Hsame. by apply same_identity_hash.
    + split; [by intros ->%Hsame|]. by apply (Hinj _ _ si sj).
    + done.
    + done.
  - unfold cache_ok, c0, new_Container. cbn [dataSessions].
    split; [|split].
    + intros k0 s. by rewrite lookup_empty.
    + intros k1 k2 s1 s2. by rewrite lookup_empty.
    + rewrite map_size_empty. lia.
Qed.

Lemma C4_session_cache_witness :
  (same_identity cryomodule_12 request_forward request_backward ->
   session_forward = session_forward)
  /\ (sessionHash (fun t => t) (fun n => n) (fun _ => 0) 0
        cryomodule_12 request_forward
      = sessionHash (fun t => t) (fun n => n) (fun _ => 0) 0
          cryomodule_12 request_backward
      <-> session_oid session_forward = session_oid session_forward)
  /\ dataSessions cryomodule_12_after
     !! sessionHash (fun t => t) (fun n => n) (fun _ => 0) 0
          cryomodule_12 request_forward
     = Some session_forward
  /\ 1%nat = (0 + size (dataSessions cryomodule_12_after))%nat.
Proof.
  apply (C4_session_cache (fun t => t) (fun n => n) (fun _ => 0) 0 []
           Cryomodule (mkContainerNums 12 2) 0 1
           [request_forward; request_backward]
           [session_forward; session_forward] cryomodule_12_after
           0%nat 1%nat request_forward request_backward);
    reflexivity.
Defined.

(** * Further properties of the engine *)

(** ** Run segmentation: the run list *)

Lemma with_base_id (k : Session) : with_base k (session_base k) = k.
Proof. by destruct k as [[]|[[] ? ?]]. Qed.

Lemma set_runs_base (k : Session) (rs : list DataRun) :
  session_base (set_runs k rs) = set_dataRuns (session_base k) rs.
Proof. apply session_base_with_base. Qed.

Lemma set_runs_set_runs (k : Session) (rs rs' : list DataRun) :
  set_runs (set_runs k rs) rs' = set_runs k rs'.
Proof. by destruct k. Qed.

Lemma set_runs_id (k : Session) : set_runs k (dataRuns (session_base k)) = k.
Proof. by destruct k as [[]|[[] ? ?]]. Qed.

Lemma isEndOfRun_set_runs (U : Utils) (k : Session) (rs : list DataRun)
    (idx : Z) (e : cell) :
  isEndOfRun U (set_runs k rs) idx e = isEndOfRun U k idx e.
Proof. by destruct k. Qed.

Section RunList.

Context (U : Utils).

(** What one call of [checkAndFlushRun] may do: nothing when there is no
    break, and on a break move the pending start to [idx], appending the
    run [start .. idx - 1] with the next number or appending nothing. *)
Lemma checkAndFlushRun_step (s s' : DataSession) (b : bool)
    (idx start next : Z) :
  checkAndFlushRun U s b idx start = Ok (next, s') ->
  s' = set_dataRuns s (dataRuns s')
  /\ ((b = false /\ next = start /\ dataRuns s' = dataRuns s)
      \/ (b = true /\ next = idx
          /\ (dataRuns s' = dataRuns s
              \/ dataRuns s'
                 = dataRuns s
                   ++ [mkDataRun start (idx - 1) None
                         (Z.of_nat (length (dataRuns s)) + 1)]))).
Proof.
  unfold checkAndFlushRun. destruct b.
  - destruct (get (unixTimeBuff s) idx) as [t_i|]; [|done].
    destruct (get (unixTimeBuff s) start) as [t_s|]; [|done].
    py_step. destruct (Qle_bool _ _); intros [= <- <-].
    + split; [done|]. right. split; [done|]. split; [done|]. by right.
    + split; [by destruct s|]. right. split; [done|]. split; [done|].
      by left.
  - intros [= <- <-]. split; [by destruct s|]. by left.
Qed.

Lemma segmenting_later (n start start' : Z) (runs : list DataRun) :
  start <= start' -> segmenting n start runs -> segmenting n start' runs.
Proof.
  intros Hle (H1 & H2 & H3 & H4 & H5). repeat split; try done.
  eapply Forall_impl; [exact H5|]. intros r Hr. simpl in Hr. lia.
Qed.

Lemma segmenting_append (n start idx : Z) (runs : list DataRun) :
  0 <= start <= idx -> idx <= n - 1 ->
  segmenting n start runs ->
  segmenting n idx
    (runs ++ [mkDataRun start (idx - 1) None (Z.of_nat (length runs) + 1)]).
Proof.
  intros Hstart Hidx (Hin & Hapart & Hnum & Hslope & Hend).
  split; [|split; [|split; [|split]]].
  - apply Forall_app. split; [done|]. constructor; [|done].
    unfold run_in_buffer. cbn [startIdx endIdx]. lia.
  - intros i r r' Hr Hr'.
    destruct (decide (S i < length runs)%nat) as [Hlt|Hge].
    + rewrite lookup_app_l in Hr by lia. rewrite lookup_app_l in Hr' by lia.
      by apply (Hapart i).
    + assert (length runs = S i) as Hlen.
      { apply lookup_lt_Some in Hr'. rewrite length_app in Hr'.
        cbn [length] in Hr'. lia. }
      rewrite lookup_app_l in Hr by lia.
      rewrite lookup_app_r in Hr' by lia.
      rewrite Hlen, Nat.sub_diag in Hr'. injection Hr' as <-.
      cbn [startIdx].
      by apply (proj1 (Forall_lookup _ _) Hend i).
  - intros i r Hr.
    destruct (decide (i < length runs)%nat) as [Hlt|Hge].
    + rewrite lookup_app_l in Hr by lia. by apply Hnum.
    + assert (i = length runs) as ->.
      { apply lookup_lt_Some in Hr. rewrite length_app in Hr.
        cbn [length] in Hr. lia. }
      rewrite lookup_app_r in Hr by lia.
      rewrite Nat.sub_diag in Hr. by injection Hr as <-.
  - apply Forall_app. split; [done|]. by constructor.
  - apply Forall_app. split.
    + eapply Forall_impl; [exact Hend|]. intros r Hr. simpl in Hr. lia.
    + constructor; [|done]. cbn [endIdx]. lia.
Qed.

Lemma populate_loop_segmenting (n : Z) (items : list cell) :
  forall (k k' : Session) (idx start : Z),
    populate_loop U k items idx start = Ok k' ->
    0 <= start <= idx -> idx + Z.of_nat (length items) = n ->
    segmenting n start (dataRuns (session_base k)) ->
    k' = set_runs k (dataRuns (session_base k'))
    /\ exists start', segmenting n start' (dataRuns (session_base k')).
Proof.
  induction items as [|e rest IH]; intros k k' idx start Hloop Hstart Hn Hinv.
  - injection Hloop as <-. split; [by rewrite set_runs_id|]. by exists start.
  - cbn [populate_loop] in Hloop. cbn [length] in Hn.
    destruct (isEndOfRun U k idx e) as [b|]; [|done].
    py_step in Hloop.
    destruct (checkAndFlushRun U (session_base k) b idx start)
      as [[next s']|] eqn:Hflush; [|done].
    cbn [mbind py_bind fst snd] in Hloop.
    apply checkAndFlushRun_step in Hflush as [Hframe Hcases].
    apply IH in Hloop as [Hk' Hseg].
    + split; [|done]. rewrite Hk' at 1. rewrite Hframe.
      change (with_base k (set_dataRuns (session_base k) (dataRuns s')))
        with (set_runs k (dataRuns s')).
      by rewrite set_runs_set_runs.
    + destruct Hcases as [(_ & -> & _)|(_ & -> & _)]; lia.
    + lia.
    + rewrite session_base_with_base.
      destruct Hcases as [(_ & -> & ->)|(_ & -> & [->| ->])].
      * done.
      * apply (segmenting_later n start); [lia|done].
      * apply segmenting_append; [lia|lia|done].
Qed.

End RunList.

(** X1. The runs segmentation emits into an empty run list, over a
    buffer of [n] samples: segmentation changes nothing but the run
    list; every run starts at an index that is not negative and ends at
    or before index [n - 2], so that the last sample belongs to no run;
    each run ends before the next one starts; the runs are numbered from
    1; and with a positive minimum duration no run is empty. *)
Theorem populateRuns_run_list (U : Utils) (k k' : Session) :
  dataRuns (session_base k) = [] ->
  populateRuns U k = Ok k' ->
  k' = set_runs k (dataRuns (session_base k'))
  /\ Forall (run_in_buffer
               (Z.of_nat (length (elecHeatDesBuff (session_base k)))))
       (dataRuns (session_base k'))
  /\ runs_apart (dataRuns (session_base k'))
  /\ runs_numbered (dataRuns (session_base k'))
  /\ ((0 < MIN_RUN_DURATION U)%Q ->
      Forall (fun r => startIdx r <= endIdx r) (dataRuns (session_base k'))).
Proof.
  intros Hempty Hpop. unfold populateRuns in Hpop.
  pose proof Hpop as Hmin.
  apply populate_loop_minimum in Hmin as [_ Hmin];
    [|rewrite Hempty; constructor].
  apply (populate_loop_segmenting U
           (Z.of_nat (length (elecHeatDesBuff (session_base k)))))
    in Hpop as (Hframe & start' & Hin & Hapart & Hnum & _ & _).
  - split; [done|]. split; [done|]. split; [done|]. split; [done|].
    intros Hpos. apply Forall_forall. intros r Hr.
    destruct (proj1 (Forall_forall _ _) Hin r Hr) as [[_ Hle] _].
    destruct (proj1 (Forall_forall _ _) Hmin r Hr)
      as (t_s & t_b & Hs & Hb & Hdur).
    destruct (decide (startIdx r = endIdx r + 1)) as [Heq|Hne]; [|lia].
    rewrite <- Heq, Hs in Hb. injection Hb as <-. lra.
  - lia.
  - lia.
  - rewrite Hempty. repeat split; try constructor.
    + intros i r r' Hr. by rewrite lookup_nil in Hr.
    + intros i r Hr. by rewrite lookup_nil in Hr.
Qed.

Lemma populateRuns_run_list_witness :
  Calib (set_dataRuns session_heater_step
           [mkDataRun 0 1 None 1; mkDataRun 2 3 None 2])
  = set_runs (Calib session_heater_step)
      [mkDataRun 0 1 None 1; mkDataRun 2 3 None 2]
  /\ Forall (run_in_buffer 5) [mkDataRun 0 1 None 1; mkDataRun 2 3 None 2]
  /\ runs_apart [mkDataRun 0 1 None 1; mkDataRun 2 3 None 2]
  /\ runs_numbered [mkDataRun 0 1 None 1; mkDataRun 2 3 None 2]
  /\ ((0 < MIN_RUN_DURATION utils_sample)%Q ->
      Forall (fun r => startIdx r <= endIdx r)
        [mkDataRun 0 1 None 1; mkDataRun 2 3 None 2]).
Proof.
  apply (populateRuns_run_list utils_sample (Calib session_heater_step)
           (Calib (set_dataRuns session_heater_step
                     [mkDataRun 0 1 None 1; mkDataRun 2 3 None 2]))).
  - reflexivity.
  - vm_compute. reflexivity.
Defined.

(** ** Run segmentation: missing cells *)

Section MissingCells.

Context (U : Utils).

Lemma checkAndFlushRun_returns (s : DataSession) (b : bool) (idx start : Z) :
  0 <= idx < Z.of_nat (length (unixTimeBuff s)) ->
  0 <= start < Z.of_nat (length (unixTimeBuff s)) ->
  exists next s', checkAndFlushRun U s b idx start = Ok (next, s').
Proof.
  intros Hidx Hstart. unfold checkAndFlushRun. destruct b; [|eauto].
  destruct (get_in_range (unixTimeBuff s) idx Hidx) as [t_i ->].
  destruct (get_in_range (unixTimeBuff s) start Hstart) as [t_s ->].
  py_step. destruct (Qle_bool _ _); eauto.
Qed.

(** Over aligned buffers the break test reads every buffer within its
    bounds: it returns when the heater setpoint, the valve position and
    the heater readback of the sample are numbers, and raises
    [TypeError] when one of them is [None]. *)
Lemma isEndOfRun_aligned (k : Session) (idx : Z) (e cv ca : cell) :
  aligned k ->
  0 <= idx < Z.of_nat (length (elecHeatDesBuff (session_base k))) ->
  get (valvePosBuff (session_base k)) idx = Ok cv ->
  get (elecHeatActBuff (session_base k)) idx = Ok ca ->
  match e, cv, ca with
  | Some _, Some _, Some _ => exists b, isEndOfRun U k idx e = Ok b
  | _, _, _ => isEndOfRun U k idx e = Raise TypeError
  end.
Proof.
  intros (Ht & Hv & Hl & Ha & Hq) Hidx Hcv Hca.
  set (s := session_base k) in *.
  assert (match e, cv, ca with
          | Some _, Some _, Some _ =>
              exists b, isEndOfCalibRun U s idx e = Ok b
          | _, _, _ => isEndOfCalibRun U s idx e = Raise TypeError
          end) as Hcalib.
  { unfold isEndOfCalibRun.
    destruct (get_in_range (dsLevelBuff s) idx) as [l ->]; [lia|].
    rewrite Hcv, Hca.
    destruct (Z.ltb_spec 0 idx) as [Hpos|Hpos].
    - destruct (get_in_range (elecHeatDesBuff s) (idx - 1)) as [dp ->];
        [lia|].
      destruct e, cv, ca; cbn; eauto.
    - destruct e, cv, ca; cbn; eauto. }
  destruct k as [c|q]; subst s; cbn [session_base isEndOfRun] in *;
    [exact Hcalib|].
  unfold isEndOfQ0Run.
  destruct (Hq eq_refl) as [Hg _].
  destruct (gradChanged_returns U (base q) idx) as (gc & -> & _); [lia|].
  py_step.
  destruct e as [d|], cv as [v|], ca as [a|];
    try (by rewrite Hcalib).
  destruct Hcalib as [b ->]. py_step. eauto.
Qed.

Lemma aligned_set_runs (k : Session) (rs : list DataRun) :
  aligned (set_runs k rs) <-> aligned k.
Proof. by destruct k. Qed.

(** The loop of [populateRuns] from index [i] on, over aligned buffers:
    it returns when no heater or valve cell from [i] on is [None], and
    raises [TypeError] when one is. *)
Lemma populate_loop_aligned (k : Session) (items : list cell) :
  forall (rs : list DataRun) (i : nat) (start : Z),
    aligned k ->
    0 <= start <= Z.of_nat i ->
    drop i (elecHeatDesBuff (session_base k)) = items ->
    (numeric items
     /\ numeric (drop i (valvePosBuff (session_base k)))
     /\ numeric (drop i (elecHeatActBuff (session_base k))) ->
     exists k', populate_loop U (set_runs k rs) items (Z.of_nat i) start
                = Ok k')
    /\ (~ (numeric items
           /\ numeric (drop i (valvePosBuff (session_base k)))
           /\ numeric (drop i (elecHeatActBuff (session_base k)))) ->
        populate_loop U (set_runs k rs) items (Z.of_nat i) start
        = Raise TypeError).
Proof.
  induction items as [|e rest IH]; intros rs i start Hal Hstart Hdrop.
  - assert (length (elecHeatDesBuff (session_base k)) <= i)%nat as Hlen.
    { apply (f_equal length) in Hdrop. rewrite length_drop in Hdrop.
      cbn [length] in Hdrop. lia. }
    destruct Hal as (_ & Hv & _ & Ha & _).
    rewrite (drop_ge (valvePosBuff (session_base k))),
      (drop_ge (elecHeatActBuff (session_base k))) by lia.
    split; [by eexists|]. intros H. destruct H. repeat split; constructor.
  - pose proof Hal as (Ht & Hv & Hl & Ha & _).
    assert (elecHeatDesBuff (session_base k) !! i = Some e) as He.
    { rewrite <- (Nat.add_0_r i), <- lookup_drop, Hdrop. done. }
    assert (drop (S i) (elecHeatDesBuff (session_base k)) = rest) as Hrest.
    { replace (S i) with (i + 1)%nat by lia.
      by rewrite <- drop_drop, Hdrop. }
    assert (i < length (elecHeatDesBuff (session_base k)))%nat as Hi
      by (by eapply lookup_lt_Some).
    destruct (lookup_lt_is_Some_2 (valvePosBuff (session_base k)) i)
      as [cv Hcv]; [lia|].
    destruct (lookup_lt_is_Some_2 (elecHeatActBuff (session_base k)) i)
      as [ca Hca]; [lia|].
    rewrite (drop_S _ _ _ Hcv), (drop_S _ _ _ Hca).
    cbn [populate_loop]. rewrite isEndOfRun_set_runs.
    pose proof (isEndOfRun_aligned k (Z.of_nat i) e cv ca Hal) as Hend.
    rewrite !get_Ok_lookup, !Nat2Z.id in Hend by lia.
    specialize (Hend ltac:(lia) Hcv Hca).
    assert (is_Some e /\ is_Some cv /\ is_Some ca
            \/ isEndOfRun U k (Z.of_nat i) e = Raise TypeError) as [Hsome|Hr].
    { destruct e, cv, ca; eauto. }
    + destruct Hsome as ([d ->] & [v ->] & [a ->]).
      destruct Hend as [b ->]. py_step.
      destruct (checkAndFlushRun_returns (session_base (set_runs k rs)) b
                  (Z.of_nat i) start) as (next & s' & Hflush).
      { rewrite set_runs_base. cbn [set_dataRuns unixTimeBuff]. lia. }
      { rewrite set_runs_base. cbn [set_dataRuns unixTimeBuff]. lia. }
      rewrite Hflush. cbn [mbind py_bind fst snd].
      apply checkAndFlushRun_step in Hflush as [Hframe Hcases].
      rewrite Hframe, set_runs_base.
      assert (with_base (set_runs k rs)
                (set_dataRuns (set_dataRuns (session_base k) rs)
                   (dataRuns s'))
              = set_runs k (dataRuns s')) as -> by (by destruct k).
      replace (Z.of_nat i + 1) with (Z.of_nat (S i)) by lia.
      destruct (IH (dataRuns s') (S i) next Hal) as [IHok IHraise];
        [destruct Hcases as [(_ & -> & _)|(_ & -> & _)]; lia|done|].
      split.
      * intros (Hn1 & Hn2 & Hn3). apply IHok.
        by inversion Hn1; inversion Hn2; inversion Hn3.
      * intros Hnot. apply IHraise. intros (Hn1 & Hn2 & Hn3).
        apply Hnot. repeat split; constructor; eauto.
    + rewrite Hr. py_step. split; [|done].
      intros (Hn1 & Hn2 & Hn3).
      inversion Hn1 as [|? ? [d ->]]; inversion Hn2 as [|? ? [v ->]];
        inversion Hn3 as [|? ? [a ->]]; subst.
      destruct Hend as [b Hb]. congruence.
Qed.

End MissingCells.

(** X2. Over aligned buffers segmentation fails in one way only: it
    returns when no cell of the heater setpoint, heater readback and
    valve position buffers is [None], whatever the level and gradient
    buffers hold, and it raises [TypeError] when one of those cells is
    [None]. *)
Theorem populateRuns_aligned (U : Utils) (k : Session) :
  aligned k ->
  (numeric (elecHeatDesBuff (session_base k))
   /\ numeric (valvePosBuff (session_base k))
   /\ numeric (elecHeatActBuff (session_base k)) ->
   exists k', populateRuns U k = Ok k')
  /\ (~ (numeric (elecHeatDesBuff (session_base k))
         /\ numeric (valvePosBuff (session_base k))
         /\ numeric (elecHeatActBuff (session_base k))) ->
      populateRuns U k = Raise TypeError).
Proof.
  intros Hal. unfold populateRuns.
  pose proof (populate_loop_aligned U k (elecHeatDesBuff (session_base k))
                (dataRuns (session_base k)) 0 0 Hal) as H.
  rewrite set_runs_id in H. apply H; [lia|done].
Qed.

Lemma populateRuns_aligned_witness :
  (numeric (elecHeatDesBuff session_missing_valve)
   /\ numeric (valvePosBuff session_missing_valve)
   /\ numeric (elecHeatActBuff session_missing_valve) ->
   exists k', populateRuns utils_sample (Calib session_missing_valve) = Ok k')
  /\ (~ (numeric (elecHeatDesBuff session_missing_valve)
         /\ numeric (valvePosBuff session_missing_valve)
         /\ numeric (elecHeatActBuff session_missing_valve)) ->
      populateRuns utils_sample (Calib session_missing_valve)
      = Raise TypeError).
Proof.
  apply (populateRuns_aligned utils_sample (Calib session_missing_valve)).
  repeat split; discriminate.
Defined.

(** ** Run segmentation: a session without breaks *)

Section QuietSession.

Context (U : Utils).

(** At the last index the break test, when it returns, returns true. *)
Lemma isEndOfRun_last (k : Session) (idx : Z) (e : cell) (b : bool) :
  idx = Z.of_nat (length (elecHeatDesBuff (session_base k))) - 1 ->
  isEndOfRun U k idx e = Ok b -> b = true.
Proof.
  intros Hlast.
  assert (forall b', isEndOfCalibRun U (session_base k) idx e = Ok b' ->
                     b' = true) as Hcalib.
  { intros b'. unfold isEndOfCalibRun.
    rewrite (proj2 (Z.eqb_eq _ _) Hlast).
    repeat match goal with
           | |- (?m ≫= _) = _ -> _ => destruct m; [|done]; py_step
           end.
    intros [= <-]. by rewrite orb_true_r. }
  destruct k as [c|q]; cbn [isEndOfRun session_base] in *; [by apply Hcalib|].
  unfold isEndOfQ0Run.
  destruct (gradChanged U (base q) idx) as [gc|]; [|done]. py_step.
  destruct (isEndOfCalibRun U (base q) idx e) as [b'|]; [|done]. py_step.
  intros [= <-]. by rewrite (Hcalib b' eq_refl).
Qed.

(** Samples at which the break test returns false leave the session and
    the pending start as they are. *)
Lemma populate_loop_quiet (k : Session) (pre rest : list cell) :
  forall (idx start : Z),
    (forall j c, pre !! j = Some c ->
                 isEndOfRun U k (idx + Z.of_nat j) c = Ok false) ->
    populate_loop U k (pre ++ rest) idx start
    = populate_loop U k rest (idx + Z.of_nat (length pre)) start.
Proof.
  induction pre as [|c pre IH]; intros idx start Hquiet.
  - cbn [app length]. by rewrite Z.add_0_r.
  - cbn [app populate_loop].
    pose proof (Hquiet 0%nat c eq_refl) as H0.
    rewrite Z.add_0_r in H0. rewrite H0. py_step.
    cbn [checkAndFlushRun mbind py_bind fst snd]. rewrite with_base_id.
    rewrite IH.
    + f_equal. cbn [length]. lia.
    + intros j c' Hj. specialize (Hquiet (S j) c' Hj).
      by replace (idx + 1 + Z.of_nat j) with (idx + Z.of_nat (S j)) by lia.
Qed.

End QuietSession.

(** X3. A session in which the break test returns false at every index
    but the last is segmented into one run, from index 0 to the index
    before the last, when the time from the first to the last sample
    meets the minimum duration, and into no run otherwise: the break at
    the last index flushes the pending run and the last sample is left
    out of it. *)
Theorem populateRuns_quiet (U : Utils) (k : Session) (pre : list cell)
    (e : cell) (b : bool) (t0 tn : Q) :
  elecHeatDesBuff (session_base k) = pre ++ [e] ->
  (forall j c, pre !! j = Some c ->
               isEndOfRun U k (Z.of_nat j) c = Ok false) ->
  isEndOfRun U k (Z.of_nat (length pre)) e = Ok b ->
  get (unixTimeBuff (session_base k)) 0 = Ok t0 ->
  get (unixTimeBuff (session_base k)) (Z.of_nat (length pre)) = Ok tn ->
  ((MIN_RUN_DURATION U <= tn - t0)%Q ->
   populateRuns U k
   = Ok (with_base k
           (addRun (session_base k) 0 (Z.of_nat (length pre) - 1))))
  /\ ((tn - t0 < MIN_RUN_DURATION U)%Q -> populateRuns U k = Ok k).
Proof.
  intros Hdes Hquiet Hlast Ht0 Htn.
  assert (b = true) as ->.
  { apply (isEndOfRun_last U k (Z.of_nat (length pre)) e b); [|done].
    rewrite Hdes, length_app. cbn [length]. lia. }
  unfold populateRuns. rewrite Hdes, (populate_loop_quiet U k pre [e] 0 0);
    [|done].
  cbn [populate_loop]. rewrite Z.add_0_l, Hlast. py_step.
  unfold checkAndFlushRun. rewrite Htn, Ht0. py_step.
  split.
  - intros Hle%Qle_bool_iff. by rewrite Hle.
  - intros Hlt.
    assert (Qle_bool (MIN_RUN_DURATION U) (tn - t0) = false) as ->.
    { apply not_true_is_false. intros Hle%Qle_bool_iff. lra. }
    cbn [mbind py_bind fst snd]. by rewrite with_base_id.
Qed.

Lemma populateRuns_quiet_witness :
  ((MIN_RUN_DURATION utils_sample <= 1200 - 0)%Q ->
   populateRuns utils_sample (Calib session_quiet)
   = Ok (with_base (Calib session_quiet)
           (addRun session_quiet 0 (Z.of_nat 2 - 1))))
  /\ ((1200 - 0 < MIN_RUN_DURATION utils_sample)%Q ->
      populateRuns utils_sample (Calib session_quiet)
      = Ok (Calib session_quiet)).
Proof.
  apply (populateRuns_quiet utils_sample (Calib session_quiet)
           (floats [1; 1]%Q) (Some 1%Q) true 0 1200).
  - reflexivity.
  - intros [|[|j]] c Hc; try discriminate Hc; injection Hc as <-; reflexivity.
  - reflexivity.
  - reflexivity.
  - reflexivity.
Defined.

(** ** Settle-time trimmer: what it leaves alone *)

Lemma adjust_run_frame (k k' : Session) (i : nat) :
  adjust_run k i = Ok k' ->
  exists run idx',
    dataRuns (session_base k) !! i = Some run
    /\ startIdx run <= idx'
    /\ k' = set_runs k
              (<[i := set_startIdx run idx']> (dataRuns (session_base k))).
Proof.
  intros H. unfold adjust_run in H.
  destruct (get (dataRuns (session_base k)) (Z.of_nat i)) as [run|] eqn:Hrun;
    [|done].
  py_step in H.
  destruct (getTotalHeatDelta k (startIdx run) (Z.of_nat i)) as [delta|];
    [|done].
  py_step in H.
  destruct (get (unixTimeBuff (session_base k)) (startIdx run))
    as [t0|]; [|done].
  py_step in H.
  destruct (settle_loop _ _ _ _ _ _) as [idx'|] eqn:Hloop; [|done].
  py_step in H. injection H as <-.
  exists run, idx'. split.
  { apply get_Ok_lookup in Hrun; [|lia]. by rewrite Nat2Z.id in Hrun. }
  split; [by apply settle_loop_ge in Hloop|done].
Qed.

Lemma adjust_loop_frame (turns : list nat) :
  forall k k' : Session,
    adjust_loop k turns = Ok k' ->
    k' = set_runs k (dataRuns (session_base k'))
    /\ length (dataRuns (session_base k'))
       = length (dataRuns (session_base k))
    /\ (forall j r, dataRuns (session_base k) !! j = Some r ->
                    exists idx', startIdx r <= idx'
                                 /\ dataRuns (session_base k') !! j
                                    = Some (set_startIdx r idx'))
    /\ (forall j, j ∉ turns ->
                  dataRuns (session_base k') !! j
                  = dataRuns (session_base k) !! j).
Proof.
  induction turns as [|i rest IH]; intros k k' Hloop.
  - injection Hloop as <-. split; [by rewrite set_runs_id|].
    split; [done|]. split; [|done].
    intros j r Hr. exists (startIdx r). split; [lia|]. by destruct r.
  - cbn [adjust_loop] in Hloop.
    destruct (adjust_run k i) as [k1|] eqn:Hrun; [|done].
    py_step in Hloop.
    apply adjust_run_frame in Hrun as (run & idx1 & Hi & Hge & ->).
    apply IH in Hloop as (Hk' & Hlen & Hruns & Hout).
    rewrite set_runs_base in Hlen, Hruns, Hout.
    cbn [set_dataRuns dataRuns] in Hlen, Hruns, Hout.
    rewrite length_insert in Hlen.
    split; [by rewrite Hk', set_runs_set_runs at 1|]. split; [done|]. split.
    + intros j r Hr. destruct (decide (j = i)) as [->|Hne].
      * assert (r = run) as -> by congruence.
        destruct (Hruns i (set_startIdx run idx1)) as (idx' & Hle & Hj).
        { apply list_lookup_insert_eq. by eapply lookup_lt_Some. }
        exists idx'. split; [cbn [set_startIdx startIdx] in Hle; lia|].
        by rewrite Hj.
      * apply Hruns. by rewrite list_lookup_insert_ne.
    + intros j Hj. apply not_elem_of_cons in Hj as [Hne Hrest].
      rewrite Hout by done. by apply list_lookup_insert_ne.
Qed.

(** X4. Trimming changes nothing of a session but the start indices of
    its runs: the number of runs, their end indices, fitted slopes and
    numbers stay, no start index decreases, and runs that were apart and
    numbered in order still are. *)
Theorem adjustForSettle_frame (k k' : Session) :
  adjustForSettle k = Ok k' ->
  k' = set_runs k (dataRuns (session_base k'))
  /\ length (dataRuns (session_base k')) = length (dataRuns (session_base k))
  /\ (forall j r, dataRuns (session_base k) !! j = Some r ->
                  exists idx', startIdx r <= idx'
                               /\ dataRuns (session_base k') !! j
                                  = Some (set_startIdx r idx'))
  /\ (runs_apart (dataRuns (session_base k)) ->
      runs_apart (dataRuns (session_base k')))
  /\ (runs_numbered (dataRuns (session_base k)) ->
      runs_numbered (dataRuns (session_base k'))).
Proof.
  intros Hadj. unfold adjustForSettle in Hadj.
  apply adjust_loop_frame in Hadj as (Hk' & Hlen & Hruns & _).
  split; [done|]. split; [done|]. split; [done|]. split.
  - intros Hapart i r1' r2' H1 H2.
    destruct (lookup_lt_is_Some_2 (dataRuns (session_base k)) i)
      as [r1 Hr1]; [apply lookup_lt_Some in H1; lia|].
    destruct (lookup_lt_is_Some_2 (dataRuns (session_base k)) (S i))
      as [r2 Hr2]; [apply lookup_lt_Some in H2; lia|].
    destruct (Hruns i r1 Hr1) as (i1 & Hle1 & E1).
    destruct (Hruns (S i) r2 Hr2) as (i2 & Hle2 & E2).
    rewrite H1 in E1. rewrite H2 in E2.
    injection E1 as ->. injection E2 as ->.
    cbn [set_startIdx startIdx endIdx].
    specialize (Hapart i r1 r2 Hr1 Hr2). lia.
  - intros Hnum i r' H'.
    destruct (lookup_lt_is_Some_2 (dataRuns (session_base k)) i)
      as [r Hr]; [apply lookup_lt_Some in H'; lia|].
    destruct (Hruns i r Hr) as (i1 & _ & E). rewrite H' in E.
    injection E as ->. cbn [set_startIdx num]. by apply Hnum.
Qed.

Lemma adjustForSettle_frame_witness :
  Calib (set_dataRuns (session_level_dip 0 50)
           [mkDataRun 3 1 None 1; mkDataRun 2 3 None 2])
  = set_runs (Calib (set_dataRuns (session_level_dip 0 50)
                       [mkDataRun 0 1 None 1; mkDataRun 2 3 None 2]))
      [mkDataRun 3 1 None 1; mkDataRun 2 3 None 2]
  /\ length [mkDataRun 3 1 None 1; mkDataRun 2 3 None 2]
     = length [mkDataRun 0 1 None 1; mkDataRun 2 3 None 2]
  /\ (forall j r,
         [mkDataRun 0 1 None 1; mkDataRun 2 3 None 2] !! j = Some r ->
         exists idx', startIdx r <= idx'
                      /\ [mkDataRun 3 1 None 1; mkDataRun 2 3 None 2] !! j
                         = Some (set_startIdx r idx'))
  /\ (runs_apart [mkDataRun 0 1 None 1; mkDataRun 2 3 None 2] ->
      runs_apart [mkDataRun 3 1 None 1; mkDataRun 2 3 None 2])
  /\ (runs_numbered [mkDataRun 0 1 None 1; mkDataRun 2 3 None 2] ->
      runs_numbered [mkDataRun 3 1 None 1; mkDataRun 2 3 None 2]).
Proof.
  apply (adjustForSettle_frame
           (Calib (set_dataRuns (session_level_dip 0 50)
                     [mkDataRun 0 1 None 1; mkDataRun 2 3 None 2]))
           (Calib (set_dataRuns (session_level_dip 0 50)
                     [mkDataRun 3 1 None 1; mkDataRun 2 3 None 2]))).
  vm_compute. reflexivity.
Defined.

(** ** Settle-time trimmer: where each run starts *)

Lemma get_ext {A} (l1 l2 : list A) (i : Z) :
  0 <= i -> length l1 = length l2 ->
  l1 !! Z.to_nat i = l2 !! Z.to_nat i ->
  get l1 i = get l2 i.
Proof.
  intros Hi Hlen Hlook. unfold get. cbv zeta.
  rewrite (proj2 (Z.ltb_ge i 0)) by lia. by rewrite Hlen, Hlook.
Qed.

(** The heat-load step of the run at [currIdx] depends on the run list
    through the start index of the run before it only. *)
Lemma getTotalHeatDelta_ext (k : Session) (rs : list DataRun)
    (start currIdx : Z) :
  0 <= currIdx ->
  length rs = length (dataRuns (session_base k)) ->
  (0 < currIdx ->
   rs !! Z.to_nat (currIdx - 1)
   = dataRuns (session_base k) !! Z.to_nat (currIdx - 1)) ->
  getTotalHeatDelta (set_runs k rs) start currIdx
  = getTotalHeatDelta k start currIdx.
Proof.
  intros Hc Hlen Hprev.
  assert (currIdx = 0
          \/ get rs (currIdx - 1)
             = get (dataRuns (session_base k)) (currIdx - 1)) as Hget.
  { destruct (decide (currIdx = 0)) as [|Hne]; [by left|right].
    apply get_ext; [lia|done|]. apply Hprev. lia. }
  destruct k as [s|q]; cbn [getTotalHeatDelta set_runs with_base session_base
                             set_base base] in *;
    unfold getTotalHeatDelta_calib, getTotalHeatDelta_q0;
    cbn [set_dataRuns dataRuns elecHeatDesBuff gradBuff refHeatLoad];
    (destruct Hget as [->|Hget]; [done|]);
    (destruct (currIdx =? 0); [done|]);
    by rewrite Hget.
Qed.

Lemma adjust_loop_scan (m : nat) :
  forall (a : nat) (k k' : Session),
    adjust_loop k (seq a m) = Ok k' ->
    forall (j : nat) (r r' : DataRun),
      (a <= j < a + m)%nat ->
      dataRuns (session_base k) !! j = Some r ->
      dataRuns (session_base k') !! j = Some r' ->
      exists delta t0,
        getTotalHeatDelta k' (startIdx r) (Z.of_nat j) = Ok delta
        /\ get (unixTimeBuff (session_base k)) (startIdx r) = Ok t0
        /\ ((startIdx r' = startIdx r
             /\ (inject_Z (int (delta * 25)) <= 0)%Q)
            \/ (startIdx r < startIdx r'
                /\ (0 < inject_Z (int (delta * 25)))%Q
                /\ (exists t,
                       get (unixTimeBuff (session_base k)) (startIdx r')
                       = Ok t
                       /\ (inject_Z (int (delta * 25)) <= t - t0)%Q)
                /\ forall i, startIdx r < i < startIdx r' ->
                             exists t,
                               get (unixTimeBuff (session_base k)) i = Ok t
                               /\ (t - t0 < inject_Z (int (delta * 25)))%Q)).
Proof.
  induction m as [|m IH]; intros a k k' Hloop j r r' Hj Hr Hr'; [lia|].
  cbn [seq adjust_loop] in Hloop.
  destruct (adjust_run k a) as [k1|] eqn:Hrun; [|done].
  py_step in Hloop.
  pose proof (adjust_loop_frame _ _ _ Hloop) as (Hk' & Hlen' & _ & Hout).
  pose proof (adjust_run_frame _ _ _ Hrun) as (run0 & idx0 & Ha0 & _ & Hk1).
  assert (unixTimeBuff (session_base k1) = unixTimeBuff (session_base k))
    as Htimes by (by rewrite Hk1, set_runs_base).
  destruct (decide (j = a)) as [->|Hne].
  - apply adjust_run_scan in Hrun
      as (run & delta & t0 & idx' & Ha & Hdelta & Ht0 & Hruns1 & Hscan).
    assert (run = r) as -> by congruence.
    assert (dataRuns (session_base k') !! a = Some (set_startIdx r idx'))
      as Hr1.
    { rewrite Hout by (rewrite elem_of_seq; lia). rewrite Hruns1.
      apply list_lookup_insert_eq. by eapply lookup_lt_Some. }
    assert (r' = set_startIdx r idx') as -> by congruence.
    exists delta, t0. split; [|split; [done|exact Hscan]].
    rewrite <- Hdelta, Hk', Hk1, set_runs_set_runs.
    apply getTotalHeatDelta_ext; [lia| |].
    + rewrite Hlen', Hk1, set_runs_base. cbn [set_dataRuns dataRuns].
      by rewrite length_insert.
    + intros Hpos.
      replace (Z.to_nat (Z.of_nat a - 1)) with (a - 1)%nat by lia.
      rewrite Hout by (rewrite elem_of_seq; lia).
      rewrite Hk1, set_runs_base. cbn [set_dataRuns dataRuns].
      apply list_lookup_insert_ne. lia.
  - rewrite <- Htimes.
    apply (IH (S a) k1 k' Hloop j r r'); [lia| |done].
    rewrite Hk1, set_runs_base. cbn [set_dataRuns dataRuns].
    rewrite list_lookup_insert_ne by done. done.
Qed.

(** X5. After trimming, each run starts where the settle time of its
    heat-load step ends. With [delta] the step of the run, computed from
    the trimmed start of the run before it, and [cutoff = int(25 *
    delta)]: the run keeps its start index when the cutoff is not
    positive; otherwise its start index is the first later index whose
    sample is at least [cutoff] seconds after the sample at the old
    start index. *)
Theorem adjustForSettle_scan (k k' : Session) (j : nat) (r r' : DataRun) :
  adjustForSettle k = Ok k' ->
  dataRuns (session_base k) !! j = Some r ->
  dataRuns (session_base k') !! j = Some r' ->
  exists delta t0,
    getTotalHeatDelta k' (startIdx r) (Z.of_nat j) = Ok delta
    /\ get (unixTimeBuff (session_base k)) (startIdx r) = Ok t0
    /\ ((startIdx r' = startIdx r /\ (inject_Z (int (delta * 25)) <= 0)%Q)
        \/ (startIdx r < startIdx r'
            /\ (0 < inject_Z (int (delta * 25)))%Q
            /\ (exists t,
                   get (unixTimeBuff (session_base k)) (startIdx r') = Ok t
                   /\ (inject_Z (int (delta * 25)) <= t - t0)%Q)
            /\ forall i, startIdx r < i < startIdx r' ->
                         exists t,
                           get (unixTimeBuff (session_base k)) i = Ok t
                           /\ (t - t0 < inject_Z (int (delta * 25)))%Q)).
Proof.
  intros Hadj Hr Hr'. unfold adjustForSettle in Hadj.
  apply (adjust_loop_scan _ _ _ _ Hadj j r r'); [|done|done].
  apply lookup_lt_Some in Hr. lia.
Qed.

Lemma adjustForSettle_scan_witness :
  exists delta t0,
    getTotalHeatDelta session_dip_trimmed
      (startIdx (mkDataRun 0 1 None 1)) (Z.of_nat 0) = Ok delta
    /\ get (unixTimeBuff (session_base session_dip_segmented))
         (startIdx (mkDataRun 0 1 None 1)) = Ok t0
    /\ ((startIdx (mkDataRun 3 1 None 1) = startIdx (mkDataRun 0 1 None 1)
         /\ (inject_Z (int (delta * 25)) <= 0)%Q)
        \/ (startIdx (mkDataRun 0 1 None 1) < startIdx (mkDataRun 3 1 None 1)
            /\ (0 < inject_Z (int (delta * 25)))%Q
            /\ (exists t,
                   get (unixTimeBuff (session_base session_dip_segmented))
                     (startIdx (mkDataRun 3 1 None 1)) = Ok t
                   /\ (inject_Z (int (delta * 25)) <= t - t0)%Q)
            /\ forall i,
                 startIdx (mkDataRun 0 1 None 1) < i
                 < startIdx (mkDataRun 3 1 None 1) ->
                 exists t,
                   get (unixTimeBuff (session_base session_dip_segmented)) i
                   = Ok t
                   /\ (t - t0 < inject_Z (int (delta * 25)))%Q)).
Proof.
  apply (adjustForSettle_scan session_dip_segmented session_dip_trimmed
           0%nat (mkDataRun 0 1 None 1) (mkDataRun 3 1 None 1));
    vm_compute; reflexivity.
Defined.

(** ** The heat a gradient stands for *)

Lemma Qltb_true (x y : Q) : Qltb x y = true <-> (x < y)%Q.
Proof.
  unfold Qltb. rewrite negb_true_iff, <- not_true_iff_false, Qle_bool_iff.
  split; [apply Qnot_le_lt|apply Qlt_not_le].
Qed.

Lemma approxHeatFromGrad_pos (g : Q) :
  (0 < g)%Q ->
  approxHeatFromGrad (Some g) = ((g / 16) ^ 2 * (96 # 10))%Q.
Proof.
  intros Hg. unfold approxHeatFromGrad.
  by rewrite (proj2 (Qltb_true 0 g) Hg).
Qed.

Lemma approxHeatFromGrad_nonpos (g : Q) :
  (g <= 0)%Q -> approxHeatFromGrad (Some g) = 0%Q.
Proof.
  intros Hg. unfold approxHeatFromGrad.
  destruct (Qltb 0 g) eqn:Hlt; [|done].
  apply Qltb_true in Hlt. lra.
Qed.

Lemma sq_pos (x : Q) : (0 < x)%Q -> (0 < x ^ 2 * (96 # 10))%Q.
Proof.
  intros H. change (x ^ 2)%Q with (x * x)%Q.
  assert (0 < x * x)%Q by (by apply Qmult_lt_0_compat).
  by apply Qmult_lt_0_compat.
Qed.

Lemma sq_mono (x y : Q) :
  (0 < x)%Q -> (x <= y)%Q -> (x ^ 2 * (96 # 10) <= y ^ 2 * (96 # 10))%Q.
Proof.
  intros H Hle.
  change (x ^ 2)%Q with (x * x)%Q. change (y ^ 2)%Q with (y * y)%Q.
  apply Qmult_le_compat_r; [|done].
  apply Qle_trans with (x * y)%Q.
  - by apply (proj2 (Qmult_le_l x y x H)).
  - apply Qmult_le_compat_r; [done|lra].
Qed.

(** X6. The heat load approximated from a gradient is never negative,
    is zero exactly for a missing gradient and for a gradient that is
    not positive, and does not decrease when the gradient grows. *)
Theorem approxHeatFromGrad_monotone :
  (forall c, (0 <= approxHeatFromGrad c)%Q)
  /\ (forall c, (approxHeatFromGrad c == 0)%Q
                <-> (c = None \/ exists g, c = Some g /\ (g <= 0)%Q))
  /\ (forall g1 g2, (g1 <= g2)%Q ->
                    (approxHeatFromGrad (Some g1)
                     <= approxHeatFromGrad (Some g2))%Q).
Proof.
  assert (forall g, (0 < g)%Q -> (0 < (g / 16) ^ 2 * (96 # 10))%Q) as Hpos.
  { intros g Hg. apply sq_pos. apply Qlt_shift_div_l; lra. }
  split; [|split].
  - intros [g|]; [|done].
    destruct (Qlt_le_dec 0 g) as [Hg|Hg].
    + rewrite approxHeatFromGrad_pos by done. apply Qlt_le_weak. by apply Hpos.
    + by rewrite approxHeatFromGrad_nonpos.
  - intros [g|]; [|split; [by left|done]].
    destruct (Qlt_le_dec 0 g) as [Hg|Hg].
    + rewrite approxHeatFromGrad_pos by done. split.
      * intros H0. specialize (Hpos g Hg). lra.
      * intros [?|(g' & [= <-] & ?)]; [done|lra].
    + rewrite approxHeatFromGrad_nonpos by done. split; [|done].
      intros _. right. by exists g.
  - intros g1 g2 Hle.
    destruct (Qlt_le_dec 0 g1) as [Hg1|Hg1].
    + rewrite !approxHeatFromGrad_pos by lra.
      apply sq_mono; [apply Qlt_shift_div_l; lra|].
      unfold Qdiv. by apply Qmult_le_compat_r.
    + rewrite (approxHeatFromGrad_nonpos g1) by done.
      destruct (Qlt_le_dec 0 g2) as [Hg2|Hg2].
      * rewrite approxHeatFromGrad_pos by done.
        apply Qlt_le_weak. by apply Hpos.
      * by rewrite approxHeatFromGrad_nonpos.
Qed.

(** ** The size of a session *)

Lemma int_quot (a b : Z) :
  b <> 0 -> int (inject_Z a / inject_Z b) = Z.quot a b.
Proof.
  intros Hb. unfold int.
  assert (forall c d, d <> 0 -> 0 <= c * d -> Z.quot c d = c / d) as Hquot.
  { intros c d Hd Hcd.
    destruct (Z_lt_le_dec 0 d).
    - apply Z.quot_div_nonneg; nia.
    - rewrite <- (Z.quot_opp_opp c d), <- (Z.div_opp_opp c d) by done.
      apply Z.quot_div_nonneg; nia. }
  assert (Qle_bool 0 (inject_Z a / inject_Z b) = true <-> 0 <= a * b) as Hsign.
  { rewrite Qle_bool_iff. unfold Qdiv, Qinv, inject_Z.
    destruct b as [|p|p]; [done| |]; cbn [Qnum Qden]; unfold Qle, Qmult;
      cbn [Qnum Qden]; lia. }
  destruct (Qle_bool 0 (inject_Z a / inject_Z b)) eqn:Hle.
  - rewrite <- Zdiv_Qdiv. symmetry. apply Hquot; [done|]. by apply Hsign.
  - assert (~ 0 <= a * b) as Hneg by (rewrite <- Hsign; congruence).
    unfold Qceiling.
    assert (- (inject_Z a / inject_Z b) == inject_Z (- a) / inject_Z b)%Q as ->.
    { rewrite inject_Z_opp. field. intros H0.
      apply (inject_Z_injective b 0) in H0. done. }
    rewrite <- Zdiv_Qdiv, <- Hquot by (done || lia).
    rewrite Z.quot_opp_l by done. lia.
Qed.

(** X7. The number of points of a session is the span between its start
    and end time divided by the sample interval and truncated toward
    zero; for a positive interval and a span that is not negative it is
    the number of whole intervals that fit in the span. A sample
    interval of zero raises [ZeroDivisionError]. *)
Theorem numPoints_quot (s : DataSession) :
  (timeInt s = 0 -> numPoints s = Raise ZeroDivisionError)
  /\ (timeInt s <> 0 ->
      numPoints s = Ok (Z.quot (endTime s - startTime s) (timeInt s)))
  /\ (0 < timeInt s -> startTime s <= endTime s ->
      exists n, numPoints s = Ok n
                /\ n * timeInt s <= endTime s - startTime s
                   < (n + 1) * timeInt s).
Proof.
  assert (timeInt s <> 0 ->
          numPoints s = Ok (Z.quot (endTime s - startTime s) (timeInt s)))
    as Hquot.
  { intros Hne. unfold numPoints, div.
    destruct (Qeq_bool (inject_Z (timeInt s)) 0) eqn:Heq.
    - apply Qeq_bool_iff in Heq.
      apply (inject_Z_injective (timeInt s) 0) in Heq. done.
    - py_step. by rewrite int_quot. }
  split; [|split; [done|]].
  - intros Hz. unfold numPoints, div. by rewrite Hz.
  - intros Hpos Hle. eexists. split; [apply Hquot; lia|].
    rewrite Z.quot_div_nonneg by lia.
    pose proof (Z.mul_div_le (endTime s - startTime s) (timeInt s) Hpos).
    pose proof (Z.mul_succ_div_gt (endTime s - startTime s) (timeInt s) Hpos).
    lia.
Qed.

(** ** The samples of a run *)

Lemma slice_spec {A} (l : list A) (a b : Z) :
  0 <= a -> 0 <= b <= Z.of_nat (length l) ->
  length (slice l a b) = Z.to_nat (b - a)
  /\ forall j : nat,
       (j < Z.to_nat (b - a))%nat ->
       slice l a b !! j = l !! (Z.to_nat a + j)%nat.
Proof.
  intros Ha Hb. unfold slice. cbv zeta.
  rewrite (proj2 (Z.ltb_ge a 0)), (proj2 (Z.ltb_ge b 0)) by lia.
  destruct (Z_le_gt_dec a (Z.of_nat (length l))) as [Hal|Hal].
  - rewrite (Z.min_r _ a), (Z.min_r _ b), !Z.max_r by lia. split.
    + rewrite length_take, length_drop. lia.
    + intros j Hj. rewrite lookup_take_lt by done. by rewrite lookup_drop.
  - rewrite (Z.min_l _ a), (Z.min_r _ b), !Z.max_r by lia.
    replace (Z.to_nat (b - a)) with 0%nat by lia.
    replace (Z.to_nat (b - Z.of_nat (length l))) with 0%nat by lia.
    split; [done|]. intros j Hj. lia.
Qed.

(** X8. The samples fitted for a run whose indices lie in the buffers
    are those at its start index up to, and without, its end index: the
    level and time lists of the run have [endIdx - startIdx] elements
    each and correspond index by index, and a run whose start index is
    at or past its end index has none. *)
Theorem run_samples (s : DataSession) (r : DataRun) :
  length (dsLevelBuff s) = length (unixTimeBuff s) ->
  0 <= startIdx r ->
  0 <= endIdx r <= Z.of_nat (length (unixTimeBuff s)) ->
  length (run_times s r) = Z.to_nat (endIdx r - startIdx r)
  /\ length (run_data s r) = Z.to_nat (endIdx r - startIdx r)
  /\ (forall j : nat,
         (j < Z.to_nat (endIdx r - startIdx r))%nat ->
         run_times s r !! j
         = unixTimeBuff s !! (Z.to_nat (startIdx r) + j)%nat
         /\ run_data s r !! j
            = dsLevelBuff s !! (Z.to_nat (startIdx r) + j)%nat)
  /\ (endIdx r <= startIdx r -> run_times s r = [] /\ run_data s r = []).
Proof.
  intros Hlen Hs He. unfold run_times, run_data.
  destruct (slice_spec (unixTimeBuff s) (startIdx r) (endIdx r) Hs He)
    as [Ht Htj].
  destruct (slice_spec (dsLevelBuff s) (startIdx r) (endIdx r) Hs)
    as [Hd Hdj]; [lia|].
  split; [done|]. split; [done|]. split.
  - intros j Hj. split; [by apply Htj|by apply Hdj].
  - intros Hle. split; apply nil_length_inv; lia.
Qed.

Lemma run_samples_witness :
  length (run_times session_heater_step (mkDataRun 2 3 None 2))
  = Z.to_nat (endIdx (mkDataRun 2 3 None 2) - startIdx (mkDataRun 2 3 None 2))
  /\ length (run_data session_heater_step (mkDataRun 2 3 None 2))
     = Z.to_nat (endIdx (mkDataRun 2 3 None 2)
                 - startIdx (mkDataRun 2 3 None 2))
  /\ (forall j : nat,
         (j < Z.to_nat (endIdx (mkDataRun 2 3 None 2)
                        - startIdx (mkDataRun 2 3 None 2)))%nat ->
         run_times session_heater_step (mkDataRun 2 3 None 2) !! j
         = unixTimeBuff session_heater_step
           !! (Z.to_nat (startIdx (mkDataRun 2 3 None 2)) + j)%nat
         /\ run_data session_heater_step (mkDataRun 2 3 None 2) !! j
            = dsLevelBuff session_heater_step
              !! (Z.to_nat (startIdx (mkDataRun 2 3 None 2)) + j)%nat)
  /\ (endIdx (mkDataRun 2 3 None 2) <= startIdx (mkDataRun 2 3 None 2) ->
      run_times session_heater_step (mkDataRun 2 3 None 2) = []
      /\ run_data session_heater_step (mkDataRun 2 3 None 2) = []).
Proof.
  apply (run_samples session_heater_step (mkDataRun 2 3 None 2));
    vm_compute; (reflexivity || (split; discriminate) || discriminate).
Defined.

(** ** Segmentation followed by trimming *)

Section Pipeline.

Context (runs runs' : list DataRun).
Hypothesis later_starts :
  forall j r, runs !! j = Some r ->
              exists idx', startIdx r <= idx'
                           /\ runs' !! j = Some (set_startIdx r idx').
Hypothesis same_length : length runs' = length runs.

Lemma later_starts_inv (j : nat) (r' : DataRun) :
  runs' !! j = Some r' ->
  exists r idx', runs !! j = Some r /\ startIdx r <= idx'
                 /\ r' = set_startIdx r idx'.
Proof using later_starts same_length.
  intros H'.
  destruct (lookup_lt_is_Some_2 runs j) as [r Hr];
    [apply lookup_lt_Some in H'; lia|].
  destruct (later_starts j r Hr) as (idx' & Hle & E).
  exists r, idx'. split; [done|]. split; [done|]. congruence.
Qed.

Lemma later_starts_apart : runs_apart runs -> runs_apart runs'.
Proof using later_starts same_length.
  intros Hapart i r1' r2' H1 H2.
  apply later_starts_inv in H1 as (r1 & i1 & Hr1 & Hle1 & ->).
  apply later_starts_inv in H2 as (r2 & i2 & Hr2 & Hle2 & ->).
  cbn [set_startIdx startIdx endIdx].
  specialize (Hapart i r1 r2 Hr1 Hr2). lia.
Qed.

Lemma later_starts_numbered : runs_numbered runs -> runs_numbered runs'.
Proof using later_starts same_length.
  intros Hnum i r' H'.
  apply later_starts_inv in H' as (r & i1 & Hr & _ & ->).
  cbn [set_startIdx num]. by apply Hnum.
Qed.

End Pipeline.

(** X9. What [processData] leaves of a session that had no runs, once
    the file is parsed and up to the fits: the buffers and every field
    but the run list are as before; the runs are those segmentation
    emits, each with its start index moved to a later sample or left in
    place; they are numbered from 1, each ends before the next one
    starts, and none reaches the last sample of the buffer. *)
Theorem processData_run_list (U : Utils) (k k' : Session) :
  dataRuns (session_base k) = [] ->
  processData U k = Ok k' ->
  exists k1,
    populateRuns U k = Ok k1
    /\ k' = set_runs k (dataRuns (session_base k'))
    /\ length (dataRuns (session_base k'))
       = length (dataRuns (session_base k1))
    /\ (forall j r, dataRuns (session_base k1) !! j = Some r ->
                    exists idx', startIdx r <= idx'
                                 /\ dataRuns (session_base k') !! j
                                    = Some (set_startIdx r idx'))
    /\ runs_numbered (dataRuns (session_base k'))
    /\ runs_apart (dataRuns (session_base k'))
    /\ Forall (fun r => 0 <= startIdx r
                        /\ endIdx r
                           <= Z.of_nat
                                (length (elecHeatDesBuff (session_base k)))
                              - 2)
         (dataRuns (session_base k')).
Proof.
  intros Hempty Hproc. unfold processData in Hproc.
  destruct (populateRuns U k) as [k1|] eqn:Hpop; [|done].
  py_step in Hproc. exists k1. split; [done|].
  pose proof Hpop as Hseg. unfold populateRuns in Hseg.
  apply (populate_loop_segmenting U
           (Z.of_nat (length (elecHeatDesBuff (session_base k)))))
    in Hseg as (Hframe & start' & Hin & Hapart & Hnum & _ & _);
    [|lia|lia|].
  2:{ rewrite Hempty. repeat split; try constructor.
      - intros i r r' Hr. by rewrite lookup_nil in Hr.
      - intros i r Hr. by rewrite lookup_nil in Hr. }
  assert (exists runs',
             k' = set_runs k1 runs'
             /\ dataRuns (session_base k') = runs'
             /\ length runs' = length (dataRuns (session_base k1))
             /\ forall j r, dataRuns (session_base k1) !! j = Some r ->
                            exists idx', startIdx r <= idx'
                                         /\ runs' !! j
                                            = Some (set_startIdx r idx'))
    as (runs' & Hk' & Hruns' & Hlen & Hlater).
  { destruct (dataRuns (session_base k1)) as [|r0 rest] eqn:Hruns.
    - injection Hproc as <-. exists []. rewrite Hruns.
      split; [by rewrite <- Hruns, set_runs_id|]. split; [done|].
      split; [done|]. intros j r Hr. by rewrite lookup_nil in Hr.
    - unfold adjustForSettle in Hproc.
      apply adjust_loop_frame in Hproc as (Hk' & Hlen & Hlater & _).
      exists (dataRuns (session_base k')). rewrite <- Hruns. done. }
  rewrite Hruns'. split.
  { rewrite Hk', Hframe at 1. by rewrite set_runs_set_runs. }
  split; [done|]. split; [done|].
  split; [by apply (later_starts_numbered (dataRuns (session_base k1)))|].
  split; [by apply (later_starts_apart (dataRuns (session_base k1)))|].
  apply Forall_lookup. intros j r' Hr'.
  apply (later_starts_inv (dataRuns (session_base k1))) in Hr'
    as (r & idx' & Hr & Hle & ->); [|done|done].
  pose proof (Forall_lookup_1 _ _ j r Hin Hr) as [[H0 _] Hend].
  cbn [set_startIdx startIdx endIdx]. lia.
Qed.

Lemma processData_run_list_witness :
  exists k1,
    populateRuns utils_sample (Calib (session_level_dip 0 50)) = Ok k1
    /\ session_dip_trimmed
       = set_runs (Calib (session_level_dip 0 50))
           (dataRuns (session_base session_dip_trimmed))
    /\ length (dataRuns (session_base session_dip_trimmed))
       = length (dataRuns (session_base k1))
    /\ (forall j r, dataRuns (session_base k1) !! j = Some r ->
                    exists idx',
                      startIdx r <= idx'
                      /\ dataRuns (session_base session_dip_trimmed) !! j
                         = Some (set_startIdx r idx'))
    /\ runs_numbered (dataRuns (session_base session_dip_trimmed))
    /\ runs_apart (dataRuns (session_base session_dip_trimmed))
    /\ Forall (fun r => 0 <= startIdx r
                        /\ endIdx r
                           <= Z.of_nat
                                (length
                                   (elecHeatDesBuff
                                      (session_base
                                         (Calib (session_level_dip 0 50)))))
                              - 2)
         (dataRuns (session_base session_dip_trimmed)).
Proof.
  apply (processData_run_list utils_sample (Calib (session_level_dip 0 50))
           session_dip_trimmed); vm_compute; reflexivity.
Defined.

(** ** Q0 derivation: edge behaviour *)

Lemma mapM_py_cons {A B} (f : A -> py B) (x : A) (l : list A) :
  mapM f (x :: l) = y ← f x; k ← mapM f l; Ok (y :: k).
Proof. reflexivity. Qed.

Lemma mapM_py_ext {A B} (f g : A -> py B) (l : list A) :
  (forall x, x ∈ l -> f x = g x) -> mapM f l = mapM g l.
Proof.
  induction l as [|x l IH]; intros Hfg; [done|].
  rewrite !mapM_py_cons, (Hfg x), IH; [done| |].
  - intros y Hy. apply Hfg. by right.
  - by left.
Qed.

Lemma mapM_py_Ok {A B} (f : A -> py B) (h : A -> B) (l : list A) :
  (forall x, x ∈ l -> f x = Ok (h x)) -> mapM f l = Ok (map h l).
Proof.
  induction l as [|x l IH]; intros Hfg; [done|].
  rewrite mapM_py_cons, (Hfg x), IH; [done| |].
  - intros y Hy. apply Hfg. by right.
  - by left.
Qed.

Lemma range_empty (a b : Z) : b <= a -> range a b = [].
Proof.
  intros H. unfold range. by replace (Z.to_nat (b - a)) with 0%nat by lia.
Qed.

Lemma elem_of_range (a b i : Z) : i ∈ range a b -> a <= i < b.
Proof.
  unfold range. rewrite list_elem_of_In, in_map_iff.
  intros (k & <- & Hk%in_seq). lia.
Qed.

(** X10. When the pressure reading of every sample of a run is missing
    or zero, the Q0 of the run does not depend on the exponential: the
    temperature correction is applied to no sample, and each sample
    contributes its uncorrected value. *)
Theorem q0_without_pressure (exp1 exp2 : Q -> Q) (q : Q0DataSession)
    (r : DataRun) :
  (forall idx p, startIdx r <= idx < endIdx r ->
                 get (dsPressBuff (base q)) idx = Ok p -> truthy p = false) ->
  q0 exp1 q r = q0 exp2 q r.
Proof.
  intros Hpress. unfold q0.
  destruct (elecHeatLoadDes (base q) r) as [d|]; [|done]. py_step.
  destruct (negb (Qeq_bool d 0)); [done|].
  rewrite (mapM_py_ext (sampleQ0 exp1 q r) (sampleQ0 exp2 q r)); [done|].
  intros idx Hidx%elem_of_range. unfold sampleQ0.
  destruct (gradForSample q idx) as [g|]; [|done]. py_step.
  destruct (rfHeatLoad q r) as [rf|]; [|done]. py_step.
  destruct (get (dsPressBuff (base q)) idx) as [p|] eqn:Hp; [|done]. py_step.
  unfold calcQ0. by rewrite (Hpress idx p Hidx Hp).
Qed.

Lemma q0_without_pressure_witness :
  q0 (fun _ => 1%Q) q0_session_rising (rf_run (1 # 1000))
  = q0 (fun _ => 0%Q) q0_session_rising (rf_run (1 # 1000)).
Proof.
  apply (q0_without_pressure (fun _ => 1%Q) (fun _ => 0%Q) q0_session_rising
           (rf_run (1 # 1000))).
  intros idx p Hidx Hp. cbn [rf_run startIdx endIdx] in Hidx.
  assert (idx = 0 \/ idx = 1 \/ idx = 2) as [->|[->| ->]] by lia;
    vm_compute in Hp; by injection Hp as <-.
Defined.

(** X11. A run that is not a heater run and whose start index is at or
    past its end index, as trimming can leave it, has no sample to
    evaluate: its Q0 is the mean of an empty list, [nan], and computing
    it reads neither the gradient nor the pressure nor the calibration
    and raises nothing. *)
Theorem q0_empty_run (exp : Q -> Q) (q : Q0DataSession) (r : DataRun)
    (d : Q) :
  elecHeatLoadDes (base q) r = Ok d -> (d == 0)%Q ->
  endIdx r <= startIdx r ->
  q0 exp q r
  = Ok (Some NaN,
        if count0 (gradBuff (base q)) =? 0 then []
        else [count0 (gradBuff (base q))]).
Proof.
  intros Hd Heq%Qeq_bool_true Hle. unfold q0. rewrite Hd. py_step.
  rewrite Heq. cbn [negb]. by rewrite range_empty by done.
Qed.

Lemma q0_empty_run_witness :
  q0 (fun _ => 1%Q) q0_session_rising (mkDataRun 3 3 (Some (1 # 1000)) 1)
  = Ok (Some NaN,
        if count0 (gradBuff (base q0_session_rising)) =? 0 then []
        else [count0 (gradBuff (base q0_session_rising))]).
Proof.
  apply (q0_empty_run (fun _ => 1%Q) q0_session_rising
           (mkDataRun 3 3 (Some (1 # 1000)) 1) (0 - 0)%Q).
  - reflexivity.
  - reflexivity.
  - cbn [startIdx endIdx]. lia.
Defined.

(** X12. In a session none of whose runs is a heater run, also one
    without runs, the average heat adjustment is 0, and the total heat
    load of a run is its fitted slope divided by the calibration slope,
    with nothing added. *)
Theorem aveHeatAdjustment_no_heater_run (q : Q0DataSession) :
  Forall (fun r => isNotHeaterRun (base q) r = Ok true) (dataRuns (base q)) ->
  aveHeatAdjustment q = Ok 0%Q
  /\ forall r x, isNotHeaterRun (base q) r = Ok true ->
                 slope_over_calibSlope q r = Ok x ->
                 exists t, totalHeatLoad q r = Ok t /\ (t == x)%Q.
Proof.
  intros Hruns.
  assert (aveHeatAdjustment q = Ok 0%Q) as Have.
  { unfold aveHeatAdjustment.
    rewrite (mapM_py_Ok (run_heatAdjustment q) (fun _ => None)).
    - py_step. clear Hruns.
      induction (dataRuns (base q)) as [|r rs IH]; [done|exact IH].
    - intros r Hr. apply (proj1 (Forall_forall _ _) Hruns) in Hr.
      unfold isNotHeaterRun in Hr. unfold run_heatAdjustment.
      destruct (elecHeatLoadDes (base q) r) as [d|]; [|done].
      py_step in Hr. py_step. by injection Hr as ->. }
  split; [done|].
  intros r x Hnh Hx. unfold totalHeatLoad. rewrite Hnh. py_step.
  rewrite Hx. py_step. rewrite Have. py_step.
  exists (x + 0)%Q. split; [done|]. apply Qplus_0_r.
Qed.

Lemma aveHeatAdjustment_no_heater_run_witness :
  aveHeatAdjustment q0_session_rising = Ok 0%Q
  /\ forall r x, isNotHeaterRun (base q0_session_rising) r = Ok true ->
                 slope_over_calibSlope q0_session_rising r = Ok x ->
                 exists t, totalHeatLoad q0_session_rising r = Ok t
                           /\ (t == x)%Q.
Proof.
  apply (aveHeatAdjustment_no_heater_run q0_session_rising).
  repeat constructor.
Defined.

(** ** Session cache: sessions are stored under their own hash *)

Section CacheKeys.

Context (hash_datetime : datetime -> Z) (hash_int : Z -> Z)
        (hash_float : Q -> Z) (hash_None : Z) (heaterActs : list Q).

Local Abbreviation key_of' :=
  (sessionHash hash_datetime hash_int hash_float hash_None).
Local Abbreviation hash_of :=
  (Session___hash__ hash_datetime hash_int hash_float hash_None).
Local Abbreviation keyed :=
  (cache_keyed hash_datetime hash_int hash_float hash_None).

Lemma genDataSession_keyed (o : nat) (c : Container) (rq : Request)
    (rh : Q) :
  let s := genDataSession o c (rq_startTime rq) (rq_endTime rq)
             (rq_timeInt rq) (rq_refValvePos rq) rh (rq_refGradVal rq)
             (rq_calibSession rq) in
  hash_of s = key_of' c rq
  /\ container (session_base s) = nums c
  /\ isQ0 s = is_cavity (kind c).
Proof.
  unfold genDataSession, sessionHash, Container_hash.
  by destruct (kind c).
Qed.

Lemma addDataSession_keyed (c c' : Container) (n n' : nat) (rq : Request)
    (s : Session) :
  addDataSession hash_datetime hash_int hash_float hash_None heaterActs
    c n rq = (s, c', n') ->
  keyed c ->
  keyed c' /\ kind c' = kind c /\ nums c' = nums c
  /\ dataSessions c' !! key_of' c rq = Some s
  /\ (forall k x, dataSessions c !! k = Some x ->
                  dataSessions c' !! k = Some x).
Proof.
  unfold addDataSession. cbv zeta. intros Hadd Hkeyed.
  destruct (dataSessions c !! key_of' c rq) as [cached|] eqn:Hlook.
  - injection Hadd as <- <- <-.
    split; [done|]. split; [done|]. split; [done|]. split; [done|]. auto.
  - injection Hadd as <- <- <-. cbn [kind nums dataSessions].
    split; [|split; [done|]; split; [done|]; split].
    + intros key k. cbn [kind nums dataSessions]. rewrite lookup_insert.
      destruct (decide (key_of' c rq = key)) as [<-|Hne].
      * intros [= <-]. apply genDataSession_keyed.
      * apply Hkeyed.
    + apply lookup_insert_eq.
    + intros k x Hk. rewrite lookup_insert_ne; [done|]. congruence.
Qed.

Lemma addDataSessions_keyed_loop (rqs : list Request) :
  forall (c c' : Container) (n n' : nat) (res : list Session),
    addDataSessions hash_datetime hash_int hash_float hash_None heaterActs
      c n rqs = (res, c', n') ->
    keyed c ->
    keyed c' /\ kind c' = kind c /\ nums c' = nums c
    /\ (forall k x, dataSessions c !! k = Some x ->
                    dataSessions c' !! k = Some x)
    /\ Forall (fun s => dataSessions c' !! hash_of s = Some s) res.
Proof.
  induction rqs as [|rq rest IH]; intros c c' n n' res Hadd Hkeyed.
  - injection Hadd as <- <- <-.
    split; [done|]. split; [done|]. split; [done|]. split; [auto|done].
  - cbn [addDataSessions] in Hadd.
    destruct (addDataSession _ _ _ _ _ c n rq) as [[s1 c1] n1] eqn:H1.
    destruct (addDataSessions _ _ _ _ _ c1 n1 rest) as [[ss c2] n2] eqn:H2.
    injection Hadd as <- <- <-.
    apply addDataSession_keyed in H1
      as (Hkeyed1 & Hk1 & Hn1 & Hin1 & Hmono1); [|done].
    apply IH in H2 as (Hkeyed2 & Hk2 & Hn2 & Hmono2 & Hall); [|done].
    split; [done|]. split; [congruence|]. split; [congruence|].
    split; [auto|]. constructor; [|done].
    destruct (Hkeyed1 _ _ Hin1) as [-> _]. auto.
Qed.

End CacheKeys.

(** X13. A container keeps each session under the session's own hash:
    if every session of the cache is stored under the value its
    [__hash__] returns, carries the container's two numbers and is of
    the class the container constructs, then so is every session after
    any sequence of requests, and each session handed out is found in
    the cache under its own hash. *)
Theorem addDataSessions_keyed (hash_datetime : datetime -> Z)
    (hash_int : Z -> Z) (hash_float : Q -> Z) (hash_None : Z)
    (heaterActs : list Q) (rqs : list Request) (c c' : Container)
    (n n' : nat) (res : list Session) :
  addDataSessions hash_datetime hash_int hash_float hash_None heaterActs
    c n rqs = (res, c', n') ->
  cache_keyed hash_datetime hash_int hash_float hash_None c ->
  cache_keyed hash_datetime hash_int hash_float hash_None c'
  /\ Forall (fun s =>
               dataSessions c'
               !! Session___hash__ hash_datetime hash_int hash_float
                    hash_None s
               = Some s) res.
Proof.
  intros Hadd Hkeyed.
  apply addDataSessions_keyed_loop in Hadd as (H1 & _ & _ & _ & H2); done.
Qed.

Lemma addDataSessions_keyed_witness :
  cache_keyed (fun t => t) (fun n => n) (fun _ => 0) 0 cryomodule_12_after
  /\ Forall (fun s =>
               dataSessions cryomodule_12_after
               !! Session___hash__ (fun t => t) (fun n => n) (fun _ => 0) 0 s
               = Some s) [session_forward; session_forward].
Proof.
  apply (addDataSessions_keyed (fun t => t) (fun n => n) (fun _ => 0) 0 []
           [request_forward; request_backward] cryomodule_12
           cryomodule_12_after 0%nat 1%nat
           [session_forward; session_forward]).
  - reflexivity.
  - intros key k Hk. unfold cryomodule_12, new_Container in Hk.
    cbn [dataSessions] in Hk. by rewrite lookup_empty in Hk.
Defined.

(** ** The data file: what parsing does to the buffers *)

Lemma dict_set_fresh {V} (key : string) (v : V) (d : list (string * V)) :
  key ∉ d.*1 -> Csv.dict_set key v d = d ++ [(key, v)].
Proof.
  induction d as [|[k w] rest IH]; intros Hfresh; [done|].
  cbn [Csv.dict_set]. cbn [fmap list_fmap fst] in Hfresh.
  apply not_elem_of_cons in Hfresh as [Hne Hrest].
  destruct (decide (k = key)) as [->|_]; [done|].
  cbn [app]. by rewrite IH.
Qed.

Lemma index_Some (header : list string) (column : string) (i : nat) :
  Csv.index header column = Some i -> header !! i = Some column.
Proof.
  revert i. induction header as [|h rest IH]; intros i; [done|].
  cbn [Csv.index]. destruct (decide (h = column)) as [->|_].
  - by intros [= <-].
  - destruct (Csv.index rest column) as [j|]; [|done].
    intros [= <-]. by apply IH.
Qed.

Lemma index_None (header : list string) (column : string) :
  Csv.index header column = None <-> column ∉ header.
Proof.
  induction header as [|h rest IH]; cbn [Csv.index].
  - split; [intros _; apply not_elem_of_nil|done].
  - rewrite not_elem_of_cons. destruct (decide (h = column)) as [->|Hne].
    + split; [done|]. by intros [? _].
    + destruct (Csv.index rest column) as [j|].
      * split; [done|]. intros [_ H]. by apply IH in H.
      * split; [|done]. intros _. split; [done|]. by apply IH.
Qed.

Section ParseFacts.

Context (float : string -> option Q)
        (strptime : string -> string -> option datetime).
Context (valvePV dsLevelPV gradPV dsPressurePV : string).

Local Abbreviation parse :=
  (Csv.parseDataFromCSV float strptime valvePV dsLevelPV gradPV dsPressurePV).
Local Abbreviation names :=
  (Csv.column_names valvePV dsLevelPV gradPV dsPressurePV).
Local Abbreviation col_of :=
  (Csv.column_of valvePV dsLevelPV gradPV dsPressurePV).
Local Abbreviation row_cells := (Csv.row_cells float).
Local Abbreviation linked := Csv.linked.
Local Abbreviation items := (Csv.items valvePV dsLevelPV gradPV dsPressurePV).
Local Abbreviation frame := Csv.only_buffers_differ.

Lemma frame_refl s : frame s s.
Proof. by destruct s. Qed.

Lemma frame_trans s1 s2 s3 : frame s1 s2 -> frame s2 s3 -> frame s1 s3.
Proof. unfold Csv.only_buffers_differ. intros -> ->. by destruct s1. Qed.

Lemma frame_append b c s : frame s (Csv.append b c s).
Proof. by destruct b, s. Qed.

Lemma frame_append_time t s : frame s (Csv.append_time t s).
Proof. by destruct s. Qed.

Lemma buff_append b b' c s :
  Csv.buff b (Csv.append b' c s)
  = Csv.buff b s ++ (if decide (b' = b) then [c] else []).
Proof.
  destruct b, b'; cbn; by rewrite ?app_nil_r.
Qed.

Lemma fill_row_spec (row : list string) entries :
  forall s s',
    Csv.fill_row float row entries s = Csv.Done s' ->
    frame s s' /\ unixTimeBuff s' = unixTimeBuff s
    /\ Forall (fun e => is_Some (row !! e.2.1)) entries
    /\ forall b, Csv.buff b s' = Csv.buff b s ++ row_cells row entries b.
Proof.
  induction entries as [|[col [idx b']] rest IH]; intros s s' Hfill.
  - injection Hfill as <-. split; [apply frame_refl|]. split; [done|].
    split; [done|]. intros b. by rewrite app_nil_r.
  - cbn [Csv.fill_row] in Hfill.
    destruct (row !! idx) as [text|] eqn:Hrow; [|done].
    apply IH in Hfill as (Hframe & Htime & Hsome & Hbuff).
    split; [eapply frame_trans; [apply frame_append|done]|].
    split; [rewrite Htime; by destruct b'|].
    split; [constructor; [by exists text|done]|].
    intros b. rewrite Hbuff, buff_append. cbn [Csv.row_cells]. rewrite Hrow.
    by rewrite <- app_assoc.
Qed.

Lemma read_rows_spec (timeIdx : nat) (fmt : string) entries
    (rows : list (list string)) :
  forall s tb s' tb',
    Csv.read_rows float strptime rows timeIdx fmt entries s tb
    = Csv.Done (s', tb') ->
    frame s s'
    /\ (exists dts, tb' = tb ++ dts
                    /\ unixTimeBuff s' = unixTimeBuff s ++ map inject_Z dts
                    /\ Forall2 (fun row dt =>
                                  exists text, row !! timeIdx = Some text
                                               /\ strptime text fmt = Some dt)
                         rows dts)
    /\ Forall (fun row => Forall (fun e => is_Some (row !! e.2.1)) entries)
         rows
    /\ forall b, Csv.buff b s'
                 = Csv.buff b s
                   ++ flat_map (fun row => row_cells row entries b) rows.
Proof.
  induction rows as [|row rest IH]; intros s tb s' tb' Hread.
  - injection Hread as <- <-. split; [apply frame_refl|]. split.
    + exists []. by rewrite !app_nil_r.
    + split; [done|]. intros b. by rewrite app_nil_r.
  - cbn [Csv.read_rows] in Hread.
    destruct (row !! timeIdx) as [text|] eqn:Hrow; [|done].
    destruct (strptime text fmt) as [dt|] eqn:Hdt; [|done].
    destruct (Csv.fill_row float row entries _) as [s1|] eqn:Hfill; [|done].
    apply fill_row_spec in Hfill as (Hframe1 & Htime1 & Hsome1 & Hbuff1).
    apply IH in Hread as (Hframe & (dts & -> & Htime & Hall) & Hsome & Hbuff).
    split.
    { eapply frame_trans; [|done].
      eapply frame_trans; [apply frame_append_time|done]. }
    split.
    { exists (dt :: dts). split; [by rewrite <- app_assoc|].
      split.
      - rewrite Htime, Htime1. destruct s. cbn. by rewrite <- app_assoc.
      - constructor; [by exists text|done]. }
    split; [by constructor|].
    intros b. rewrite Hbuff, Hbuff1. cbn [flat_map].
    assert (Csv.buff b (Csv.append_time (inject_Z dt) s) = Csv.buff b s)
      as -> by (by destruct b, s).
    by rewrite <- app_assoc.
Qed.

Lemma linkBuffToColumn_fresh (col : string) (b : Csv.buffer)
    (header : list string) acc :
  col ∉ acc.*1 ->
  Csv.linkBuffToColumn col b header acc = acc ++ linked header [(col, b)].
Proof.
  intros Hfresh. unfold Csv.linkBuffToColumn. cbn [Csv.linked].
  destruct (Csv.index header col) as [idx|].
  - by apply dict_set_fresh.
  - by rewrite app_nil_r.
Qed.

Lemma linked_keys (header : list string) its :
  (linked header its).*1 ⊆ its.*1.
Proof.
  induction its as [|[col b] rest IH]; [done|]. cbn [Csv.linked].
  destruct (Csv.index header col) as [idx|]; cbn [fmap list_fmap fst].
  - intros x [->|Hx]%elem_of_cons; [by left|right; by apply IH].
  - intros x Hx. right. by apply IH.
Qed.

Lemma link_all_spec (header : list string) its :
  forall acc,
    NoDup (acc.*1 ++ its.*1) ->
    Csv.link_all its header acc = acc ++ linked header its.
Proof.
  induction its as [|[col b] rest IH]; intros acc Hnodup.
  - by rewrite app_nil_r.
  - cbn [Csv.link_all]. cbn [fmap list_fmap fst] in Hnodup.
    apply NoDup_app in Hnodup as (Hacc & Hdisj & Hrest).
    apply NoDup_cons in Hrest as [Hcol Hrest].
    assert (col ∉ acc.*1) as Hfresh.
    { intros Hin. apply (Hdisj col Hin). by left. }
    rewrite linkBuffToColumn_fresh by done.
    rewrite IH.
    + rewrite <- app_assoc. f_equal. cbn [Csv.linked].
      by destruct (Csv.index header col).
    + rewrite fmap_app. apply NoDup_app. split; [|split; [|done]].
      * apply NoDup_app. split; [done|]. split.
        -- intros x Hx Hx'%linked_keys.
           cbn [fmap list_fmap fst] in Hx'.
           apply list_elem_of_singleton in Hx' as ->. done.
        -- cbn [Csv.linked]. destruct (Csv.index header col); cbn.
           ++ apply NoDup_singleton.
           ++ apply NoDup_nil_2.
      * intros x [Hx|Hx%linked_keys]%elem_of_app Hx'.
        -- apply (Hdisj x Hx). by right.
        -- cbn [fmap list_fmap fst] in Hx.
           apply list_elem_of_singleton in Hx as ->. done.
Qed.

Lemma link_all_app (header : list string) xs ys acc :
  Csv.link_all (xs ++ ys) header acc
  = Csv.link_all ys header (Csv.link_all xs header acc).
Proof.
  revert acc. induction xs as [|[col b] rest IH]; intros acc; [done|].
  cbn [app Csv.link_all]. apply IH.
Qed.

Lemma columnDict_linked (k : Session) (header : list string) :
  NoDup names ->
  Csv.columnDict valvePV dsLevelPV gradPV dsPressurePV k header
  = linked header (items k).
Proof.
  intros Hnodup. unfold Csv.column_names in Hnodup.
  assert (NoDup (items k).*1) as Hitems.
  { unfold Csv.items. destruct k; cbn [isQ0 app fmap list_fmap fst].
    - apply (sublist_NoDup _ _ Hnodup).
      do 2 apply sublist_skip. do 2 apply sublist_cons. done.
    - done. }
  assert (Csv.pvBuffMap valvePV dsLevelPV gradPV dsPressurePV k
          ++ [("Electric Heat Load Setpoint"%string, Csv.elecHeatDes);
              ("Electric Heat Load Readback"%string, Csv.elecHeatAct)]
          = items k) as Hmap.
  { repeat match goal with
           | H : NoDup (_ :: _) |- _ =>
               let Hx := fresh in
               apply NoDup_cons in H as [Hx H];
               rewrite ?not_elem_of_cons in Hx
           end.
    destruct_and!.
    unfold Csv.items, Csv.pvBuffMap.
    destruct k; cbn [isQ0 app];
      repeat (cbn [Csv.dict_set]; case_decide; [congruence|]); done. }
  unfold Csv.columnDict.
  change (Csv.linkBuffToColumn "Electric Heat Load Readback" Csv.elecHeatAct
            header
            (Csv.linkBuffToColumn "Electric Heat Load Setpoint"
               Csv.elecHeatDes header
               (Csv.link_all
                  (Csv.pvBuffMap valvePV dsLevelPV gradPV dsPressurePV k)
                  header [])))
    with (Csv.link_all
            [("Electric Heat Load Setpoint"%string, Csv.elecHeatDes);
             ("Electric Heat Load Readback"%string, Csv.elecHeatAct)]
            header
            (Csv.link_all
               (Csv.pvBuffMap valvePV dsLevelPV gradPV dsPressurePV k)
               header [])).
  rewrite <- link_all_app, Hmap. by rewrite link_all_spec.
Qed.


Lemma row_cells_linked_notin (row : list string) (header : list string) its
    (b : Csv.buffer) :
  b ∉ its.*2 -> row_cells row (linked header its) b = [].
Proof.
  induction its as [|[col b'] rest IH]; intros Hb; [done|].
  cbn [fmap list_fmap snd] in Hb. apply not_elem_of_cons in Hb as [Hne Hb].
  cbn [Csv.linked]. destruct (Csv.index header col) as [idx|]; [|by apply IH].
  cbn [Csv.row_cells]. rewrite decide_False by done. by apply IH.
Qed.

Lemma row_cells_linked_in (row : list string) (header : list string) its
    (col : string) (b : Csv.buffer) :
  NoDup its.*2 -> (col, b) ∈ its ->
  row_cells row (linked header its) b
  = match Csv.index header col with
    | Some idx => match row !! idx with
                  | Some text => [float text]
                  | None => []
                  end
    | None => []
    end.
Proof.
  induction its as [|[col' b'] rest IH]; intros Hnodup Hin.
  - by apply elem_of_nil in Hin.
  - cbn [fmap list_fmap snd] in Hnodup.
    apply NoDup_cons in Hnodup as [Hb' Hnodup].
    apply elem_of_cons in Hin as [[= <- <-]|Hin].
    + cbn [Csv.linked]. destruct (Csv.index header col) as [idx|].
      * cbn [Csv.row_cells]. rewrite decide_True by done.
        rewrite row_cells_linked_notin by done. by rewrite app_nil_r.
      * by apply row_cells_linked_notin.
    + assert (b' <> b) as Hne.
      { intros ->. apply Hb'.
        apply (list_elem_of_fmap_2 snd) in Hin. done. }
      cbn [Csv.linked]. destruct (Csv.index header col') as [idx'|].
      * cbn [Csv.row_cells]. rewrite decide_False by done. by apply IH.
      * by apply IH.
Qed.

Lemma linked_elem (header : list string) its (col : string) (idx : nat)
    (b : Csv.buffer) :
  (col, b) ∈ its -> Csv.index header col = Some idx ->
  (col, (idx, b)) ∈ linked header its.
Proof.
  induction its as [|[col' b'] rest IH]; intros Hin Hidx.
  - by apply elem_of_nil in Hin.
  - apply elem_of_cons in Hin as [[= <- <-]|Hin]; cbn [Csv.linked].
    + rewrite Hidx. by left.
    + destruct (Csv.index header col'); [right|]; by apply IH.
Qed.

Lemma items_buffers (k : Session) : NoDup (items k).*2.
Proof.
  unfold Csv.items. destruct k; cbn [isQ0 app fmap list_fmap snd];
    repeat (apply NoDup_cons; split;
            [rewrite ?not_elem_of_cons;
             repeat split; (done || apply not_elem_of_nil)|]);
    apply NoDup_nil_2.
Qed.

Lemma items_column (k : Session) (b : Csv.buffer) :
  match col_of k b with
  | Some col => (col, b) ∈ items k
  | None => b ∉ (items k).*2
  end.
Proof.
  unfold Csv.items, Csv.column_of.
  destruct k, b; cbn [isQ0 app fmap list_fmap snd];
    first [ by repeat constructor
          | rewrite ?not_elem_of_cons;
            repeat split; (done || apply not_elem_of_nil) ].
Qed.

(** what the rows add to buffer b *)
Lemma parse_cells (k : Session) (header : list string)
    (rows : list (list string)) (b : Csv.buffer) :
  Forall (fun row => Forall (fun e => is_Some (row !! e.2.1))
                       (linked header (items k))) rows ->
  match col_of k b with
  | Some col =>
      match Csv.index header col with
      | Some idx =>
          Forall2 (fun row c => exists text, row !! idx = Some text
                                             /\ c = float text)
            rows
            (flat_map (fun row => row_cells row (linked header (items k)) b)
               rows)
      | None =>
          flat_map (fun row => row_cells row (linked header (items k)) b) rows
          = []
      end
  | None =>
      flat_map (fun row => row_cells row (linked header (items k)) b) rows
      = []
  end.
Proof.
  intros Hsome. pose proof (items_column k b) as Hcol.
  destruct (col_of k b) as [col|].
  - destruct (Csv.index header col) as [idx|] eqn:Hidx.
    + induction Hsome as [|row rest Hrow _ IH]; [constructor|].
      cbn [flat_map].
      rewrite (row_cells_linked_in row header (items k) col b)
        by (apply items_buffers || done).
      rewrite Hidx.
      pose proof (linked_elem header (items k) col idx b Hcol Hidx) as Hel.
      apply (proj1 (Forall_forall _ _) Hrow) in Hel as [text Htext].
      cbn [fst snd] in Htext. rewrite Htext. cbn [app].
      constructor; [by exists text|done].
    + induction rows as [|row rest IH]; [done|]. cbn [flat_map].
      rewrite (row_cells_linked_in row header (items k) col b)
        by (apply items_buffers || done).
      rewrite Hidx. apply IH. by inversion Hsome.
  - induction rows as [|row rest IH]; [done|]. cbn [flat_map].
    rewrite row_cells_linked_notin by done. apply IH. by inversion Hsome.
Qed.

Lemma parse_spec (header : list string) (rows : list (list string))
    (k k' : Session) (tb tb' : list datetime) :
  NoDup names ->
  parse (header :: rows) k tb = Csv.Done (k', tb') ->
  k' = with_base k (session_base k')
  /\ frame (session_base k) (session_base k')
  /\ (exists dts, tb' = tb ++ dts /\ length dts = length rows
                  /\ unixTimeBuff (session_base k')
                     = unixTimeBuff (session_base k) ++ map inject_Z dts)
  /\ forall b,
       exists cells,
         Csv.buff b (session_base k') = Csv.buff b (session_base k) ++ cells
         /\ match col_of k b with
            | Some col =>
                match Csv.index header col with
                | Some idx =>
                    Forall2 (fun row c => exists text,
                                 row !! idx = Some text /\ c = float text)
                      rows cells
                | None => cells = []
                end
            | None => cells = []
            end.
Proof.
  intros Hnodup Hparse. unfold Csv.parseDataFromCSV in Hparse.
  cbv zeta in Hparse. rewrite columnDict_linked in Hparse by done.
  destruct (Csv.timeColumn header) as [[timeIdx fmt]|]; [|done].
  destruct (Csv.read_rows _ _ _ _ _ _ _ _) as [[s1 tb1]|] eqn:Hread; [|done].
  injection Hparse as <- <-.
  apply read_rows_spec in Hread
    as (Hframe & (dts & -> & Htime & Hall) & Hsome & Hbuff).
  rewrite session_base_with_base.
  split; [by destruct k|]. split; [done|]. split.
  - exists dts. split; [done|]. split; [|done].
    symmetry. by eapply Forall2_length.
  - intros b. eexists. split; [apply Hbuff|]. by apply parse_cells.
Qed.

End ParseFacts.

(** X14. What a successful [parseDataFromCSV] does to a session, the
    six column names being distinct: nothing but the buffers changes;
    the time buffers grow by one entry per data row, the Unix time being
    that of the parsed timestamp; a buffer whose column is in the header
    grows by one cell per row, the cell of row [i] being the float read
    from that column of the row, or [None] when the text is not a
    float; a buffer whose column is missing from the header, or that the
    session does not link, is left as it was. *)
Theorem parseDataFromCSV_cells (float : string -> option Q)
    (strptime : string -> string -> option datetime)
    (valvePV dsLevelPV gradPV dsPressurePV : string)
    (header : list string) (rows : list (list string))
    (k k' : Session) (tb tb' : list datetime) :
  NoDup (Csv.column_names valvePV dsLevelPV gradPV dsPressurePV) ->
  Csv.parseDataFromCSV float strptime valvePV dsLevelPV gradPV dsPressurePV
    (header :: rows) k tb = Csv.Done (k', tb') ->
  k' = with_base k (session_base k')
  /\ Csv.only_buffers_differ (session_base k) (session_base k')
  /\ (exists dts,
         tb' = tb ++ dts /\ length dts = length rows
         /\ unixTimeBuff (session_base k')
            = unixTimeBuff (session_base k) ++ map inject_Z dts)
  /\ forall b,
       match Csv.column_of valvePV dsLevelPV gradPV dsPressurePV k b with
       | Some col =>
           match Csv.index header col with
           | Some idx =>
               length (Csv.buff b (session_base k'))
               = (length (Csv.buff b (session_base k)) + length rows)%nat
               /\ take (length (Csv.buff b (session_base k)))
                    (Csv.buff b (session_base k'))
                  = Csv.buff b (session_base k)
               /\ forall (i : nat) row,
                    rows !! i = Some row ->
                    exists text,
                      row !! idx = Some text
                      /\ Csv.buff b (session_base k')
                         !! (length (Csv.buff b (session_base k)) + i)%nat
                         = Some (float text)
           | None => Csv.buff b (session_base k') = Csv.buff b (session_base k)
           end
       | None => Csv.buff b (session_base k') = Csv.buff b (session_base k)
       end.
Proof.
  intros Hnodup Hparse.
  apply parse_spec in Hparse as (Hk' & Hframe & Htimes & Hbuff); [|done].
  split; [done|]. split; [done|]. split; [done|].
  intros b. destruct (Hbuff b) as (cells & Hcells & Hcol).
  destruct (Csv.column_of _ _ _ _ k b) as [col|];
    [destruct (Csv.index header col) as [idx|]|].
  - rewrite Hcells. split; [|split].
    + rewrite length_app. f_equal. symmetry. by eapply Forall2_length.
    + by rewrite take_app_length.
    + intros i row Hrow.
      destruct (Forall2_lookup_l _ _ _ _ _ Hcol Hrow)
        as (c & Hc & text & Htext & ->).
      exists text. split; [done|].
      rewrite lookup_app_r by apply Nat.le_add_r.
      by rewrite Nat.add_comm, Nat.add_sub.
  - subst cells. by rewrite app_nil_r in Hcells.
  - subst cells. by rewrite app_nil_r in Hcells.
Qed.

Lemma parse_lengths (float : string -> option Q)
    (strptime : string -> string -> option datetime)
    (valvePV dsLevelPV gradPV dsPressurePV : string)
    (header : list string) (rows : list (list string))
    (k k' : Session) (tb tb' : list datetime) :
  NoDup (Csv.column_names valvePV dsLevelPV gradPV dsPressurePV) ->
  Csv.parseDataFromCSV float strptime valvePV dsLevelPV gradPV dsPressurePV
    (header :: rows) k tb = Csv.Done (k', tb') ->
  isQ0 k' = isQ0 k
  /\ length (unixTimeBuff (session_base k'))
     = (length (unixTimeBuff (session_base k)) + length rows)%nat
  /\ forall b,
       length (Csv.buff b (session_base k'))
       = (length (Csv.buff b (session_base k))
          + match Csv.column_of valvePV dsLevelPV gradPV dsPressurePV k b with
            | Some col => if decide (col ∈ header) then length rows else 0
            | None => 0
            end)%nat.
Proof.
  intros Hnodup Hparse.
  apply parse_spec in Hparse as (Hk' & _ & (dts & _ & Hlen & Htime) & Hbuff);
    [|done].
  split; [rewrite Hk'; by destruct k|]. split.
  - rewrite Htime, length_app, length_map. f_equal. exact Hlen.
  - intros b. destruct (Hbuff b) as (cells & -> & Hcol).
    rewrite length_app. f_equal.
    destruct (Csv.column_of _ _ _ _ k b) as [col|]; [|by subst].
    destruct (Csv.index header col) as [idx|] eqn:Hidx.
    + rewrite decide_True.
      * symmetry. by eapply Forall2_length.
      * apply index_Some in Hidx. by eapply list_elem_of_lookup_2.
    + rewrite decide_False; [by subst|]. by apply index_None.
Qed.

(** X15. Parsing keeps the buffers of a session aligned exactly when
    the header has every column the session links: if it has, a session
    with aligned buffers, for one a new session, has aligned buffers
    after a successful [parseDataFromCSV]; if a column is missing and
    the file has a data row, the buffers are not aligned afterwards. *)
Theorem parseDataFromCSV_aligned (float : string -> option Q)
    (strptime : string -> string -> option datetime)
    (valvePV dsLevelPV gradPV dsPressurePV : string)
    (header : list string) (rows : list (list string))
    (k k' : Session) (tb tb' : list datetime) :
  NoDup (Csv.column_names valvePV dsLevelPV gradPV dsPressurePV) ->
  Csv.parseDataFromCSV float strptime valvePV dsLevelPV gradPV dsPressurePV
    (header :: rows) k tb = Csv.Done (k', tb') ->
  aligned k ->
  ((forall b col,
       Csv.column_of valvePV dsLevelPV gradPV dsPressurePV k b = Some col ->
       col ∈ header) ->
   aligned k')
  /\ (rows <> [] ->
      (exists b col,
          Csv.column_of valvePV dsLevelPV gradPV dsPressurePV k b = Some col
          /\ col ∉ header) ->
      ~ aligned k').
Proof.
  intros Hnodup Hparse Hal.
  apply parse_lengths in Hparse as (Hq & Htime & Hbuff); [|done].
  pose proof (Hbuff Csv.valvePos) as Hv. pose proof (Hbuff Csv.dsLevel) as Hl.
  pose proof (Hbuff Csv.grad) as Hg. pose proof (Hbuff Csv.dsPress) as Hp.
  pose proof (Hbuff Csv.elecHeatDes) as Hd.
  pose proof (Hbuff Csv.elecHeatAct) as Ha.
  cbn [Csv.buff Csv.column_of] in Hv, Hl, Hg, Hp, Hd, Ha.
  unfold aligned in *. cbv zeta in *. rewrite Hq.
  destruct Hal as (At & Av & Al & Aa & Ag).
  assert (0 < length rows <-> rows <> [])%nat as Hrows.
  { destruct rows; cbn [length]; split; (done || lia). }
  split.
  - intros Hall.
    rewrite decide_True in Hv by (by apply (Hall Csv.valvePos)).
    rewrite decide_True in Hl by (by apply (Hall Csv.dsLevel)).
    rewrite decide_True in Hd by (by apply (Hall Csv.elecHeatDes)).
    rewrite decide_True in Ha by (by apply (Hall Csv.elecHeatAct)).
    split; [lia|]. split; [lia|]. split; [lia|]. split; [lia|].
    intros HQ. destruct (Ag HQ) as [Ag1 Ag2]. rewrite HQ in Hg, Hp.
    rewrite decide_True in Hg by (apply (Hall Csv.grad); cbn; by rewrite HQ).
    rewrite decide_True in Hp
      by (apply (Hall Csv.dsPress); cbn; by rewrite HQ).
    lia.
  - intros Hne%Hrows (b & col & Hcol & Hmiss) (Bt & Bv & Bl & Ba & Bg).
    destruct b; cbn [Csv.column_of] in Hcol.
    + injection Hcol as <-. rewrite decide_False in Hv by done.
      repeat case_decide; lia.
    + injection Hcol as <-. rewrite decide_False in Hl by done.
      repeat case_decide; lia.
    + destruct (isQ0 k) eqn:HQ; [|done]. injection Hcol as <-.
      rewrite decide_False in Hg by done.
      destruct (Ag eq_refl) as [Ag1 Ag2]. destruct (Bg eq_refl) as [Bg1 Bg2].
      repeat case_decide; lia.
    + destruct (isQ0 k) eqn:HQ; [|done]. injection Hcol as <-.
      rewrite decide_False in Hp by done.
      destruct (Ag eq_refl) as [Ag1 Ag2]. destruct (Bg eq_refl) as [Bg1 Bg2].
      repeat case_decide; lia.
    + injection Hcol as <-. rewrite decide_False in Hd by done.
      repeat case_decide; lia.
    + injection Hcol as <-. rewrite decide_False in Ha by done.
      repeat case_decide; lia.
Qed.

Lemma parseDataFromCSV_cells_witness :
  Calib session_parsed
  = with_base (Calib session_new) (session_base (Calib session_parsed))
  /\ Csv.only_buffers_differ (session_base (Calib session_new))
       (session_base (Calib session_parsed))
  /\ (exists dts,
         [1551093900] = [] ++ dts /\ length dts = length rows_sample
         /\ unixTimeBuff (session_base (Calib session_parsed))
            = unixTimeBuff (session_base (Calib session_new))
              ++ map inject_Z dts)
  /\ forall b,
       match Csv.column_of "valve" "level" "grad" "press"
               (Calib session_new) b with
       | Some col =>
           match Csv.index header_sample col with
           | Some idx =>
               length (Csv.buff b (session_base (Calib session_parsed)))
               = (length (Csv.buff b (session_base (Calib session_new)))
                  + length rows_sample)%nat
               /\ take (length (Csv.buff b (session_base (Calib session_new))))
                    (Csv.buff b (session_base (Calib session_parsed)))
                  = Csv.buff b (session_base (Calib session_new))
               /\ forall (i : nat) row,
                    rows_sample !! i = Some row ->
                    exists text,
                      row !! idx = Some text
                      /\ Csv.buff b (session_base (Calib session_parsed))
                         !! (length
                               (Csv.buff b (session_base (Calib session_new)))
                             + i)%nat
                         = Some (float_sample text)
           | None =>
               Csv.buff b (session_base (Calib session_parsed))
               = Csv.buff b (session_base (Calib session_new))
           end
       | None =>
           Csv.buff b (session_base (Calib session_parsed))
           = Csv.buff b (session_base (Calib session_new))
       end.
Proof.
  apply (parseDataFromCSV_cells float_sample strptime_sample
           "valve" "level" "grad" "press" header_sample rows_sample
           (Calib session_new) (Calib session_parsed) [] [1551093900]).
  - apply (bool_decide_unpack _). vm_compute. exact I.
  - vm_compute. reflexivity.
Defined.

Lemma parseDataFromCSV_aligned_witness :
  ((forall b col,
       Csv.column_of "valve" "level" "grad" "press" (Calib session_new) b
       = Some col ->
       col ∈ header_sample) ->
   aligned (Calib session_parsed))
  /\ (rows_sample <> [] ->
      (exists b col,
          Csv.column_of "valve" "level" "grad" "press" (Calib session_new) b
          = Some col
          /\ col ∉ header_sample) ->
      ~ aligned (Calib session_parsed)).
Proof.
  apply (parseDataFromCSV_aligned float_sample strptime_sample
           "valve" "level" "grad" "press" header_sample rows_sample
           (Calib session_new) (Calib session_parsed) [] [1551093900]).
  - apply (bool_decide_unpack _). vm_compute. exact I.
  - vm_compute. reflexivity.
  - repeat split; done.
Defined.

(** ** The data file: what [generateCSV] writes *)

Lemma populateHeaterCols_spec (header : list string) (pvList : list string) :
  forall buff cols,
    Csv.populateHeaterCols header pvList buff = Csv.Done cols ->
    exists idxs,
      cols = buff ++ idxs
      /\ Forall2 (fun pv i => Csv.index header pv = Some i) pvList idxs.
Proof.
  induction pvList as [|pv rest IH]; intros buff cols Hpop.
  - injection Hpop as <-. exists []. by rewrite app_nil_r.
  - cbn [Csv.populateHeaterCols] in Hpop.
    destruct (Csv.index header pv) as [i|] eqn:Hi; [|done].
    apply IH in Hpop as (idxs & -> & Hall).
    exists (i :: idxs). split; [by rewrite <- app_assoc|]. by constructor.
Qed.

Lemma writeRows_spec (float : string -> option Q) (str : Q -> string)
    (des act del : list nat) (rows : list (list string)) :
  forall rows',
    Csv.writeRows float str des act del rows = Csv.Done rows' ->
    Forall2 (fun row row' => Csv.writeRow float str des act del row
                             = Csv.Done row') rows rows'.
Proof.
  induction rows as [|row rest IH]; intros rows' Hw.
  - injection Hw as <-. constructor.
  - cbn [Csv.writeRows] in Hw.
    destruct (Csv.writeRow float str des act del row) as [row'|] eqn:Hrow;
      [|done].
    destruct (Csv.writeRows float str des act del rest) as [rest'|]; [|done].
    injection Hw as <-. constructor; [done|]. by apply IH.
Qed.

Lemma generateCSV_spec (float : string -> option Q)
    (heaterDesPVs heaterActPVs : list string) (str : Q -> string)
    (header : list string) (rows out : list (list string)) :
  Csv.generateCSV float heaterDesPVs heaterActPVs str (header :: rows)
  = Csv.Done out ->
  exists header' rows' cols,
    out = (header' ++ ["Electric Heat Load Setpoint"%string;
                       "Electric Heat Load Readback"%string]) :: rows'
    /\ Forall2 (fun pv i => Csv.index header pv = Some i)
         (heaterDesPVs ++ heaterActPVs) cols
    /\ Csv.del_cols header (Csv.sorted_reverse cols) = Csv.Done header'
    /\ Forall2 (fun row row' =>
                  exists total kept,
                    Csv.sumCols float row cols Csv.Zero = Csv.Done total
                    /\ Csv.del_cols row (Csv.sorted_reverse cols)
                       = Csv.Done kept
                    /\ row' = kept ++ [Csv.str_heatLoad str total;
                                       "0"%string])
         rows rows'.
Proof.
  intros Hgen. unfold Csv.generateCSV in Hgen.
  destruct (Csv.populateHeaterCols header heaterDesPVs []) as [des|] eqn:Hdes;
    [|done].
  destruct (Csv.populateHeaterCols header heaterActPVs des) as [cols|]
    eqn:Hact; [|done].
  cbv zeta in Hgen. rewrite app_nil_r in Hgen.
  destruct (Csv.del_cols header (Csv.sorted_reverse cols)) as [header'|]
    eqn:Hdel; [|done].
  destruct (Csv.writeRows _ _ _ _ _ rows) as [rows'|] eqn:Hrows; [|done].
  injection Hgen as <-. exists header', rows', cols.
  split; [done|].
  apply populateHeaterCols_spec in Hdes as (idxs1 & -> & Hall1).
  apply populateHeaterCols_spec in Hact as (idxs2 & -> & Hall2).
  split; [by apply Forall2_app|]. split; [done|].
  apply writeRows_spec in Hrows.
  eapply Forall2_impl; [exact Hrows|].
  intros row row' Hrow. unfold Csv.writeRow in Hrow.
  destruct (Csv.sumCols float row _ Csv.Zero) as [total|]; [|done].
  cbn [Csv.sumCols] in Hrow.
  destruct (Csv.del_cols row _) as [kept|]; [|done].
  injection Hrow as <-. by exists total, kept.
Qed.

Lemma del_cols_length {A} (cols : list nat) :
  forall l l' : list A,
    Csv.del_cols l cols = Csv.Done l' ->
    (length l' + length cols = length l)%nat.
Proof.
  induction cols as [|c rest IH]; intros l l' Hdel.
  - injection Hdel as <-. cbn [length]. lia.
  - cbn [Csv.del_cols] in Hdel. unfold Csv.del in Hdel.
    destruct (decide (c < length l)%nat) as [Hc|]; [|done].
    apply IH in Hdel. rewrite length_delete in Hdel by by apply lookup_lt_is_Some_2.
    cbn [length]. lia.
Qed.

Lemma del_cols_elem {A} (cols : list nat) :
  forall (l l' : list A) (x : A),
    Csv.del_cols l cols = Csv.Done l' -> x ∈ l' -> x ∈ l.
Proof.
  induction cols as [|c rest IH]; intros l l' x Hdel Hx.
  - by injection Hdel as <-.
  - cbn [Csv.del_cols] in Hdel. unfold Csv.del in Hdel.
    destruct (decide (c < length l)%nat) as [Hc|]; [|done].
    apply (IH _ _ x) in Hdel; [|done].
    eapply elem_of_sublist; [exact Hdel|]. apply sublist_delete.
Qed.

Lemma index_app_fresh (l : list string) (a x : string) :
  x ∉ l -> a <> x -> Csv.index (l ++ [a; x]) x = Some (S (length l)).
Proof.
  intros Hx Hax. induction l as [|h rest IH]; cbn [app Csv.index length].
  - rewrite decide_False by done. by rewrite decide_True.
  - apply not_elem_of_cons in Hx as [Hne Hx].
    rewrite decide_False by done. by rewrite IH.
Qed.

(** X16. In every file [generateCSV] writes, the heater readback column
    holds the text [0] in every data row, whatever the archiver
    returned: the positions of the readback columns are appended to the
    list of the setpoint columns, so that the setpoint column holds the
    sum over the setpoint and the readback columns of the row (or
    [None] when one of them is not a float), and both groups of columns
    are removed. *)
Theorem generateCSV_readback (float : string -> option Q)
    (heaterDesPVs heaterActPVs : list string) (str : Q -> string)
    (header : list string) (rows out : list (list string)) :
  Csv.generateCSV float heaterDesPVs heaterActPVs str (header :: rows)
  = Csv.Done out ->
  exists header' rows' cols,
    out = (header' ++ ["Electric Heat Load Setpoint"%string;
                       "Electric Heat Load Readback"%string]) :: rows'
    /\ length rows' = length rows
    /\ Forall2 (fun pv i => Csv.index header pv = Some i)
         (heaterDesPVs ++ heaterActPVs) cols
    /\ forall (i : nat) row,
         rows !! i = Some row ->
         exists row' total,
           rows' !! i = Some row'
           /\ Csv.sumCols float row cols Csv.Zero = Csv.Done total
           /\ (length row' + length cols = length row + 2)%nat
           /\ row' !! (length row' - 2)%nat
              = Some (Csv.str_heatLoad str total)
           /\ row' !! (length row' - 1)%nat = Some "0"%string.
Proof.
  intros Hgen.
  apply generateCSV_spec in Hgen
    as (header' & rows' & cols & -> & Hcols & _ & Hrows).
  exists header', rows', cols. split; [done|].
  split; [symmetry; by eapply Forall2_length|]. split; [done|].
  intros i row Hrow.
  destruct (Forall2_lookup_l _ _ _ _ _ Hrows Hrow)
    as (row' & Hrow' & total & kept & Hsum & Hkept & ->).
  exists (kept ++ [Csv.str_heatLoad str total; "0"%string]), total.
  split; [done|]. split; [done|].
  apply del_cols_length in Hkept.
  unfold Csv.sorted_reverse in Hkept.
  rewrite (Permutation_length (merge_sort_Permutation _ cols)) in Hkept.
  rewrite length_app. cbn [length].
  split; [lia|]. split.
  - rewrite lookup_app_r by lia.
    by replace (length kept + 2 - 2 - length kept)%nat with 0%nat by lia.
  - rewrite lookup_app_r by lia.
    by replace (length kept + 2 - 1 - length kept)%nat with 1%nat by lia.
Qed.

(** X17. A file written by [generateCSV] and read back by
    [parseDataFromCSV] fills the heater readback buffer with one and the
    same cell, the float read from the text [0], in every row: the
    readback of the heaters is lost. This for rows as long as the
    header, a header that does not already have the readback column, and
    distinct column names. *)
Theorem generateCSV_parse_readback (float : string -> option Q)
    (strptime : string -> string -> option datetime)
    (valvePV dsLevelPV gradPV dsPressurePV : string)
    (heaterDesPVs heaterActPVs : list string) (str : Q -> string)
    (header : list string) (rows file : list (list string))
    (k k' : Session) (tb tb' : list datetime) :
  NoDup (Csv.column_names valvePV dsLevelPV gradPV dsPressurePV) ->
  Forall (fun row => length row = length header) rows ->
  "Electric Heat Load Readback"%string ∉ header ->
  Csv.generateCSV float heaterDesPVs heaterActPVs str (header :: rows)
  = Csv.Done file ->
  Csv.parseDataFromCSV float strptime valvePV dsLevelPV gradPV dsPressurePV
    file k tb = Csv.Done (k', tb') ->
  elecHeatActBuff (session_base k')
  = elecHeatActBuff (session_base k)
    ++ replicate (length rows) (float "0"%string).
Proof.
  intros Hnodup Hrect Hfresh Hgen Hparse.
  apply generateCSV_spec in Hgen
    as (header' & rows' & cols & -> & _ & Hdel & Hrows).
  apply parse_spec in Hparse as (_ & _ & _ & Hbuff); [|done].
  destruct (Hbuff Csv.elecHeatAct) as (cells & Hcells & Hcol).
  cbn [Csv.buff Csv.column_of] in Hcells, Hcol.
  rewrite index_app_fresh in Hcol.
  - rewrite Hcells. f_equal.
    clear Hcells Hbuff. revert rows' cells Hrows Hcol.
    induction Hrect as [|row rest Hlen _ IH]; intros rows' cells Hrows Hcol.
    + inversion Hrows; subst. by inversion Hcol.
    + inversion Hrows as [|? row' ? rest' Hrow Hrest]; subst.
      inversion Hcol as [|? c ? cells' Hc Hcells']; subst.
      cbn [length replicate]. f_equal; [|by apply (IH rest')].
      destruct Hrow as (total & kept & _ & Hkept & ->).
      destruct Hc as (text & Htext & ->).
      apply del_cols_length in Hkept. apply del_cols_length in Hdel.
      rewrite lookup_app_r in Htext by lia.
      replace (S (length header') - length kept)%nat with 1%nat in Htext
        by lia.
      by injection Htext as <-.
  - intros Hin. apply Hfresh. by eapply del_cols_elem.
  - done.
Qed.

Lemma generateCSV_readback_witness :
  exists header' rows' cols,
    file_generated
    = (header' ++ ["Electric Heat Load Setpoint"%string;
                   "Electric Heat Load Readback"%string]) :: rows'
    /\ length rows' = length rows_raw
    /\ Forall2 (fun pv i => Csv.index header_raw pv = Some i)
         (["des1"%string] ++ ["act1"%string]) cols
    /\ forall (i : nat) row,
         rows_raw !! i = Some row ->
         exists row' total,
           rows' !! i = Some row'
           /\ Csv.sumCols float_sample row cols Csv.Zero = Csv.Done total
           /\ (length row' + length cols = length row + 2)%nat
           /\ row' !! (length row' - 2)%nat
              = Some (Csv.str_heatLoad str_sample total)
           /\ row' !! (length row' - 1)%nat = Some "0"%string.
Proof.
  apply (generateCSV_readback float_sample ["des1"%string] ["act1"%string]
           str_sample header_raw rows_raw file_generated).
  vm_compute. reflexivity.
Defined.

Lemma generateCSV_parse_readback_witness :
  elecHeatActBuff (session_base (Calib session_generated))
  = elecHeatActBuff (session_base (Calib session_new))
    ++ replicate (length rows_raw) (float_sample "0"%string).
Proof.
  apply (generateCSV_parse_readback float_sample strptime_sample
           "valve" "level" "grad" "press" ["des1"%string] ["act1"%string]
           str_sample header_raw rows_raw file_generated
           (Calib session_new) (Calib session_generated) [] [1551093900]).
  - apply (bool_decide_unpack _). vm_compute. exact I.
  - repeat constructor.
  - apply (bool_decide_unpack _). vm_compute. exact I.
  - vm_compute. reflexivity.
  - vm_compute. reflexivity.
Defined.

(** ** The RF runs on the calibration curve *)

Lemma for_rf_runs_spec {A} (s : DataSession) (f : DataRun -> py A)
    (runs : list DataRun) :
  forall ys,
    for_rf_runs s f runs = Ok ys ->
    Forall2 (fun r y => f r = Ok y) (List.filter (is_rf_run s) runs) ys.
Proof.
  induction runs as [|r rest IH]; intros ys Hfor.
  - injection Hfor as <-. constructor.
  - cbn [for_rf_runs] in Hfor. cbn [List.filter]. unfold is_rf_run at 1.
    destruct (isNotHeaterRun s r) as [[|]|]; [| |done]; py_step in Hfor.
    + destruct (f r) as [y|] eqn:Hy; [|done]. py_step in Hfor.
      destruct (for_rf_runs s f rest) as [ys'|]; [|done]. py_step in Hfor.
      injection Hfor as <-. constructor; [done|]. by apply IH.
    + by apply IH.
Qed.

Lemma for_rf_runs_bind {A B} (s : DataSession) (f : DataRun -> py A)
    (g : A -> py B) (runs : list DataRun) :
  forall ys,
    for_rf_runs s (fun r => t ← f r; g t) runs = Ok ys ->
    exists hs, for_rf_runs s f runs = Ok hs
               /\ Forall2 (fun h y => g h = Ok y) hs ys.
Proof.
  induction runs as [|r rest IH]; intros ys Hfor.
  - injection Hfor as <-. by exists [].
  - cbn [for_rf_runs] in Hfor |- *.
    destruct (isNotHeaterRun s r) as [[|]|]; [| |done];
      py_step in Hfor; py_step.
    + destruct (f r) as [t|]; [|done]. py_step in Hfor. py_step.
      destruct (g t) as [y|] eqn:Hy; [|done]. py_step in Hfor.
      destruct (for_rf_runs s _ rest) as [ys'|]; [|done]. py_step in Hfor.
      injection Hfor as <-.
      destruct (IH ys' eq_refl) as (hs & -> & Hall). py_step.
      exists (t :: hs). split; [done|]. by constructor.
    + by apply IH.
Qed.

(** X18. The points [adjustedRunSlopes] and [runHeatLoads] give for
    the runs that are not heater runs lie on the calibration line: the
    two lists have one entry per such run, in order; the heat load of a
    run is its fitted slope divided by the calibration slope plus the
    average heat adjustment, and its adjusted slope, the calibration
    slope times that heat load, is, for a calibration slope that is not
    zero, the fitted slope plus the calibration slope times the average
    heat adjustment. *)
Theorem adjustedRunSlopes_on_line (q : Q0DataSession) (ys : list Q) :
  adjustedRunSlopes q = Ok ys ->
  exists hs,
    runHeatLoads q = Ok hs
    /\ length hs
       = length (List.filter (is_rf_run (base q)) (dataRuns (base q)))
    /\ length ys = length hs
    /\ forall (i : nat) r,
         List.filter (is_rf_run (base q)) (dataRuns (base q)) !! i = Some r ->
         exists m sl a,
           calibSession_calibSlope q = Ok (Some m)
           /\ slope r = Some sl
           /\ aveHeatAdjustment q = Ok a
           /\ hs !! i = Some (sl / m + a)%Q
           /\ ys !! i = Some (m * (sl / m + a))%Q
           /\ (~ (m == 0)%Q -> (m * (sl / m + a) == sl + m * a)%Q).
Proof.
  unfold adjustedRunSlopes, runHeatLoads. intros Hadj.
  destruct (calibSession_calibSlope q) as [mc|] eqn:Hmc; [|done].
  py_step in Hadj.
  apply for_rf_runs_bind in Hadj as (hs & Hhs & Hys).
  exists hs. split; [done|].
  apply for_rf_runs_spec in Hhs.
  split; [symmetry; by eapply Forall2_length|].
  split; [symmetry; by eapply Forall2_length|].
  intros i r Hr.
  assert (is_rf_run (base q) r = true) as Hrf.
  { apply list_elem_of_lookup_2 in Hr. apply list_elem_of_In in Hr.
    by apply filter_In in Hr as [_ Hr]. }
  destruct (Forall2_lookup_l _ _ _ _ _ Hhs Hr) as (h & Hh & Htotal).
  destruct (Forall2_lookup_l _ _ _ _ _ Hys Hh) as (y & Hy & Hmul).
  unfold is_rf_run in Hrf. unfold totalHeatLoad in Htotal.
  destruct (isNotHeaterRun (base q) r) as [[|]|]; [|done|done].
  py_step in Htotal. unfold slope_over_calibSlope in Htotal.
  rewrite Hmc in Htotal. py_step in Htotal.
  destruct (slope r) as [sl|]; [|done]. cbn [operand] in Htotal.
  py_step in Htotal.
  destruct mc as [m|]; [|done]. cbn [operand] in Htotal, Hmul.
  py_step in Htotal. py_step in Hmul. unfold div in Htotal.
  destruct (Qeq_bool m 0) eqn:Hm0; [done|]. py_step in Htotal.
  destruct (aveHeatAdjustment q) as [a|]; [|done]. py_step in Htotal.
  injection Htotal as <-. injection Hmul as <-.
  exists m, sl, a.
  repeat (split; [done|]). intros Hne. field. done.
Qed.

Lemma adjustedRunSlopes_on_line_witness :
  exists hs,
    runHeatLoads q0_session_rising = Ok hs
    /\ length hs
       = length (List.filter (is_rf_run (base q0_session_rising))
                   (dataRuns (base q0_session_rising)))
    /\ length [(- (1 # 1000) * ((1 # 1000) / - (1 # 1000) + 0))%Q]
       = length hs
    /\ forall (i : nat) r,
         List.filter (is_rf_run (base q0_session_rising))
           (dataRuns (base q0_session_rising)) !! i = Some r ->
         exists m sl a,
           calibSession_calibSlope q0_session_rising = Ok (Some m)
           /\ slope r = Some sl
           /\ aveHeatAdjustment q0_session_rising = Ok a
           /\ hs !! i = Some (sl / m + a)%Q
           /\ [(- (1 # 1000) * ((1 # 1000) / - (1 # 1000) + 0))%Q] !! i
              = Some (m * (sl / m + a))%Q
           /\ (~ (m == 0)%Q -> (m * (sl / m + a) == sl + m * a)%Q).
Proof.
  apply (adjustedRunSlopes_on_line q0_session_rising
           [(- (1 # 1000) * ((1 # 1000) / - (1 # 1000) + 0))%Q]).
  reflexivity.
Defined.
